(** * OCR recognition system: a shallow embedding of the service logic

    The development follows the layout of the Python sources: one Rocq
    module per Python module ([config], [security], [auth_service],
    [file_service], [ocr_service], [ocr_tasks], [cleanup_tasks],
    [stats_tasks], [init_admin] and the routers [api_users], [api_ocr],
    [api_admin]) and one per row class of [models.py].  Definitions
    come first, the theorems about them follow in the second half of
    the file.  The modules [identity], [accounts], [file_store],
    [task_queries], [task_batch] and [engine_listing] continue
    [security], [auth_service], [file_service], [ocr_service] and
    [ocr_tasks] with the functions the first part leaves out.

    Conventions of the embedding.
    - A Python call that may raise is a value of [pyresult]: either
      [Return v] or [Raise e] with [e] an exception object.
    - The SQLAlchemy session is the record [DB]; a function that writes
      returns the store it leaves behind.  [db.rollback()] returns to the
      last committed store.
    - Log sinks ([utils/logger.py]) are write-only and never read back;
      calls to them are left out.
    - Third-party functions (JWT decoding, bcrypt, MD5, MIME guessing) are
      the fields of the class [Externals].
    - The mapped classes are what [models.py] declares.  An attribute
      the code names but the model does not declare raises as it does
      in Python: [TypeError] as a keyword of the constructor,
      [AttributeError] when it is read from the class or from an object
      that never had it assigned; assigned to an object, it stays in
      the instance dictionary and never reaches the store.
    - The session the queue jobs open with [get_db_session()] is the
      context manager [database.py] defines: commit on a normal exit,
      rollback on an exception.
    - Strings are sequences of bytes and the character classes are
      those of ASCII; on ASCII text this is what Python computes. *)

From Stdlib Require Import ZArith List String Ascii Bool Lia QArith.
From stdpp Require Import gmap strings pretty.

Local Open Scope string_scope.
Local Open Scope Z_scope.
Local Open Scope list_scope.

(** ** Dates and times ([datetime.date], [datetime.datetime]) *)

Module pytime.

Record date := mkdate { year : Z; month : Z; day : Z }.

Record datetime := mkdt {
  dt_date : date;
  hour : Z; minute : Z; second : Z; microsecond : Z
}.

#[global] Instance date_eq_dec : EqDecision date.
Proof. solve_decision. Defined.
#[global] Instance datetime_eq_dec : EqDecision datetime.
Proof. solve_decision. Defined.

(** Day number of a civil date, counted from 1970-01-01, and back
    (proleptic Gregorian calendar, as Python's [toordinal] up to the
    choice of day zero). *)
Definition days_from_civil (d : date) : Z :=
  let y := if month d <=? 2 then year d - 1 else year d in
  let era := y / 400 in
  let yoe := y - era * 400 in
  let mp := if 2 <? month d then month d - 3 else month d + 9 in
  let doy := (153 * mp + 2) / 5 + day d - 1 in
  let doe := yoe * 365 + yoe / 4 - yoe / 100 + doy in
  era * 146097 + doe - 719468.

Definition civil_from_days (n : Z) : date :=
  let z := n + 719468 in
  let era := z / 146097 in
  let doe := z - era * 146097 in
  let yoe := (doe - doe / 1460 + doe / 36524 - doe / 146096) / 365 in
  let doy := doe - (365 * yoe + yoe / 4 - yoe / 100) in
  let mp := (5 * doy + 2) / 153 in
  let d := doy - (153 * mp + 2) / 5 + 1 in
  let m := if mp <? 10 then mp + 3 else mp - 9 in
  mkdate (if m <=? 2 then yoe + era * 400 + 1 else yoe + era * 400) m d.

Definition day_micros : Z := 86400 * 1000000.

Definition micros (t : datetime) : Z :=
  days_from_civil (dt_date t) * day_micros
  + ((hour t * 60 + minute t) * 60 + second t) * 1000000 + microsecond t.

Definition of_micros (z : Z) : datetime :=
  let r := z mod day_micros in
  mkdt (civil_from_days (z / day_micros))
       (r / 3600000000) (r / 60000000 mod 60) (r / 1000000 mod 60)
       (r mod 1000000).

(** [t + timedelta(days=d, hours=h)] *)
Definition add_timedelta (t : datetime) (d h : Z) : datetime :=
  of_micros (micros t + d * day_micros + h * 3600000000).

(** [a < b] on datetimes *)
Definition ltb (a b : datetime) : bool := micros a <? micros b.

(** [t.date()] *)
Definition date_of (t : datetime) : date := dt_date t.

(** [d.replace(day=n)] *)
Definition replace_day (d : date) (n : Z) : date :=
  mkdate (year d) (month d) n.

(** [t.replace(hour=0, minute=0, second=0, microsecond=0)] *)
Definition at_midnight (t : datetime) : datetime := mkdt (dt_date t) 0 0 0 0.

(** [t.replace(day=1, hour=0, minute=0, second=0, microsecond=0)] *)
Definition at_month_start (t : datetime) : datetime :=
  mkdt (replace_day (dt_date t) 1) 0 0 0 0.

End pytime.

(** ** Python values, exceptions and results *)

Inductive pyval :=
| VNone
| VBool (b : bool)
| VInt (z : Z)
| VStr (s : string)
| VDate (d : pytime.date)
| VDateTime (t : pytime.datetime).

#[global] Instance pyval_eq_dec : EqDecision pyval.
Proof. solve_decision. Defined.

(** [v is None] *)
Definition is_None (v : pyval) : bool :=
  match v with VNone => true | _ => false end.

(** The exception classes the modelled code raises or catches.  Every
    one of them is a subclass of Python's [Exception]. *)
Inductive exn :=
| ValueError (msg : string)
| AttributeError (msg : string)
| TypeError (msg : string)
| OSError (msg : string)
| JWTError (msg : string)
| HTTPException (status_code : Z) (detail : string)
| Retry (countdown : Z)
| Exception (msg : string).

(** [str(e)] *)
Definition exn_str (e : exn) : string :=
  match e with
  | ValueError m | AttributeError m | TypeError m | OSError m
  | JWTError m | Exception m => m
  | HTTPException _ d => d
  | Retry c => "Retry in " +:+ pretty c +:+ "s"
  end.

Inductive pyresult (A : Type) :=
| Return (a : A)
| Raise (e : exn).
Arguments Return {A} a.
Arguments Raise {A} e.

(** Sequencing: an exception raised by the first statement skips the
    rest.  The instances give the notation [x ← r; k]. *)
#[global] Instance pyresult_ret : MRet pyresult := fun A a => Return a.
#[global] Instance pyresult_bind : MBind pyresult := fun A B k r =>
  match r with
  | Return a => k a
  | Raise e => Raise e
  end.

(** [try: body / except ...: handler].  The handler answers [None] for an
    exception that none of the [except] clauses matches. *)
Definition try_except {A} (body : pyresult A)
    (handler : exn -> option (pyresult A)) : pyresult A :=
  match body with
  | Return a => Return a
  | Raise e => match handler e with
               | Some r => r
               | None => Raise e
               end
  end.

Definition returns {A} (r : pyresult A) : Prop := exists a, r = Return a.

(** ** Strings and bytes, the way the Python code uses them *)

Module pystr.

Definition chars (s : string) : list ascii := list_ascii_of_string s.
Definition str (l : list ascii) : string := string_of_list_ascii l.

Definition ord (c : ascii) : Z := Z.of_N (N_of_ascii c).
Definition chr (z : Z) : ascii := ascii_of_N (Z.to_N z).

Definition len (s : string) : Z := Z.of_nat (String.length s).

(** Character classes, on the ASCII range. *)
Definition isupper (c : ascii) : bool := (65 <=? ord c) && (ord c <=? 90).
Definition islower (c : ascii) : bool := (97 <=? ord c) && (ord c <=? 122).
Definition isdigit (c : ascii) : bool := (48 <=? ord c) && (ord c <=? 57).
Definition isalpha (c : ascii) : bool := isupper c || islower c.

Definition lower_char (c : ascii) : ascii :=
  if isupper c then chr (ord c + 32) else c.

(** [s.lower()] *)
Definition lower (s : string) : string := str (map lower_char (chars s)).

(** [c in s] for a one-character [c] *)
Definition contains (s : string) (c : ascii) : bool :=
  existsb (Ascii.eqb c) (chars s).

(** [any(p(c) for c in s)] *)
Definition any (p : ascii -> bool) (s : string) : bool :=
  existsb p (chars s).

Definition all (p : ascii -> bool) (s : string) : bool :=
  forallb p (chars s).

Fixpoint rfind_from (c : ascii) (l : list ascii) (i acc : Z) : Z :=
  match l with
  | [] => acc
  | x :: r => rfind_from c r (i + 1) (if Ascii.eqb x c then i else acc)
  end.

(** [s.rfind(c)]: the highest index of [c], or [-1]. *)
Definition rfind (s : string) (c : ascii) : Z :=
  rfind_from c (chars s) 0 (-1).

Fixpoint find_from (c : ascii) (l : list ascii) (i : Z) : Z :=
  match l with
  | [] => -1
  | x :: r => if Ascii.eqb x c then i else find_from c r (i + 1)
  end.

(** [s.find(c)]: the lowest index of [c], or [-1]. *)
Definition find (s : string) (c : ascii) : Z := find_from c (chars s) 0.

(** [s[i:]] and [s[:i]] for [0 <= i]. *)
Definition slice_from (s : string) (i : Z) : string :=
  str (drop (Z.to_nat i) (chars s)).
Definition slice_to (s : string) (i : Z) : string :=
  str (take (Z.to_nat i) (chars s)).

Fixpoint split_on (c : ascii) (l : list ascii) (cur : list ascii)
    : list (list ascii) :=
  match l with
  | [] => [rev cur]
  | x :: r => if Ascii.eqb x c then rev cur :: split_on c r []
              else split_on c r (x :: cur)
  end.

(** [sep.join(parts)] *)
Fixpoint join (sep : string) (parts : list string) : string :=
  match parts with
  | [] => ""
  | [p] => p
  | p :: rest => p +:+ sep +:+ join sep rest
  end.

(** [int.__str__] *)
Definition of_int (z : Z) : string := pretty z.

End pystr.

(** ** Bytes *)

Definition bytes := list Byte.byte.

Fixpoint startswith (content magic : bytes) {struct magic} : bool :=
  match magic, content with
  | [], _ => true
  | _ :: _, [] => false
  | m :: ms, c :: cs => Byte.eqb c m && startswith cs ms
  end.

Definition blen (b : bytes) : Z := Z.of_nat (length b).

(** ** Third-party functions

    The libraries the code calls but does not contain.  Hashes and
    decoders are arbitrary functions; nothing is assumed about them
    beyond their types. *)

Class Externals := {
  (** [jose.jwt.decode(token, key, algorithms=[alg])]: the claims of the
      token, or the exception the library raises. *)
  jwt_decode : string -> string -> string -> pyresult (gmap string pyval);
  (** [pwd_context.hash(password)] *)
  pwd_hash : string -> pyresult string;
  (** [hashlib.md5(content).hexdigest()] *)
  md5_hexdigest : bytes -> string;
  (** [mimetypes.guess_type(filename)[0]] *)
  guess_type : string -> option string
}.

(** ** [config.py] *)

Module config.

Record Settings := {
  secret_key : string;
  algorithm : string;
  access_token_expire_minutes : Z;
  upload_dir : string;
  max_file_size : Z;
  allowed_extensions : list string;
  tesseract_enabled : bool;
  paddleocr_enabled : bool;
  easyocr_enabled : bool;
  baidu_ocr_enabled : bool;
  tencent_ocr_enabled : bool;
  ali_ocr_enabled : bool;
  azure_ocr_enabled : bool;
  free_user_daily_quota : Z;
  premium_user_daily_quota : Z
}.

(** The values of [Settings()] when the environment overrides none. *)
Definition settings : Settings := {|
  secret_key := "your-secret-key-change-in-production";
  algorithm := "HS256";
  access_token_expire_minutes := 30;
  upload_dir := "./uploads";
  max_file_size := 50 * 1024 * 1024;
  allowed_extensions := [".pdf"; ".png"; ".jpg"; ".jpeg"; ".tiff"; ".bmp"];
  tesseract_enabled := true;
  paddleocr_enabled := true;
  easyocr_enabled := true;
  baidu_ocr_enabled := false;
  tencent_ocr_enabled := false;
  ali_ocr_enabled := false;
  azure_ocr_enabled := false;
  free_user_daily_quota := 100;
  premium_user_daily_quota := 10000
|}.

(** A Python dict keeps its keys in insertion order, and iterating it
    yields the keys: the table is an association list. *)
Definition OCR_ENGINE_PRIORITY : list (string * list string) :=
  [ ("free", ["paddleocr"; "tesseract"; "easyocr"]);
    ("premium", ["baidu_ocr"; "tencent_ocr"; "aliyun_ocr"; "azure_ocr"]);
    ("auto", ["baidu_ocr"; "paddleocr"; "tesseract"]) ].

(** [for k in d] *)
Definition dict_keys {V} (d : list (string * V)) : list string := map fst d.

Definition SUPPORTED_FILE_TYPES : gmap string string :=
  {[ ".pdf" := "application/pdf"; ".png" := "image/png";
     ".jpg" := "image/jpeg"; ".jpeg" := "image/jpeg";
     ".tiff" := "image/tiff"; ".bmp" := "image/bmp";
     ".webp" := "image/webp" ]}.

Definition OCR_ENGINE_COSTS : gmap string Q :=
  {[ "tesseract" := 0%Q; "paddleocr" := 0%Q; "easyocr" := 0%Q;
     "baidu_ocr" := (4 # 1000)%Q; "baidu_ocr_accurate" := (8 # 1000)%Q;
     "tencent_ocr" := (6 # 1000)%Q; "aliyun_ocr" := (1 # 100)%Q;
     "azure_ocr" := (1 # 100)%Q ]}.

End config.

(** ** The declarative base of SQLAlchemy ([database.py]: [Base])

    A mapped class has the attributes its model declares: the columns
    and the relationships.  The constructor the base gives every model
    takes keywords and raises [TypeError] for the first one that is not
    an attribute of the class.  Naming an undeclared attribute on the
    class, as in a filter, or reading one from an object that never had
    it assigned, raises [AttributeError].  Assigning an undeclared
    attribute to an object succeeds: the value lands in the instance
    dictionary and is not written to the store on commit. *)

Module orm.

Definition invalid_keyword (cls k : string) : exn :=
  TypeError ("'" +:+ k +:+ "' is an invalid keyword argument for " +:+ cls).

Definition no_class_attribute (cls name : string) : exn :=
  AttributeError
    ("type object '" +:+ cls +:+ "' has no attribute '" +:+ name +:+ "'").

Definition no_attribute (cls name : string) : exn :=
  AttributeError ("'" +:+ cls +:+ "' object has no attribute '" +:+ name +:+ "'").

(** [Cls(k1=v1, ...)]: [row] is the row the keywords describe when all of
    them are attributes of the class. *)
Definition construct {A} (attributes : list string) (cls : string)
    (kwargs : list string) (row : A) : pyresult A :=
  match List.find (fun k => negb (bool_decide (k ∈ attributes))) kwargs with
  | Some k => Raise (invalid_keyword cls k)
  | None => Return row
  end.

(** [Cls.name] in a query: the column of that name, by type. *)
Definition class_attr {C} (columns : string -> option C) (cls name : string)
    : pyresult C :=
  match columns name with
  | Some c => Return c
  | None => Raise (no_class_attribute cls name)
  end.

(** A value in an instance dictionary. *)
Inductive attr :=
| AInt (z : Z)
| AStr (s : string)
| AFloat (q : Q)
| ATime (t : pytime.datetime).

(** [if v:] *)
Definition truthy (v : attr) : bool :=
  match v with
  | AInt z => negb (z =? 0)
  | AStr s => negb (bool_decide (s = ""))
  | AFloat q => negb (Qeq_bool q 0)
  | ATime _ => true
  end.

Definition as_int (v : attr) : Z :=
  match v with AInt z => z | _ => 0 end.
Definition as_str (v : attr) : string :=
  match v with AStr s => s | _ => "" end.

(** A call [f(k1=v1, ...)] of a function with the named parameters. *)
Definition call (params : list string) (f : string) (kwargs : list string)
    : pyresult unit :=
  match List.find (fun k => negb (bool_decide (k ∈ params))) kwargs with
  | Some k => Raise (TypeError (f +:+ "() got an unexpected keyword argument '"
                                +:+ k +:+ "'"))
  | None => Return tt
  end.

End orm.

(** ** [models.py]: the rows of the relational store

    The records carry the columns the models declare, under the names
    the models give them.  Columns that only the database fills in
    ([created_at], [updated_at], [upload_time], [request_time]) and
    columns that no modelled function names are left out of the
    records; the attribute lists hold every declared name. *)

Module User.
Record t := mk {
  id : Z;
  username : string;
  email : string;
  hashed_password : string;
  plan_type : string;
  api_quota : Z;
  is_active : bool;
  is_admin : bool
}.
Definition set_is_admin (b : bool) (u : t) : t :=
  mk (id u) (username u) (email u) (hashed_password u) (plan_type u)
     (api_quota u) (is_active u) b.
Definition set_is_active (b : bool) (u : t) : t :=
  mk (id u) (username u) (email u) (hashed_password u) (plan_type u)
     (api_quota u) b (is_admin u).
End User.

Module UserQuota.
Record t := mk {
  id : Z;
  user_id : Z;
  quota_type : string;
  quota_limit : Z;
  quota_used : Z;
  reset_time : pytime.datetime
}.
End UserQuota.

Module File.
Record t := mk {
  id : Z;
  user_id : Z;
  filename : string;
  original_filename : string;
  file_path : string;
  file_size : Z;
  file_type : string;
  mime_type : string;
  file_hash : string;
  status : string;
  processed_at : option pytime.datetime
}.
Definition set_status (s : string) (f : t) : t :=
  mk (id f) (user_id f) (filename f) (original_filename f) (file_path f)
     (file_size f) (file_type f) (mime_type f) (file_hash f) s
     (processed_at f).
Definition set_processed_at (d : pytime.datetime) (f : t) : t :=
  mk (id f) (user_id f) (filename f) (original_filename f) (file_path f)
     (file_size f) (file_type f) (mime_type f) (file_hash f) (status f)
     (Some d).
End File.

Module OCRTask.
(** [processing_time], [cost], [created_at] and [options] are left
    out. *)
Record t := mk {
  id : Z;
  file_id : Z;
  engine_type : string;
  language : string;
  status : string;
  priority : Z;
  progress : Z;
  start_time : option pytime.datetime;
  end_time : option pytime.datetime;
  error_message : option string
}.
Definition set_status (s : string) (k : t) : t :=
  mk (id k) (file_id k) (engine_type k) (language k) s (priority k)
     (progress k) (start_time k) (end_time k) (error_message k).
Definition set_error_message (m : string) (k : t) : t :=
  mk (id k) (file_id k) (engine_type k) (language k) (status k) (priority k)
     (progress k) (start_time k) (end_time k) (Some m).

(** The columns and the relationships of the class. *)
Definition attributes : list string :=
  ["id"; "file_id"; "engine_type"; "language"; "status"; "priority";
   "progress"; "start_time"; "end_time"; "processing_time"; "error_message";
   "cost"; "created_at"; "options"; "file"; "results"].

(** The columns by name, for the comparisons of a filter. *)
Definition int_column (name : string) : option (t -> Z) :=
  if bool_decide (name = "id") then Some id
  else if bool_decide (name = "file_id") then Some file_id
  else if bool_decide (name = "priority") then Some priority
  else if bool_decide (name = "progress") then Some progress
  else None.
Definition str_column (name : string) : option (t -> string) :=
  if bool_decide (name = "engine_type") then Some engine_type
  else if bool_decide (name = "language") then Some language
  else if bool_decide (name = "status") then Some status
  else None.
Definition time_column (name : string)
    : option (t -> option pytime.datetime) :=
  if bool_decide (name = "start_time") then Some start_time
  else if bool_decide (name = "end_time") then Some end_time
  else None.

(** A task object in a session: the row, and the instance dictionary
    with whatever undeclared attribute the code has assigned to the
    object.  Only the row is written to the store on commit. *)
Record obj := {
  row : t;
  extra : gmap string orm.attr
}.

(** An object as a query returns it. *)
Definition loaded (k : t) : obj := {| row := k; extra := ∅ |}.

(** [task.name] for a name that is not a column. *)
Definition instance_attr (task : obj) (name : string) : pyresult orm.attr :=
  match extra task !! name with
  | Some v => Return v
  | None => Raise (orm.no_attribute "OCRTask" name)
  end.

(** [task.name = v] for a name that is not a column. *)
Definition set_instance_attr (name : string) (v : orm.attr) (task : obj)
    : obj :=
  {| row := row task; extra := <[ name := v ]> (extra task) |}.

(** [task.status = s] and the like: a write to a column. *)
Definition set_row (f : t -> t) (task : obj) : obj :=
  {| row := f (row task); extra := extra task |}.
End OCRTask.

(** One recognised block: [{'text': .., 'confidence': .., 'bbox': [..]}] *)
Record Block := {
  block_text : string;
  block_confidence : Q;
  bbox : list Z
}.

Module OCRResult.
(** [processing_time] and [created_at] are left out. *)
Record t := mk {
  id : Z;
  task_id : Z;
  page_number : Z;
  extracted_text : option string;
  confidence : option Q;
  word_count : option Z;
  bounding_boxes : list Block;
  language_detected : option string
}.

Definition attributes : list string :=
  ["id"; "task_id"; "page_number"; "extracted_text"; "confidence";
   "word_count"; "bounding_boxes"; "language_detected"; "processing_time";
   "created_at"; "task"].
End OCRResult.

Module APIUsage.
(** [response_time], [request_size], [response_size], [ip_address],
    [user_agent] and [request_time] are left out. *)
Record t := mk {
  id : Z;
  user_id : Z;
  endpoint : string;
  method : string;
  status_code : Z;
  cost : Q
}.

Definition attributes : list string :=
  ["id"; "user_id"; "endpoint"; "method"; "status_code"; "response_time";
   "request_size"; "response_size"; "cost"; "ip_address"; "user_agent";
   "request_time"; "user"].
End APIUsage.

(** ** [database.py]: the session *)

Record DB := mkDB {
  users : list User.t;
  quotas : list UserQuota.t;
  files : list File.t;
  tasks : list OCRTask.t;
  results : list OCRResult.t;
  api_usage : list APIUsage.t
}.

Definition empty_db : DB := mkDB [] [] [] [] [] [].

Definition with_users (us : list User.t) (db : DB) : DB :=
  mkDB us (quotas db) (files db) (tasks db) (results db) (api_usage db).
Definition with_quotas (qs : list UserQuota.t) (db : DB) : DB :=
  mkDB (users db) qs (files db) (tasks db) (results db) (api_usage db).
Definition with_files (fs : list File.t) (db : DB) : DB :=
  mkDB (users db) (quotas db) fs (tasks db) (results db) (api_usage db).
Definition with_tasks (ts : list OCRTask.t) (db : DB) : DB :=
  mkDB (users db) (quotas db) (files db) ts (results db) (api_usage db).
Definition with_results (rs : list OCRResult.t) (db : DB) : DB :=
  mkDB (users db) (quotas db) (files db) (tasks db) rs (api_usage db).
Definition with_api_usage (us : list APIUsage.t) (db : DB) : DB :=
  mkDB (users db) (quotas db) (files db) (tasks db) (results db) us.

(** The key the store gives a new row: one past the largest in use. *)
Definition fresh_id (ids : list Z) : Z := 1 + fold_right Z.max 0 ids.

(** [query.filter(p).first()] *)
Definition first {A} (p : A -> bool) (rows : list A) : option A :=
  List.find p rows.

(** Writing back the attributes of a loaded row on commit. *)
Definition update_row {A} (key : A -> Z) (row : A) (rows : list A) : list A :=
  map (fun r => if key r =? key row then row else r) rows.

Definition str_eqb (a b : string) : bool := bool_decide (a = b).

(** ** [os.path] and [pathlib] on POSIX paths *)

Module pypath.
Import pystr.

Definition dot : ascii := "."%char.
Definition slash : ascii := "/"%char.

(** [os.path.splitext(p)]: the extension starts at the last dot of the
    last component, unless only dots precede it there. *)
Definition splitext (p : string) : string * string :=
  let sepIndex := rfind p slash in
  let dotIndex := rfind p dot in
  if (sepIndex <? dotIndex)
     && any (fun c => negb (Ascii.eqb c dot))
            (slice_to (slice_from p (sepIndex + 1)) (dotIndex - (sepIndex + 1)))
  then (slice_to p dotIndex, slice_from p dotIndex)
  else (p, "").

(** The components of a relative path: [Path(p)] drops the empty ones
    and the single dots. *)
Definition parts (p : string) : list string :=
  List.filter (fun x => negb (str_eqb x "") && negb (str_eqb x "."))
         (map str (split_on slash (chars p) [])).

(** [str(Path(p) / child)] for a relative [p] *)
Definition joinpath (p child : string) : string :=
  join "/" (parts p ++ parts child).

(** [Path(p).name]: the last component *)
Definition name (p : string) : string := List.last (parts p) "".

(** [Path(p).suffix] *)
Definition suffix (p : string) : string :=
  let n := name p in
  let i := rfind n dot in
  if (0 <? i) && (i <? len n - 1) then slice_from n i else "".

End pypath.

(** ** [utils/security.py] *)

Module security.
Import pystr.

Section with_externals.
Context `{Externals}.

(** [get_password_hash]: any failure of the hashing library
    resurfaces as a [ValueError]. *)
Definition get_password_hash (password : string) : pyresult string :=
  try_except (pwd_hash password)
    (fun _ => Some (Raise (ValueError "密码处理失败"))).

(** [verify_token]: the first handler takes the library's [JWTError]
    (and its subclasses for expiry and claim errors), the second
    every other [Exception]. *)
Definition verify_token (cfg : config.Settings) (token : string)
    : pyresult (option (gmap string pyval)) :=
  try_except
    (payload ← jwt_decode token (config.secret_key cfg)
                          (config.algorithm cfg);
     let username := default VNone (payload !! "sub") in
     if is_None username then Return None
     else Return (Some payload))
    (fun e => match e with
              | JWTError _ => Some (Return None)
              | _ => Some (Return None)
              end).

(** [calculate_file_hash] *)
Definition calculate_file_hash (file_content : bytes) : string :=
  md5_hexdigest file_content.

End with_externals.

Definition plan_hierarchy : gmap string Z :=
  {[ "free" := 0; "premium" := 1; "enterprise" := 2 ]}.

(** [plan_hierarchy.get(name, 0)] *)
Definition plan_level (name : string) : Z :=
  default 0 (plan_hierarchy !! name).

Definition check_user_permissions (user : User.t) (required_plan : string)
    : bool :=
  let user_level := plan_level (User.plan_type user) in
  let required_level := plan_level required_plan in
  required_level <=? user_level.

(** [require_plan(required_plan)]: the dependency that guards an
    endpoint. *)
Definition require_plan (required_plan : string) (current_user : User.t)
    : pyresult User.t :=
  if negb (check_user_permissions current_user required_plan)
  then Raise (HTTPException 403
                ("需要 " +:+ required_plan +:+ " 计划才能访问此功能"))
  else Return current_user.

Definition special_characters : string := "!@#$%^&*()_+-=[]{}|;:,.<>?".

Definition validate_password_strength (password : string) : bool :=
  if len password <? 8 then false
  else
    let has_upper := any isupper password in
    let has_lower := any islower password in
    let has_digit := any isdigit password in
    let has_special := any (contains special_characters) password in
    3 <=? Z.b2z has_upper + Z.b2z has_lower + Z.b2z has_digit
          + Z.b2z has_special.

(** The characters [re.sub] replaces in [sanitize_filename]: the angle
    brackets, colon, double quote (code 34), slash, backslash (code
    92), bar, question mark and star. *)
Definition dangerous (c : ascii) : bool :=
  existsb (Ascii.eqb c)
    ["<"%char; ">"%char; ":"%char; chr 34; "/"%char; chr 92; "|"%char;
     "?"%char; "*"%char].

Definition sanitize_filename (filename : string) : string :=
  let filename := str (map (fun c => if dangerous c then "_"%char else c)
                           (chars filename)) in
  let filename := str (List.filter (fun c => 32 <=? ord c) (chars filename)) in
  let '(name, ext) := pypath.splitext filename in
  let name := if 200 <? len name then slice_to name 200 else name in
  name +:+ ext.

(** What [generate_secure_filename] draws from the clock and from
    [uuid4]. *)
Record Fresh := { timestamp : string; unique_id : string }.

Definition generate_secure_filename (fresh : Fresh)
    (original_filename : string) (user_id : Z) : string :=
  let '(_, ext) := pypath.splitext original_filename in
  "user_" +:+ of_int user_id +:+ "_" +:+ timestamp fresh +:+ "_"
    +:+ unique_id fresh +:+ ext.

End security.

(** ** [services/auth_service.py] *)

Module auth_service.
Import pystr.

Definition newline : ascii := chr 10.

(** A pattern that ends in [$] also matches just before one final
    newline; the body of the match is the string without it. *)
Definition match_body (s : string) : string :=
  match rev (chars s) with
  | c :: r => if Ascii.eqb c newline then str (rev r) else s
  | [] => s
  end.

Definition word_char (c : ascii) : bool :=
  isalpha c || isdigit c || Ascii.eqb c "_"%char.

(** [re.match(r'^[a-zA-Z0-9_]{3,50}$', username) is not None] *)
Definition validate_username (username : string) : bool :=
  let body := match_body username in
  (3 <=? len body) && (len body <=? 50) && all word_char body.

Definition local_char (c : ascii) : bool :=
  isalpha c || isdigit c || contains "._%+-" c.
Definition domain_char (c : ascii) : bool :=
  isalpha c || isdigit c || contains ".-" c.

(** [re.match(r'^[a-zA-Z0-9._%+-]+@[a-zA-Z0-9.-]+\.[a-zA-Z]{2,}$', email)
    is not None].  The local part ends at the first [@]; the letters
    after the last dot of the rest are the top-level domain. *)
Definition validate_email (email : string) : bool :=
  let body := match_body email in
  let at_ := find body "@"%char in
  if at_ <? 0 then false
  else
    let local := slice_to body at_ in
    let rest := slice_from body (at_ + 1) in
    let i := rfind rest "."%char in
    let tld := slice_from rest (i + 1) in
    (0 <? len local) && all local_char local
    && (0 <? i) && all domain_char (slice_to rest i)
    && (2 <=? len tld) && all isalpha tld.

(** [_create_user_quota]: one daily and one monthly row. *)
Definition _create_user_quota (cfg : config.Settings) (now : pytime.datetime)
    (db : DB) (user_id : Z) (plan_type : string) : DB :=
  let daily_limit := if str_eqb plan_type "free"
                     then config.free_user_daily_quota cfg
                     else config.premium_user_daily_quota cfg in
  let daily_id := fresh_id (map UserQuota.id (quotas db)) in
  let daily_quota :=
    UserQuota.mk daily_id user_id "daily" daily_limit 0
      (pytime.add_timedelta (pytime.at_midnight now) 1 0) in
  let monthly_limit := if str_eqb plan_type "free"
                       then config.free_user_daily_quota cfg * 30
                       else config.premium_user_daily_quota cfg * 30 in
  let monthly_quota :=
    UserQuota.mk (daily_id + 1) user_id "monthly" monthly_limit 0
      (pytime.add_timedelta (pytime.at_month_start now) 32 0) in
  with_quotas (quotas db ++ [daily_quota; monthly_quota]) db.

Section with_externals.
Context `{Externals}.

(** [register_user].  Every [raise] sits before the first write, so
    the [db.rollback()] of the handlers gives back the store
    unchanged. *)
Definition register_user (cfg : config.Settings) (now : pytime.datetime)
    (db : DB) (username email password plan_type : string)
    (is_admin : bool) : DB * pyresult User.t :=
  if negb (validate_username username) then
    (db, Raise (ValueError
      "用户名格式不正确，只能包含字母、数字、下划线，长度3-50位"))
  else if negb (validate_email email) then
    (db, Raise (ValueError "邮箱格式不正确"))
  else if negb (security.validate_password_strength password) then
    (db, Raise (ValueError
      "密码强度不够，至少8位且包含大小写字母、数字、特殊字符中的3种"))
  else
    match first (fun u => str_eqb (User.username u) username
                          || str_eqb (User.email u) email) (users db) with
    | Some existing_user =>
        if str_eqb (User.username existing_user) username
        then (db, Raise (ValueError "用户名已存在"))
        else (db, Raise (ValueError "邮箱已被注册"))
    | None =>
        match security.get_password_hash password with
        | Raise e => (db, Raise e)
        | Return hashed_password =>
            let user :=
              User.mk (fresh_id (map User.id (users db)))
                username email hashed_password plan_type
                (if str_eqb plan_type "free"
                 then config.free_user_daily_quota cfg
                 else config.premium_user_daily_quota cfg)
                true is_admin in
            let db := with_users (users db ++ [user]) db in
            let db := _create_user_quota cfg now db (User.id user)
                                         plan_type in
            (db, Return user)
        end
    end.

End with_externals.

End auth_service.

(** ** [init_admin.py] *)

Module init_admin.

Section with_externals.
Context `{Externals}.

Definition init_admin_user (cfg : config.Settings) (now : pytime.datetime)
    (db : DB) : DB * pyresult User.t :=
  match first (fun u => str_eqb (User.username u) "admin") (users db) with
  | Some existing_admin =>
      if negb (User.is_admin existing_admin) then
        let existing_admin := User.set_is_admin true existing_admin in
        (with_users (update_row User.id existing_admin (users db)) db,
         Return existing_admin)
      else (db, Return existing_admin)
  | None =>
      (* an exception of [register_user] is logged and raised again *)
      auth_service.register_user cfg now db
        "admin" "admin@ocr-system.com" "123456" "enterprise" true
  end.

(** [check_admin_exists]: the administrator accounts, for display. *)
Definition check_admin_exists (db : DB) : list User.t :=
  List.filter User.is_admin (users db).

(** [main]: the store the run leaves and the exit status of the
    process ([sys.exit(1)] when the initialisation raised). *)
Definition main (cfg : config.Settings) (now : pytime.datetime) (db : DB)
    : DB * Z :=
  match init_admin_user cfg now db with
  | (db', Return _) => (db', 0)
  | (db', Raise _) => (db', 1)
  end.

End with_externals.

End init_admin.

(** ** [api/users.py] *)

Module api_users.
Import pystr.

Definition valid_plans : list string :=
  ["free"; "basic"; "premium"; "enterprise"].

Definition plan_levels : gmap string Z :=
  {[ "free" := 0; "basic" := 1; "premium" := 2; "enterprise" := 3 ]}.

(** [current_user.name]: the columns of [models.User] by name, and
    [AttributeError] for any other name. *)
Definition user_attr (u : User.t) (name : string) : pyresult pyval :=
  if bool_decide (name = "id") then Return (VInt (User.id u))
  else if bool_decide (name = "username") then Return (VStr (User.username u))
  else if bool_decide (name = "email") then Return (VStr (User.email u))
  else if bool_decide (name = "hashed_password")
  then Return (VStr (User.hashed_password u))
  else if bool_decide (name = "plan_type")
  then Return (VStr (User.plan_type u))
  else if bool_decide (name = "api_quota")
  then Return (VInt (User.api_quota u))
  else if bool_decide (name = "is_active")
  then Return (VBool (User.is_active u))
  else if bool_decide (name = "is_admin")
  then Return (VBool (User.is_admin u))
  else Raise (orm.no_attribute "User" name).

(** [plan_levels.get(plan, 0)] *)
Definition level_of (plan : pyval) : Z :=
  match plan with
  | VStr s => default 0 (plan_levels !! s)
  | _ => 0
  end.

Record UpgradeReply := {
  message : string;
  old_plan : pyval;
  new_plan : string
}.

(** [upgrade_user_plan].  The handler reads the plan of the caller as
    [current_user.plan]; the model declares [plan_type], so the read
    raises outside of any [try].  On the accepting path the handler
    calls the coroutine function
    [auth_service.update_user_plan(db, id, new_plan)] without [await]:
    the coroutine object is built and dropped, its body never runs, and
    the store is not written. *)
Definition upgrade_user_plan (db : DB) (current_user : User.t)
    (new_plan : string) : DB * pyresult UpgradeReply :=
  if negb (bool_decide (new_plan ∈ valid_plans)) then
    (db, Raise (HTTPException 400
           ("无效的计划类型，支持的计划: " +:+ join ", " valid_plans)))
  else
    match user_attr current_user "plan" with
    | Raise e => (db, Raise e)
    | Return plan =>
        let current_level := level_of plan in
        let new_level := default 0 (plan_levels !! new_plan) in
        if new_level <? current_level then
          (db, Raise (HTTPException 400 "不支持降级操作，请联系客服"))
        else if bool_decide (plan = VStr new_plan) then
          (db, Raise (HTTPException 400 "用户已经是该计划"))
        else
          let old_plan := plan in
          (db, Return {| message := "计划已升级为 " +:+ new_plan;
                         old_plan := old_plan;
                         new_plan := new_plan |})
    end.

End api_users.

(** ** [services/file_service.py] *)

(** The upload tree: the directories that exist and the bytes of every
    file. *)
Record Disk := mkDisk {
  dirs : gset string;
  blobs : gmap string bytes
}.

Module file_service.
Import pystr Byte.

(** [{"valid": .., "error": .., "code": ..}] *)
Record Validation := {
  valid : bool;
  error : option string;
  code : option string
}.

Definition accepted : Validation :=
  {| valid := true; error := None; code := None |}.
Definition rejected (msg code : string) : Validation :=
  {| valid := false; error := Some msg; code := Some code |}.

Definition magic_numbers : gmap string (list bytes) :=
  {[ ".pdf" := [[x25; x50; x44; x46]];
     ".png" := [[x89; x50; x4e; x47]];
     ".jpg" := [[xff; xd8; xff]];
     ".jpeg" := [[xff; xd8; xff]];
     ".tiff" := [[x49; x49; x2a; x00]; [x4d; x4d; x00; x2a]];
     ".bmp" := [[x42; x4d]];
     ".webp" := [[x52; x49; x46; x46]] ]}.

Definition _validate_file_content (file_content : bytes) (ext : string)
    : bool :=
  if blen file_content <? 4 then false
  else
    let expected_magic := default [] (magic_numbers !! ext) in
    match expected_magic with
    | [] => true
    | _ => existsb (startswith file_content) expected_magic
    end.

(** [f"{n / 1024 / 1024:.1f}"]: the quotient by 2^20 is exact in
    binary floating point (for [n] below 2^53), and the format rounds
    it to one decimal, ties to even. *)
Definition format_mib (n : Z) : string :=
  let q := 10 * n / 1048576 in
  let r := 10 * n mod 1048576 in
  let tenths :=
    if (524288 <? r) || ((r =? 524288) && Z.odd q) then q + 1 else q in
  of_int (tenths / 10) +:+ "." +:+ of_int (tenths mod 10).

(** [validate_file].  Nothing in the body can raise, so the handler
    that answers [VALIDATION_ERROR] is never entered. *)
Definition validate_file (cfg : config.Settings) (filename : string)
    (file_content : bytes) : Validation :=
  let ext := lower (pypath.suffix filename) in
  if negb (bool_decide (ext ∈ config.allowed_extensions cfg)) then
    rejected ("不支持的文件类型: " +:+ ext) "UNSUPPORTED_FILE_TYPE"
  else if config.max_file_size cfg <? blen file_content then
    rejected ("文件大小超过限制: "
              +:+ format_mib (config.max_file_size cfg) +:+ "MB")
             "FILE_TOO_LARGE"
  else if negb (_validate_file_content file_content ext) then
    rejected "文件内容与扩展名不匹配" "INVALID_FILE_CONTENT"
  else accepted.

Definition _get_file_type (filename : string) : string :=
  let ext := lower (pypath.suffix filename) in
  if str_eqb ext ".pdf" then "pdf"
  else if bool_decide
            (ext ∈ [".png"; ".jpg"; ".jpeg"; ".tiff"; ".bmp"; ".webp"])
  then "image"
  else "unknown".

(** [self.upload_dir / f"user_{user_id}"] *)
Definition user_dir_path (cfg : config.Settings) (user_id : Z) : string :=
  pypath.joinpath (config.upload_dir cfg) ("user_" +:+ of_int user_id).

(** [_get_user_upload_dir]: the directory is created when missing. *)
Definition _get_user_upload_dir (cfg : config.Settings) (disk : Disk)
    (user_id : Z) : Disk * string :=
  let user_dir := user_dir_path cfg user_id in
  (mkDisk ({[ user_dir ]} ∪ dirs disk) (blobs disk), user_dir).

(** The filter of the deduplication query:
    [File.user_id == user_id, File.file_hash == file_hash] *)
Definition same_upload (user_id : Z) (file_hash : string) (f : File.t)
    : bool :=
  (File.user_id f =? user_id) && str_eqb (File.file_hash f) file_hash.

(** The rows of a user that carry a given content hash. *)
Definition uploads_of (db : DB) (user_id : Z) (file_hash : string)
    : list File.t :=
  List.filter (same_upload user_id file_hash) (files db).

Section with_externals.
Context `{Externals}.

Definition _get_mime_type (filename : string) : string :=
  match guess_type filename with
  | Some mime_type => mime_type
  | None =>
      let ext := lower (pypath.suffix filename) in
      default "application/octet-stream"
              (config.SUPPORTED_FILE_TYPES !! ext)
  end.

(** [save_uploaded_file].  [write_ok] tells whether writing the
    bytes to the disk goes through; a failed write is cleaned up
    and resurfaces as a [ValueError]. *)
Definition save_uploaded_file (cfg : config.Settings)
    (fresh : security.Fresh) (write_ok : bool)
    (db : DB) (disk : Disk) (user_id : Z) (original_filename : string)
    (file_content : bytes) : DB * Disk * pyresult File.t :=
  let validation_result := validate_file cfg original_filename
                                         file_content in
  if negb (valid validation_result) then
    (db, disk, Raise (ValueError (default "" (error validation_result))))
  else
    let clean_filename := security.sanitize_filename original_filename in
    let secure_filename :=
      security.generate_secure_filename fresh clean_filename user_id in
    let '(disk, user_dir) := _get_user_upload_dir cfg disk user_id in
    let file_path := pypath.joinpath user_dir secure_filename in
    let file_hash := security.calculate_file_hash file_content in
    match first (same_upload user_id file_hash) (files db) with
    | Some existing_file => (db, disk, Return existing_file)
    | None =>
        if negb write_ok then
          (db, disk, Raise (ValueError "文件保存失败"))
        else
          let disk := mkDisk (dirs disk)
                             (<[ file_path := file_content ]> (blobs disk)) in
          let file_record :=
            File.mk (fresh_id (map File.id (files db)))
              user_id secure_filename clean_filename file_path
              (blen file_content) (_get_file_type clean_filename)
              (_get_mime_type clean_filename) file_hash "uploaded" None in
          (with_files (files db ++ [file_record]) db, disk,
           Return file_record)
    end.

End with_externals.

End file_service.

(** ** [services/ocr_service.py] *)

(** The normalised answer of an engine adapter:
    [{'text': .., 'confidence': .., 'blocks': [..], 'engine': ..}] *)
Record OcrDict := {
  text : string;
  confidence : Q;
  blocks : list Block;
  engine : string
}.

(** A page image.  The recognition engines are outside the program: a
    page is given by what the adapter of each engine returns, or
    raises, when it is run on it. *)
Record Image := { recognise : string -> pyresult OcrDict }.

(** Reading the pages of a stored file: [_extract_images_from_pdf] for a
    PDF, [Image.open] for anything else.  Both can raise. *)
Record Media := {
  pdf_images : string -> pyresult (list Image);
  image_open : string -> pyresult Image
}.

Module ocr_service.
Import pystr.

(** For each engine, whether its client library is importable and its
    constructor call in [_init_engines] goes through; a call that
    raises is logged and the engine is left out. *)
Record EngineLibs := {
  tesseract_ok : bool;
  paddleocr_ok : bool;
  easyocr_ok : bool;
  baidu_ok : bool;
  tencent_ok : bool;
  ali_ok : bool;
  azure_ok : bool
}.

(** The names under which [_init_engines] registers an engine. *)
Definition engine_names : list string :=
  ["tesseract"; "paddleocr"; "easyocr"; "baidu"; "tencent"; "ali"; "azure"].

(** Every library installed.  The constructor calls of EasyOCR and of
    Azure read [settings.easyocr_use_gpu] and
    [settings.azure_ocr_endpoint], which [Settings] does not declare:
    these two raise and never go through. *)
Definition all_libs : EngineLibs :=
  {| tesseract_ok := true; paddleocr_ok := true; easyocr_ok := false;
     baidu_ok := true; tencent_ok := true; ali_ok := true;
     azure_ok := false |}.

Definition register (cond : bool) (name : string) (engines : gset string)
    : gset string :=
  if cond then {[ name ]} ∪ engines else engines.

(** [_init_engines]: the registry [self.engines], a dict whose keys
    are the names of the live engines. *)
Definition _init_engines (cfg : config.Settings) (libs : EngineLibs)
    : gset string :=
  let engines : gset string := ∅ in
  let engines := register (config.tesseract_enabled cfg && tesseract_ok libs)
                          "tesseract" engines in
  let engines := register (config.paddleocr_enabled cfg && paddleocr_ok libs)
                          "paddleocr" engines in
  let engines := register (config.easyocr_enabled cfg && easyocr_ok libs)
                          "easyocr" engines in
  let engines := register (config.baidu_ocr_enabled cfg && baidu_ok libs)
                          "baidu" engines in
  let engines := register (config.tencent_ocr_enabled cfg && tencent_ok libs)
                          "tencent" engines in
  let engines := register (config.ali_ocr_enabled cfg && ali_ok libs)
                          "ali" engines in
  let engines := register (config.azure_ocr_enabled cfg && azure_ok libs)
                          "azure" engines in
  engines.

(** [preference and preference in self.engines]: [None] and the empty
    string are falsy. *)
Definition preferred_live (engines : gset string)
    (preference : option string) : option string :=
  match preference with
  | Some p => if negb (str_eqb p "") && bool_decide (p ∈ engines)
              then Some p else None
  | None => None
  end.

(** [_select_engine].  The loop [for engine in OCR_ENGINE_PRIORITY]
    runs over the dict itself, hence over its keys. *)
Definition _select_engine (engines : gset string)
    (preference : option string) : pyresult string :=
  match preferred_live engines preference with
  | Some p => Return p
  | None =>
      match List.find (fun engine => bool_decide (engine ∈ engines))
                      (config.dict_keys config.OCR_ENGINE_PRIORITY) with
      | Some engine => Return engine
      | None => Raise (ValueError "没有可用的OCR引擎")
      end
  end.

Definition _execute_ocr (engine : string) (image : Image)
    : pyresult OcrDict :=
  if str_eqb engine "tesseract" then recognise image "tesseract"
  else if str_eqb engine "paddleocr" then recognise image "paddleocr"
  else if str_eqb engine "easyocr" then recognise image "easyocr"
  else if str_eqb engine "baidu" then recognise image "baidu"
  else Raise (ValueError ("不支持的OCR引擎: " +:+ engine)).

(** [_record_api_usage].  The keywords [engine] and [pages_processed]
    are not attributes of [models.APIUsage]: the constructor raises,
    and the handler of the function logs the exception and returns. *)
Definition _record_api_usage (db : DB) (user_id : Z) (engine : string)
    (pages : Z) : DB :=
  let cost_per_page := default 0%Q (config.OCR_ENGINE_COSTS !! engine) in
  let total_cost := (cost_per_page * inject_Z pages)%Q in
  match orm.construct APIUsage.attributes "APIUsage"
          ["user_id"; "engine"; "pages_processed"; "cost"]
          (APIUsage.mk (fresh_id (map APIUsage.id (api_usage db)))
                       user_id "" "" 0 total_cost) with
  | Return usage => with_api_usage (api_usage db ++ [usage]) db
  | Raise _ => db
  end.

(** The pages of a file record. *)
Definition load_images (media : Media) (file_record : File.t)
    : pyresult (list Image) :=
  if str_eqb (File.file_type file_record) "pdf"
  then pdf_images media (File.file_path file_record)
  else (image ← image_open media (File.file_path file_record);
        Return [image]).

(** [sum(r['confidence'] for r in all_results) / len(all_results)] *)
Definition mean_confidence (all_results : list OcrDict) : Q :=
  (fold_right Qplus 0 (map confidence all_results)
   / inject_Z (Z.of_nat (length all_results)))%Q.

(** [db.commit()] with the task among the objects of the session: its
    row is written back. *)
Definition commit_task (task : OCRTask.t) (db : DB) : DB :=
  with_tasks (update_row OCRTask.id task (tasks db)) db.

Definition add_result (row : Z -> OCRResult.t) (db : DB) : DB :=
  with_results
    (results db ++ [row (fresh_id (map OCRResult.id (results db)))]) db.

(** The keywords of the two [OCRResult(...)] calls of the page loops. *)
Definition page_keywords : list string :=
  ["task_id"; "page_number"; "text_content"; "confidence_score";
   "bounding_boxes"; "engine_used"].
Definition failed_page_keywords : list string :=
  page_keywords ++ ["error_message"].

(** [OCRResult(task_id=.., page_number=.., ...)]: of the keywords the
    loops pass, [task_id], [page_number] and [bounding_boxes] are
    columns.  The row still waits for its key. *)
Definition new_result (kwargs : list string) (task_id page_number : Z)
    (boxes : list Block) : pyresult (Z -> OCRResult.t) :=
  orm.construct OCRResult.attributes "OCRResult" kwargs
    (fun id => OCRResult.mk id task_id page_number None None None boxes None).

(** The page loop of [_process_file_async]: [i] is the index
    [enumerate] hands out.  An exception of the adapter or of the
    [OCRResult(...)] call is logged and the page is skipped. *)
Fixpoint async_pages (engine : string) (i : Z) (images : list Image)
    (db : DB) (task_id : Z) (task : OCRTask.obj) (all_results : list OcrDict)
    : DB * OCRTask.obj * list OcrDict :=
  match images with
  | [] => (db, task, all_results)
  | image :: rest =>
      match (result ← _execute_ocr engine image;
             ocr_result ← new_result page_keywords task_id (i + 1)
                                     (blocks result);
             Return (result, ocr_result)) with
      | Return (result, ocr_result) =>
          let db := add_result ocr_result db in
          let task := OCRTask.set_instance_attr "processed_pages"
                        (orm.AInt (i + 1)) task in
          async_pages engine (i + 1) rest
                      (commit_task (OCRTask.row task) db) task_id task
                      (all_results ++ [result])
      | Raise e =>
          async_pages engine (i + 1) rest db task_id task all_results
      end
  end.

(** The outer handler of [_process_file_async]: the task is marked
    failed with the message of the exception. *)
Definition mark_failed (db : DB) (task_id : Z) (e : exn) : DB :=
  match first (fun k => OCRTask.id k =? task_id) (tasks db) with
  | Some task =>
      commit_task (OCRTask.set_error_message (exn_str e)
                     (OCRTask.set_status "failed" task)) db
  | None => db
  end.

(** The [try] block of [_process_file_async] for a task that was
    found: the store as last committed, and the exception if one ended
    the block.  After the commit of the status [completed] the block
    reads [task.user_id], which no column and no assignment provides. *)
Definition async_body (engines : gset string) (media : Media)
    (now : pytime.datetime) (db : DB) (task_id : Z) (task : OCRTask.obj)
    (file_record : File.t) (engine_preference : option string)
    : DB * pyresult unit :=
  match load_images media file_record with
  | Raise e => (db, Raise e)
  | Return images =>
      let task := OCRTask.set_instance_attr "total_pages"
                    (orm.AInt (Z.of_nat (length images))) task in
      let db := commit_task (OCRTask.row task) db in
      match _select_engine engines engine_preference with
      | Raise e => (db, Raise e)
      | Return engine =>
          let task := OCRTask.set_instance_attr "engine_used"
                        (orm.AStr engine) task in
          let db := commit_task (OCRTask.row task) db in
          let '(db, task, all_results) :=
            async_pages engine 0 images db task_id task [] in
          let task := OCRTask.set_row (OCRTask.set_status "completed") task in
          let task := OCRTask.set_instance_attr "completed_at"
                        (orm.ATime now) task in
          let task := match all_results with
                      | [] => task
                      | _ => OCRTask.set_instance_attr "confidence_score"
                               (orm.AFloat (mean_confidence all_results)) task
                      end in
          let db := commit_task (OCRTask.row task) db in
          match OCRTask.instance_attr task "user_id" with
          | Raise e => (db, Raise e)
          | Return user_id =>
              (_record_api_usage db (orm.as_int user_id) engine
                                 (Z.of_nat (length images)),
               Return tt)
          end
      end
  end.

(** [_process_file_async], the in-process path started by
    [process_file]. *)
Definition _process_file_async (engines : gset string) (media : Media)
    (now : pytime.datetime) (db : DB) (task_id : Z) (file_record : File.t)
    (engine_preference : option string) : DB :=
  match first (fun k => OCRTask.id k =? task_id) (tasks db) with
  | None => db
  | Some k =>
      match async_body engines media now db task_id (OCRTask.loaded k)
                       file_record engine_preference with
      | (db, Return _) => db
      | (db, Raise e) => mark_failed db task_id e
      end
  end.

End ocr_service.

(** ** [tasks/ocr_tasks.py] *)

Module ocr_tasks.
Import pystr ocr_service.

(** The page loop of [_process_file_ocr].  The handler of a page
    builds a failure row with a second [OCRResult(...)] call; an
    exception of that call is raised inside the handler and leaves the
    loop. *)
Fixpoint worker_pages (engine : string) (i : Z) (images : list Image)
    (db : DB) (task : OCRTask.obj) (all_results : list OcrDict)
    (successful_pages : Z)
    : DB * pyresult (OCRTask.obj * list OcrDict * Z) :=
  match images with
  | [] => (db, Return (task, all_results, successful_pages))
  | image :: rest =>
      match (result ← _execute_ocr engine image;
             ocr_result ← new_result page_keywords
                            (OCRTask.id (OCRTask.row task)) (i + 1)
                            (blocks result);
             Return (result, ocr_result)) with
      | Return (result, ocr_result) =>
          let db := add_result ocr_result db in
          let successful_pages := successful_pages + 1 in
          let task := OCRTask.set_instance_attr "processed_pages"
                        (orm.AInt successful_pages) task in
          worker_pages engine (i + 1) rest
                       (commit_task (OCRTask.row task) db) task
                       (all_results ++ [result]) successful_pages
      | Raise e =>
          match new_result failed_page_keywords
                  (OCRTask.id (OCRTask.row task)) (i + 1) [] with
          | Return ocr_result =>
              worker_pages engine (i + 1) rest (add_result ocr_result db)
                           task all_results successful_pages
          | Raise e' => (db, Raise e')
          end
      end
  end.

(** The dict [_process_file_ocr] returns. *)
Record Summary := {
  success : bool;
  pages_processed : Z;
  summary_total_pages : Z;
  avg_confidence : Q
}.

(** [_process_file_ocr], the core of the queue worker: the store as
    last committed and, when the body returns, the task object as it
    leaves it and the dict.  The handler logs and raises again.  After
    the commit of the status [completed] the body reads
    [task.user_id], which no column and no assignment provides. *)
Definition _process_file_ocr (engines : gset string) (media : Media)
    (now : pytime.datetime) (db : DB) (task : OCRTask.obj)
    (file_record : File.t) (engine_preference : option string)
    : DB * pyresult (OCRTask.obj * Summary) :=
  match load_images media file_record with
  | Raise e => (db, Raise e)
  | Return images =>
      let task := OCRTask.set_instance_attr "total_pages"
                    (orm.AInt (Z.of_nat (length images))) task in
      let db := commit_task (OCRTask.row task) db in
      match _select_engine engines engine_preference with
      | Raise e => (db, Raise e)
      | Return engine =>
          let task := OCRTask.set_instance_attr "engine_used"
                        (orm.AStr engine) task in
          let db := commit_task (OCRTask.row task) db in
          match worker_pages engine 0 images db task [] 0 with
          | (db, Raise e) => (db, Raise e)
          | (db, Return (task, all_results, successful_pages)) =>
              let task := OCRTask.set_row (OCRTask.set_status "completed")
                                          task in
              let task := OCRTask.set_instance_attr "completed_at"
                            (orm.ATime now) task in
              let avg_confidence :=
                match all_results with
                | [] => 0%Q
                | _ => mean_confidence all_results
                end in
              let task := OCRTask.set_instance_attr "confidence_score"
                            (orm.AFloat avg_confidence) task in
              let db := commit_task (OCRTask.row task) db in
              match OCRTask.instance_attr task "user_id" with
              | Raise e => (db, Raise e)
              | Return user_id =>
                  let db := _record_api_usage db (orm.as_int user_id) engine
                                              (Z.of_nat (length images)) in
                  let file_record :=
                    File.set_processed_at now
                      (File.set_status "completed" file_record) in
                  let db := with_files
                              (update_row File.id file_record (files db)) db in
                  (db, Return (task,
                               {| success := true;
                                  pages_processed := successful_pages;
                                  summary_total_pages :=
                                    Z.of_nat (length images);
                                  avg_confidence := avg_confidence |}))
              end
          end
      end
  end.

(** What the queue runtime knows of the running job: its identifier
    and the number of retries so far. *)
Record Request := { request_id : string; retries : Z }.

Definition max_retries : Z := 3.

(** The handler of [process_ocr_task]: the task is marked failed, then
    the job either asks for a retry or answers with the failure.  The
    handler also assigns [completed_at], which is not a column. *)
Definition on_failure (request : Request) (db : DB) (task_id : Z)
    (now : pytime.datetime) (e : exn) : DB * pyresult (gmap string pyval) :=
  let db :=
    match first (fun k => OCRTask.id k =? task_id) (tasks db) with
    | Some task =>
        commit_task (OCRTask.set_error_message (exn_str e)
                       (OCRTask.set_status "failed" task)) db
    | None => db
    end in
  if retries request <? max_retries
  then (db, Raise (Retry (60 * 2 ^ retries request)))
  else (db, Return {[ "status" := VStr "failed"; "task_id" := VInt task_id;
                      "error" := VStr (exn_str e) ]}).

(** What the success path of [process_ocr_task] reads from the task
    object for its log lines and its reply. *)
Definition completed_reply (task_id : Z) (task : OCRTask.obj)
    : pyresult (gmap string pyval) :=
  _ ← OCRTask.instance_attr task "engine_used";
  _ ← OCRTask.instance_attr task "total_pages";
  _ ← OCRTask.instance_attr task "user_id";
  processed_pages ← OCRTask.instance_attr task "processed_pages";
  Return {[ "status" := VStr "completed"; "task_id" := VInt task_id;
            "pages_processed" := VInt (orm.as_int processed_pages) ]}.

(** [process_ocr_task]; the elapsed time in the reply is left out. *)
Definition process_ocr_task (engines : gset string) (media : Media)
    (request : Request) (now : pytime.datetime) (db : DB) (task_id : Z)
    (engine_preference : option string)
    : DB * pyresult (gmap string pyval) :=
  match first (fun k => OCRTask.id k =? task_id) (tasks db) with
  | None => (db, Return {[ "status" := VStr "error";
                           "message" := VStr "任务不存在" ]})
  | Some k =>
      if negb (str_eqb (OCRTask.status k) "pending") then
        (db, Return {[ "status" := VStr "error";
                       "message" := VStr "任务状态不正确" ]})
      else
        let task := OCRTask.set_row (OCRTask.set_status "processing")
                                    (OCRTask.loaded k) in
        let task := OCRTask.set_instance_attr "started_at" (orm.ATime now)
                                              task in
        let task := OCRTask.set_instance_attr "celery_task_id"
                      (orm.AStr (request_id request)) task in
        let db := commit_task (OCRTask.row task) db in
        match first (fun f => File.id f =? OCRTask.file_id (OCRTask.row task))
                    (files db) with
        | None => on_failure request db task_id now
                             (ValueError "关联文件不存在")
        | Some file_record =>
            match _process_file_ocr engines media now db task file_record
                                    engine_preference with
            | (db, Raise e) => on_failure request db task_id now e
            | (db, Return (task, result)) =>
                match completed_reply task_id task with
                | Raise e => on_failure request db task_id now e
                | Return reply => (db, Return reply)
                end
            end
        end
  end.

Definition terminal_states : list string :=
  ["completed"; "failed"; "cancelled"].

(** [cancel_ocr_task]: the store, the job identifiers handed to
    [celery_app.control.revoke(.., terminate=True)], and the reply.
    For a task that is still open the function reads
    [task.celery_task_id] from the object the query returned. *)
Definition cancel_ocr_task (now : pytime.datetime) (db : DB) (task_id : Z)
    : DB * list string * pyresult (gmap string pyval) :=
  match first (fun k => OCRTask.id k =? task_id) (tasks db) with
  | None => (db, [], Return {[ "error" := VStr "任务不存在" ]})
  | Some k =>
      if bool_decide (OCRTask.status k ∈ terminal_states) then
        (db, [], Return {[ "error" := VStr "任务已完成或已取消" ]})
      else
        let task := OCRTask.loaded k in
        match OCRTask.instance_attr task "celery_task_id" with
        | Raise e => (db, [], Raise e)
        | Return job =>
            let revoked := if orm.truthy job then [orm.as_str job] else [] in
            let task := OCRTask.set_row (OCRTask.set_status "cancelled")
                                        task in
            let task := OCRTask.set_instance_attr "completed_at"
                          (orm.ATime now) task in
            (commit_task (OCRTask.row task) db, revoked,
             Return {[ "status" := VStr "cancelled";
                       "task_id" := VInt task_id ]})
        end
  end.

End ocr_tasks.

(** ** [tasks/cleanup_tasks.py] *)

Module cleanup_tasks.

(** The parameters of [utils.logger.log_system_event]. *)
Definition log_system_event_params : list string :=
  ["event_type"; "message"; "level"; "details"].

Definition reset_task (k : OCRTask.t) : OCRTask.t :=
  OCRTask.set_error_message "任务超时被系统重置"
    (OCRTask.set_status "failed" k).

(** One round of the loop over the stuck tasks, inside its own [try]:
    the identifier of the job is read from the object the query
    returned; an exception skips the task. *)
Definition reset_one (k : OCRTask.t)
    : pyresult (OCRTask.t * list string) :=
  job ← OCRTask.instance_attr (OCRTask.loaded k) "celery_task_id";
  Return (reset_task k, if orm.truthy job then [orm.as_str job] else []).

Fixpoint reset_all (stuck_tasks : list OCRTask.t) (db : DB)
    (revoked : list string) (reset_tasks : Z) : DB * list string * Z :=
  match stuck_tasks with
  | [] => (db, revoked, reset_tasks)
  | k :: rest =>
      match reset_one k with
      | Return (k', jobs) =>
          reset_all rest
            (with_tasks (update_row OCRTask.id k' (tasks db)) db)
            (revoked ++ jobs) (reset_tasks + 1)
      | Raise _ => reset_all rest db revoked reset_tasks
      end
  end.

(** [cleanup_stuck_tasks]: the store, the revoked job identifiers and
    the reply.  The filter names [OCRTask.started_at]; the handler
    rolls the session back and answers with the error. *)
Definition cleanup_stuck_tasks (now : pytime.datetime) (hours : Z) (db : DB)
    : DB * list string * gmap string pyval :=
  let cutoff_date := pytime.add_timedelta now 0 (- hours) in
  let failure (db : DB) (revoked : list string) (e : exn) :=
    (db, revoked,
     ({[ "status" := VStr "error"; "message" := VStr (exn_str e) ]}
      : gmap string pyval)) in
  match orm.class_attr OCRTask.time_column "OCRTask" "started_at" with
  | Raise e => failure db [] e
  | Return started_at =>
      let stuck_tasks :=
        List.filter
          (fun k => str_eqb (OCRTask.status k) "processing"
                    && match started_at k with
                       | Some t => pytime.ltb t cutoff_date
                       | None => false
                       end) (tasks db) in
      let '(db', revoked, reset_tasks) := reset_all stuck_tasks db [] 0 in
      (* the commit, then [log_system_event(event=.., details=..)] *)
      match orm.call log_system_event_params "log_system_event"
                     ["event"; "details"] with
      | Raise e => failure db' revoked e
      | Return _ =>
          (db', revoked,
           {[ "status" := VStr "success"; "reset_tasks" := VInt reset_tasks ]})
      end
  end.

End cleanup_tasks.

(** ** [api/ocr.py] *)

(** [celery.result.AsyncResult(task_id)]: what the result store of the
    queue reports for a job. *)
Record AsyncResult := { state : string; info : string }.

Module api_ocr.
Import ocr_service.

(** The filter of the two handlers:
    [OCRTask.task_id == task_id, OCRTask.user_id == current_user.id].
    Neither name is an attribute of [models.OCRTask]; the first one
    named raises. *)
Definition owned_job (task_id : string) (current_user : User.t)
    : pyresult (OCRTask.t -> bool) :=
  job ← orm.class_attr OCRTask.str_column "OCRTask" "task_id";
  owner ← orm.class_attr OCRTask.int_column "OCRTask" "user_id";
  Return (fun k => str_eqb (job k) task_id
                   && (owner k =? User.id current_user)).

(** [if not task.name: task.name = datetime.now()] for a name that is
    not a column. *)
Definition stamp (name : string) (now : pytime.datetime) (task : OCRTask.obj)
    : pyresult OCRTask.obj :=
  v ← OCRTask.instance_attr task name;
  Return (if orm.truthy v then task
          else OCRTask.set_instance_attr name (orm.ATime now) task).

(** The status the handler copies from the state of the queue job. *)
Definition sync_status (now : pytime.datetime) (celery_task : AsyncResult)
    (task : OCRTask.obj) : pyresult OCRTask.obj :=
  if str_eqb (state celery_task) "PENDING" then
    Return (OCRTask.set_row (OCRTask.set_status "pending") task)
  else if str_eqb (state celery_task) "STARTED" then
    stamp "started_at" now
          (OCRTask.set_row (OCRTask.set_status "processing") task)
  else if str_eqb (state celery_task) "SUCCESS" then
    stamp "completed_at" now
          (OCRTask.set_row (OCRTask.set_status "completed") task)
  else if str_eqb (state celery_task) "FAILURE" then
    stamp "completed_at" now
          (OCRTask.set_row
             (fun k => OCRTask.set_error_message (info celery_task)
                         (OCRTask.set_status "failed" k)) task)
  else Return task.

(** [get_task_status], the handler of [GET /ocr/tasks/{task_id}].  The
    copy of the progress percentage is left out.  An exception leaves
    the handler before the commit. *)
Definition get_task_status (now : pytime.datetime)
    (celery_task : AsyncResult) (db : DB) (task_id : string)
    (current_user : User.t) : DB * pyresult OCRTask.t :=
  match owned_job task_id current_user with
  | Raise e => (db, Raise e)
  | Return owned =>
      match first owned (tasks db) with
      | None => (db, Raise (HTTPException 404 "任务不存在"))
      | Some k =>
          match sync_status now celery_task (OCRTask.loaded k) with
          | Raise e => (db, Raise e)
          | Return task =>
              (commit_task (OCRTask.row task) db, Return (OCRTask.row task))
          end
      end
  end.

(** [cancel_task], the handler of [DELETE /ocr/tasks/{task_id}].
    [broker_ok] tells whether handing [cancel_ocr_task] to the queue
    goes through. *)
Definition cancel_task (now : pytime.datetime) (broker_ok : bool) (db : DB)
    (task_id : string) (current_user : User.t)
    : DB * pyresult (gmap string pyval) :=
  match owned_job task_id current_user with
  | Raise e => (db, Raise e)
  | Return owned =>
      match first owned (tasks db) with
      | None => (db, Raise (HTTPException 404 "任务不存在"))
      | Some k =>
          if bool_decide (OCRTask.status k ∈ ocr_tasks.terminal_states) then
            (db, Raise (HTTPException 400 "任务已完成或已取消，无法取消"))
          else if negb broker_ok then
            (db, Raise (HTTPException 500 "任务取消失败"))
          else
            (commit_task (OCRTask.set_status "cancelled" k) db,
             Return {[ "message" := VStr "任务已取消" ]})
      end
  end.

End api_ocr.

(** ** [api/admin.py] *)

Module api_admin.

(** [delete_user].  Inside the [try] the account is marked inactive,
    then the open tasks of the user are looked up with a filter on
    [OCRTask.user_id]; an exception rolls the session back and is
    answered with the status 500. *)
Definition delete_user (now : pytime.datetime) (db : DB) (user_id : Z)
    : DB * pyresult (gmap string pyval) :=
  match first (fun u => User.id u =? user_id) (users db) with
  | None => (db, Raise (HTTPException 404 "用户不存在"))
  | Some user =>
      if User.is_admin user then
        (db, Raise (HTTPException 400 "不能删除管理员用户"))
      else
        let user := User.set_is_active false user in
        match orm.class_attr OCRTask.int_column "OCRTask" "user_id" with
        | Raise _ => (db, Raise (HTTPException 500 "删除用户失败"))
        | Return owner =>
            let is_open (k : OCRTask.t) :=
              (owner k =? user_id)
              && bool_decide (OCRTask.status k ∈ ["pending"; "processing"]) in
            let pending_tasks := List.filter is_open (tasks db) in
            let db := with_users (update_row User.id user (users db)) db in
            let db :=
              with_tasks
                (map (fun k => if is_open k
                               then OCRTask.set_status "cancelled" k
                               else k) (tasks db)) db in
            (db, Return {[ "message" := VStr "用户已删除";
                           "cancelled_tasks" :=
                             VInt (Z.of_nat (length pending_tasks)) ]})
        end
  end.

End api_admin.

(** ** [tasks/stats_tasks.py] *)

Module stats_tasks.

(** A [UserQuota] object in the session: the columns the model maps,
    and the instance dictionary holding whatever other attribute has
    been assigned to the object.  Only the columns are written to the
    store on commit. *)
Record QuotaObject := {
  cols : UserQuota.t;
  attrs : gmap string pyval
}.

(** An object as [db.query(UserQuota).all()] returns it. *)
Definition loaded (q : UserQuota.t) : QuotaObject :=
  {| cols := q; attrs := ∅ |}.

(** The value of a mapped column, by attribute name. *)
Definition column (q : UserQuota.t) (name : string) : option pyval :=
  if str_eqb name "id" then Some (VInt (UserQuota.id q))
  else if str_eqb name "user_id" then Some (VInt (UserQuota.user_id q))
  else if str_eqb name "quota_type" then Some (VStr (UserQuota.quota_type q))
  else if str_eqb name "quota_limit" then Some (VInt (UserQuota.quota_limit q))
  else if str_eqb name "quota_used" then Some (VInt (UserQuota.quota_used q))
  else if str_eqb name "reset_time"
  then Some (VDateTime (UserQuota.reset_time q))
  else None.

(** [obj.name]: a column, else an entry of the instance dictionary,
    else [AttributeError]. *)
Definition getattr (o : QuotaObject) (name : string) : pyresult pyval :=
  match column (cols o) name with
  | Some v => Return v
  | None =>
      match attrs o !! name with
      | Some v => Return v
      | None => Raise (AttributeError
          ("'UserQuota' object has no attribute '" +:+ name +:+ "'"))
      end
  end.

Definition set_column (q : UserQuota.t) (name : string) (v : pyval)
    : UserQuota.t :=
  match v with
  | VInt z =>
      if str_eqb name "id" then
        UserQuota.mk z (UserQuota.user_id q) (UserQuota.quota_type q)
          (UserQuota.quota_limit q) (UserQuota.quota_used q)
          (UserQuota.reset_time q)
      else if str_eqb name "user_id" then
        UserQuota.mk (UserQuota.id q) z (UserQuota.quota_type q)
          (UserQuota.quota_limit q) (UserQuota.quota_used q)
          (UserQuota.reset_time q)
      else if str_eqb name "quota_limit" then
        UserQuota.mk (UserQuota.id q) (UserQuota.user_id q)
          (UserQuota.quota_type q) z (UserQuota.quota_used q)
          (UserQuota.reset_time q)
      else if str_eqb name "quota_used" then
        UserQuota.mk (UserQuota.id q) (UserQuota.user_id q)
          (UserQuota.quota_type q) (UserQuota.quota_limit q) z
          (UserQuota.reset_time q)
      else q
  | VStr s =>
      if str_eqb name "quota_type" then
        UserQuota.mk (UserQuota.id q) (UserQuota.user_id q) s
          (UserQuota.quota_limit q) (UserQuota.quota_used q)
          (UserQuota.reset_time q)
      else q
  | VDateTime t =>
      if str_eqb name "reset_time" then
        UserQuota.mk (UserQuota.id q) (UserQuota.user_id q)
          (UserQuota.quota_type q) (UserQuota.quota_limit q)
          (UserQuota.quota_used q) t
      else q
  | _ => q
  end.

(** [obj.name = v]: a column is written through; any other name lands
    in the instance dictionary. *)
Definition setattr (o : QuotaObject) (name : string) (v : pyval)
    : QuotaObject :=
  match column (cols o) name with
  | Some _ => {| cols := set_column (cols o) name v; attrs := attrs o |}
  | None => {| cols := cols o; attrs := <[ name := v ]> (attrs o) |}
  end.

(** The body of the loop of [update_user_quotas] for one object. *)
Definition roll_over (today : pytime.date) (quota : QuotaObject)
    (updated_count : Z) : pyresult (QuotaObject * Z) :=
  last_reset_date ← getattr quota "last_reset_date";
  let '(quota, updated_count) :=
    if bool_decide (last_reset_date ≠ VDate today) then
      let quota := setattr quota "daily_pages_used" (VInt 0) in
      let quota := setattr quota "last_reset_date" (VDate today) in
      (quota, updated_count + 1)
    else (quota, updated_count) in
  let current_month := pytime.replace_day today 1 in
  monthly_reset_date ← getattr quota "monthly_reset_date";
  if bool_decide (monthly_reset_date ≠ VDate current_month) then
    let quota := setattr quota "monthly_pages_used" (VInt 0) in
    let quota := setattr quota "monthly_reset_date" (VDate current_month) in
    Return (quota, updated_count + 1)
  else Return (quota, updated_count).

Fixpoint roll_over_all (today : pytime.date) (quotas : list QuotaObject)
    (updated_count : Z) : pyresult (list QuotaObject * Z) :=
  match quotas with
  | [] => Return ([], updated_count)
  | quota :: rest =>
      '(quota, updated_count) ← roll_over today quota updated_count;
      '(rest, updated_count) ← roll_over_all today rest updated_count;
      Return (quota :: rest, updated_count)
  end.

(** [update_user_quotas].  The handler rolls the session back and
    answers with the error. *)
Definition update_user_quotas (now : pytime.datetime) (db : DB)
    : DB * gmap string pyval :=
  let quotas := map loaded (quotas db) in
  match roll_over_all (pytime.date_of now) quotas 0 with
  | Return (quotas, updated_count) =>
      (with_quotas (map cols quotas) db,
       {[ "status" := VStr "success";
          "updated_quotas" := VInt updated_count ]})
  | Raise e =>
      (db, {[ "status" := VStr "error"; "message" := VStr (exn_str e) ]})
  end.

End stats_tasks.

(** ** The operations that write the status of a task *)

Module task_status.

Definition is_terminal (s : string) : bool :=
  bool_decide (s ∈ ocr_tasks.terminal_states).

(** One operation that assigns [task.status], with the inputs it takes
    from its environment: the two processing paths, the queue jobs and
    the routers. *)
Inductive event :=
| Worker (engines : gset string) (media : Media)
         (request : ocr_tasks.Request) (task_id : Z)
         (engine_preference : option string)
| InProcess (engines : gset string) (media : Media) (task_id : Z)
            (file_record : File.t) (engine_preference : option string)
| CancelJob (task_id : Z)
| CleanupStuck (hours : Z)
| CancelRequest (broker_ok : bool) (task_id : string) (current_user : User.t)
| DeleteUser (user_id : Z)
| GetStatus (celery_task : AsyncResult) (task_id : string)
            (current_user : User.t).

(** The store an operation leaves behind. *)
Definition run (now : pytime.datetime) (ev : event) (db : DB) : DB :=
  match ev with
  | Worker engines media request task_id engine_preference =>
      (ocr_tasks.process_ocr_task engines media request now db task_id
                                  engine_preference).1
  | InProcess engines media task_id file_record engine_preference =>
      ocr_service._process_file_async engines media now db task_id
                                      file_record engine_preference
  | CancelJob task_id => (ocr_tasks.cancel_ocr_task now db task_id).1.1
  | CleanupStuck hours =>
      (cleanup_tasks.cleanup_stuck_tasks now hours db).1.1
  | CancelRequest broker_ok task_id current_user =>
      (api_ocr.cancel_task now broker_ok db task_id current_user).1
  | DeleteUser user_id => (api_admin.delete_user now db user_id).1
  | GetStatus celery_task task_id current_user =>
      (api_ocr.get_task_status now celery_task db task_id current_user).1
  end.

Definition is_in_process (ev : event) : bool :=
  match ev with InProcess _ _ _ _ _ => true | _ => false end.

(** Row by row: the keys are kept and only the task [i] may differ. *)
Definition touches_only (i : Z) (before after : list OCRTask.t) : Prop :=
  Forall2 (fun a b => OCRTask.id a = OCRTask.id b
                      /\ (OCRTask.id a <> i -> a = b))
          before after.

(** Row by row: a task that was in a terminal state is unchanged. *)
Definition frozen (before after : list OCRTask.t) : Prop :=
  Forall2 (fun a b => is_terminal (OCRTask.status a) = true -> a = b)
          before after.

End task_status.

(** ** Concrete data for running the statements *)

Module sample.
Import pytime.

(** Stand-ins for the third-party functions: a decoder that knows
    three tokens, and transparent "hashes". *)
Definition externals : Externals := {|
  jwt_decode := fun token _ _ =>
    if str_eqb token "alice-token" then
      Return {[ "sub" := VStr "alice"; "exp" := VInt 4102444800 ]}
    else if str_eqb token "anonymous-token" then
      Return {[ "exp" := VInt 4102444800 ]}
    else if str_eqb token "old-token" then
      Raise (JWTError "Signature has expired.")
    else Raise (JWTError "Signature verification failed.");
  pwd_hash := fun password => Return ("bcrypt:" +:+ password);
  md5_hexdigest := fun content => string_of_list_byte content;
  guess_type := fun _ => None
|}.

Definition now : datetime := mkdt (mkdate 2024 3 15) 10 30 0 0.

Definition ok_page (t : string) (c : Q) : Image :=
  {| recognise := fun e => Return {| text := t; confidence := c;
                                     blocks := []; engine := e |} |}.
Definition bad_page (msg : string) : Image :=
  {| recognise := fun _ => Raise (Exception msg) |}.

(** A two-page PDF whose first page makes the engine raise. *)
Definition media : Media := {|
  pdf_images := fun _ => Return [bad_page "engine crashed";
                                 ok_page "page two" (9 # 10)];
  image_open := fun _ => Raise (OSError "cannot identify image file")
|}.

Definition pdf_file : File.t :=
  File.mk 1 7 "user_7_20240315_103000_0a1b2c3d.pdf" "scan.pdf"
          "uploads/user_7/user_7_20240315_103000_0a1b2c3d.pdf" 1024
          "pdf" "application/pdf" "d41d8cd9" "uploaded" None.

(** The task of that file; the file belongs to user 7. *)
Definition task (st : string) : OCRTask.t :=
  OCRTask.mk 1 1 "paddleocr" "chi_sim+eng" st 0 0 None None None.

Definition db_with_task (st : string) : DB :=
  with_tasks [task st] (with_files [pdf_file] empty_db).

(** What two uploads draw from the clock and from [uuid4]. *)
Definition fresh (n : string) : security.Fresh :=
  {| security.timestamp := "20240315_1030" +:+ n;
     security.unique_id := "0a1b2c3" +:+ n |}.

Definition empty_disk : Disk := mkDisk ∅ ∅.

(** The quota rows of user 7 as registration wrote them two days
    before [now]: the daily window ended at midnight of 14 March, the
    monthly one on 2 March. *)
Definition quota_db : DB :=
  with_quotas
    [ UserQuota.mk 1 7 "daily" 100 5 (mkdt (mkdate 2024 3 14) 0 0 0 0);
      UserQuota.mk 2 7 "monthly" 3000 40 (mkdt (mkdate 2024 3 2) 0 0 0 0) ]
    empty_db.

Definition alice (plan : string) : User.t :=
  User.mk 7 "alice" "alice@example.com" "bcrypt:Secret123" plan 100
          true false.

Definition pdf_header : bytes := [Byte.x25; Byte.x50; Byte.x44; Byte.x46].

(** A PDF one header longer than the upload limit of 50 MiB: the header
    followed by 50 MiB of zero bytes. *)
Definition oversized_pdf : bytes :=
  pdf_header ++ repeat Byte.x00 (Z.to_nat (50 * 1024 * 1024)).

End sample.

(** ** [utils/security.py], continued: passwords, tokens, the caller *)

(** The two library calls of this part of the file. *)
Class Crypto := {
  (** [pwd_context.verify(plain_password, hashed_password)] *)
  pwd_verify : string -> string -> pyresult bool;
  (** [jose.jwt.encode(claims, key, algorithm=alg)] *)
  jwt_encode : gmap string pyval -> string -> string -> pyresult string
}.

Module identity.

(** [t + timedelta(minutes=m)] *)
Definition plus_minutes (t : pytime.datetime) (m : Z) : pytime.datetime :=
  pytime.of_micros (pytime.micros t + m * 60000000).

Definition credentials_exception : exn :=
  HTTPException 401 "无效的认证凭据".

Section with_externals.
Context `{Externals} `{Crypto}.

(** [verify_password]: a failure of the library counts as a mismatch. *)
Definition verify_password (plain_password hashed_password : string)
    : bool :=
  match pwd_verify plain_password hashed_password with
  | Return b => b
  | Raise _ => false
  end.

(** [create_access_token].  [expires_delta] is a number of minutes; as
    a [timedelta] it is falsy when it is zero, and then the default
    lifetime is taken, as when it is absent. *)
Definition create_access_token (cfg : config.Settings)
    (utcnow : pytime.datetime) (data : gmap string pyval)
    (expires_delta : option Z) : pyresult string :=
  let expire :=
    match expires_delta with
    | Some m =>
        if m =? 0
        then plus_minutes utcnow (config.access_token_expire_minutes cfg)
        else plus_minutes utcnow m
    | None => plus_minutes utcnow (config.access_token_expire_minutes cfg)
    end in
  let to_encode := <[ "exp" := VDateTime expire ]> data in
  try_except
    (jwt_encode to_encode (config.secret_key cfg) (config.algorithm cfg))
    (fun _ => Some (Raise (ValueError "令牌创建失败"))).

(** [get_current_user], on the bearer token of the request.  The
    decoding library hands out a subject only when it is a string; for
    any other value the query finds no user.  An [HTTPException] passes
    the handler, anything else becomes the 401. *)
Definition get_current_user (cfg : config.Settings) (db : DB)
    (token : string) : pyresult User.t :=
  try_except
    (payload ← security.verify_token cfg token;
     match payload with
     | None => Raise credentials_exception
     | Some payload =>
         match default VNone (payload !! "sub") with
         | VNone => Raise credentials_exception
         | VStr username =>
             match first (fun u => str_eqb (User.username u) username)
                         (users db) with
             | None => Raise credentials_exception
             | Some user =>
                 if negb (User.is_active user)
                 then Raise (HTTPException 403 "用户账户已被禁用")
                 else Return user
             end
         | _ => Raise credentials_exception
         end
     end)
    (fun e => match e with
              | HTTPException _ _ => None
              | _ => Some (Raise credentials_exception)
              end).

End with_externals.

End identity.

(** ** [services/auth_service.py], continued: login and account changes *)

Module accounts.
Import identity.

Definition set_hashed_password (h : string) (u : User.t) : User.t :=
  User.mk (User.id u) (User.username u) (User.email u) h (User.plan_type u)
          (User.api_quota u) (User.is_active u) (User.is_admin u).
Definition set_plan_type (p : string) (u : User.t) : User.t :=
  User.mk (User.id u) (User.username u) (User.email u)
          (User.hashed_password u) p (User.api_quota u) (User.is_active u)
          (User.is_admin u).
Definition set_api_quota (q : Z) (u : User.t) : User.t :=
  User.mk (User.id u) (User.username u) (User.email u)
          (User.hashed_password u) (User.plan_type u) q (User.is_active u)
          (User.is_admin u).
Definition set_quota_limit (l : Z) (q : UserQuota.t) : UserQuota.t :=
  UserQuota.mk (UserQuota.id q) (UserQuota.user_id q) (UserQuota.quota_type q)
               l (UserQuota.quota_used q) (UserQuota.reset_time q).

(** The dict [authenticate_user] returns, with the nested [user] dict
    flattened. *)
Record Login := {
  access_token : string;
  token_type : string;
  expires_in : Z;
  login_id : Z;
  login_username : string;
  login_email : string;
  login_plan_type : string
}.

Section with_externals.
Context `{Externals} `{Crypto}.

(** [authenticate_user]: [username] is matched against the user name
    and against the e-mail address. *)
Definition authenticate_user (cfg : config.Settings)
    (utcnow : pytime.datetime) (db : DB) (username password : string)
    : pyresult Login :=
  match first (fun u => str_eqb (User.username u) username
                        || str_eqb (User.email u) username) (users db) with
  | None => Raise (ValueError "用户名或密码错误")
  | Some user =>
      if negb (User.is_active user) then
        Raise (ValueError "账户已被禁用")
      else if negb (verify_password password (User.hashed_password user)) then
        Raise (ValueError "用户名或密码错误")
      else
        access_token ← create_access_token cfg utcnow
          {[ "sub" := VStr (User.username user);
             "user_id" := VInt (User.id user) ]}
          (Some (config.access_token_expire_minutes cfg));
        Return {| access_token := access_token;
                  token_type := "bearer";
                  expires_in := config.access_token_expire_minutes cfg * 60;
                  login_id := User.id user;
                  login_username := User.username user;
                  login_email := User.email user;
                  login_plan_type := User.plan_type user |}
  end.

(** [change_password]: every [raise] comes before the write. *)
Definition change_password (db : DB) (user_id : Z)
    (old_password new_password : string) : DB * pyresult bool :=
  match first (fun u => User.id u =? user_id) (users db) with
  | None => (db, Raise (ValueError "用户不存在"))
  | Some user =>
      if negb (verify_password old_password (User.hashed_password user)) then
        (db, Raise (ValueError "原密码错误"))
      else if negb (security.validate_password_strength new_password) then
        (db, Raise (ValueError "新密码强度不够"))
      else
        match security.get_password_hash new_password with
        | Raise e => (db, Raise e)
        | Return h =>
            (with_users (update_row User.id (set_hashed_password h user)
                                    (users db)) db,
             Return true)
        end
  end.

End with_externals.

(** The limit a quota row gets for a plan. *)
Definition plan_limit (cfg : config.Settings) (plan_type : string)
    (q : UserQuota.t) : UserQuota.t :=
  if str_eqb (UserQuota.quota_type q) "daily" then
    set_quota_limit (if str_eqb plan_type "free"
                     then config.free_user_daily_quota cfg
                     else config.premium_user_daily_quota cfg) q
  else if str_eqb (UserQuota.quota_type q) "monthly" then
    set_quota_limit (if str_eqb plan_type "free"
                     then config.free_user_daily_quota cfg * 30
                     else config.premium_user_daily_quota cfg * 30) q
  else q.

(** [_update_user_quota]: the rows of the user get the limits of the
    plan. *)
Definition _update_user_quota (cfg : config.Settings) (db : DB)
    (user_id : Z) (plan_type : string) : DB :=
  with_quotas
    (map (fun q => if UserQuota.user_id q =? user_id
                   then plan_limit cfg plan_type q else q) (quotas db)) db.

(** [update_user_plan], run to its end (the admin router and the
    users router only build its coroutine). *)
Definition update_user_plan (cfg : config.Settings) (db : DB) (user_id : Z)
    (new_plan : string) : DB * pyresult User.t :=
  match first (fun u => User.id u =? user_id) (users db) with
  | None => (db, Raise (ValueError "用户不存在"))
  | Some user =>
      let user := set_plan_type new_plan user in
      let user :=
        if str_eqb new_plan "free"
        then set_api_quota (config.free_user_daily_quota cfg) user
        else if str_eqb new_plan "premium"
        then set_api_quota (config.premium_user_daily_quota cfg) user
        else user in
      let db := with_users (update_row User.id user (users db)) db in
      (_update_user_quota cfg db user_id new_plan, Return user)
  end.

(** [deactivate_user] *)
Definition deactivate_user (db : DB) (user_id : Z) : DB * pyresult bool :=
  match first (fun u => User.id u =? user_id) (users db) with
  | None => (db, Raise (ValueError "用户不存在"))
  | Some user =>
      (with_users (update_row User.id (User.set_is_active false user)
                              (users db)) db,
       Return true)
  end.

End accounts.

(** ** [services/file_service.py], continued: lookup, deletion, statistics *)

Module file_store.

(** [db.delete(row)], by primary key. *)
Definition delete_rows {A} (key : A -> Z) (k : Z) (rows : list A) : list A :=
  List.filter (fun r => negb (key r =? k)) rows.

(** [if user_id:] holds for a user id that is given and is not zero. *)
Definition given (user_id : option Z) : option Z :=
  match user_id with
  | Some u => if u =? 0 then None else Some u
  | None => None
  end.

(** [get_file_by_id]: scoped to the owner when a user id is given. *)
Definition get_file_by_id (db : DB) (file_id : Z) (user_id : option Z)
    : option File.t :=
  first (fun f => (File.id f =? file_id)
                  && match given user_id with
                     | Some u => File.user_id f =? u
                     | None => true
                     end) (files db).

(** Deleting a file row takes its tasks along, and their results (the
    [delete-orphan] cascades of the two relationships). *)
Definition delete_file_row (file_id : Z) (db : DB) : DB :=
  let gone := List.filter (fun k => OCRTask.file_id k =? file_id) (tasks db) in
  let db := with_results
    (List.filter (fun r => negb (existsb (fun k => OCRTask.id k
                                                   =? OCRResult.task_id r)
                                         gone)) (results db)) db in
  let db := with_tasks
    (List.filter (fun k => negb (OCRTask.file_id k =? file_id)) (tasks db))
    db in
  with_files (delete_rows File.id file_id (files db)) db.

(** [delete_file].  [unlink_ok] tells whether removing the file from
    the disk goes through; when it does not, the session is rolled
    back. *)
Definition delete_file (unlink_ok : bool) (db : DB) (disk : Disk)
    (file_id user_id : Z) : DB * Disk * pyresult bool :=
  match first (fun f => (File.id f =? file_id) && (File.user_id f =? user_id))
              (files db) with
  | None => (db, disk, Raise (ValueError "文件不存在"))
  | Some file_record =>
      if negb unlink_ok then (db, disk, Raise (ValueError "删除文件失败"))
      else
        let disk := mkDisk (dirs disk)
                           (delete (File.file_path file_record) (blobs disk)) in
        (delete_file_row (File.id file_record) db, disk, Return true)
  end.

(** [update_file_status] *)
Definition update_file_status (now : pytime.datetime) (db : DB) (file_id : Z)
    (status : string) : DB * bool :=
  match first (fun f => File.id f =? file_id) (files db) with
  | None => (db, false)
  | Some file_record =>
      let file_record := File.set_status status file_record in
      let file_record := if str_eqb status "completed"
                         then File.set_processed_at now file_record
                         else file_record in
      (with_files (update_row File.id file_record (files db)) db, true)
  end.

(** The dict of [get_storage_stats], without the rounded size in MB. *)
Record StorageStats := {
  total_files : Z;
  total_size : Z;
  type_stats : gmap string (Z * Z);
  status_stats : gmap string Z
}.

(** One round of the loop over the types: [count += 1],
    [size += file_size], on an entry that starts at zero. *)
Definition count_type (m : gmap string (Z * Z)) (f : File.t)
    : gmap string (Z * Z) :=
  let '(count, size) := default (0, 0) (m !! File.file_type f) in
  <[ File.file_type f := (count + 1, size + File.file_size f) ]> m.

Definition count_status (m : gmap string Z) (f : File.t) : gmap string Z :=
  <[ File.status f := default 0 (m !! File.status f) + 1 ]> m.

(** The rows the statistics run over: those of the user, when a user
    id is given. *)
Definition counted (db : DB) (user_id : option Z) : list File.t :=
  match given user_id with
  | Some u => List.filter (fun f => File.user_id f =? u) (files db)
  | None => files db
  end.

Definition get_storage_stats (db : DB) (user_id : option Z) : StorageStats :=
  let files := counted db user_id in
  {| total_files := Z.of_nat (length files);
     total_size := fold_right Z.add 0 (map File.file_size files);
     type_stats := fold_left count_type files ∅;
     status_stats := fold_left count_status files ∅ |}.

End file_store.

(** ** [services/ocr_service.py], continued: task creation and queries *)

Module task_queries.
Import ocr_service.

(** [process_file].  The task is built with
    [OCRTask(user_id=.., file_id=.., status="processing",
    engine_used="", total_pages=0, processed_pages=0)]; the handler
    rolls back and raises again.  Only after a task has been committed
    is the coroutine [_process_file_async] handed to the event loop. *)
Definition process_file (db : DB) (file_id user_id : Z)
    : DB * pyresult OCRTask.t :=
  match first (fun f => (File.id f =? file_id) && (File.user_id f =? user_id))
              (files db) with
  | None => (db, Raise (ValueError "文件不存在"))
  | Some file_record =>
      match orm.construct OCRTask.attributes "OCRTask"
              ["user_id"; "file_id"; "status"; "engine_used"; "total_pages";
               "processed_pages"]
              (OCRTask.mk (fresh_id (map OCRTask.id (tasks db))) file_id ""
                          "chi_sim+eng" "processing" 0 0 None None None) with
      | Raise e => (db, Raise e)
      | Return task => (with_tasks (tasks db ++ [task]) db, Return task)
      end
  end.

(** [get_task_status]: with a user id that is given and not zero the
    query is narrowed by [OCRTask.user_id]. *)
Definition get_task_status (db : DB) (task_id : Z) (user_id : option Z)
    : pyresult (option OCRTask.t) :=
  match file_store.given user_id with
  | Some u =>
      owner ← orm.class_attr OCRTask.int_column "OCRTask" "user_id";
      Return (first (fun k => (OCRTask.id k =? task_id) && (owner k =? u))
                    (tasks db))
  | None => Return (first (fun k => OCRTask.id k =? task_id) (tasks db))
  end.

Fixpoint insert_by_page (r : OCRResult.t) (rows : list OCRResult.t)
    : list OCRResult.t :=
  match rows with
  | [] => [r]
  | x :: rest =>
      if OCRResult.page_number r <? OCRResult.page_number x
      then r :: x :: rest
      else x :: insert_by_page r rest
  end.

(** [order_by(OCRResult.page_number)] *)
Definition order_by_page (rows : list OCRResult.t) : list OCRResult.t :=
  fold_right insert_by_page [] rows.

(** [get_task_results]: nothing for a task the query does not find. *)
Definition get_task_results (db : DB) (task_id : Z) (user_id : option Z)
    : pyresult (list OCRResult.t) :=
  task ← get_task_status db task_id user_id;
  match task with
  | None => Return []
  | Some _ =>
      Return (order_by_page
                (List.filter (fun r => OCRResult.task_id r =? task_id)
                             (results db)))
  end.

(** Page order: each row is followed only by rows of the same or a
    higher page number. *)
Fixpoint by_page (rows : list OCRResult.t) : Prop :=
  match rows with
  | [] => True
  | r :: rest =>
      (forall x, In x rest ->
                 OCRResult.page_number r <= OCRResult.page_number x)
      /\ by_page rest
  end.

End task_queries.

(** ** [tasks/ocr_tasks.py], continued: batch submission *)

Module task_batch.

(** One entry of the [results] list of [batch_process_ocr_tasks]. *)
Record Submission := {
  sub_task_id : Z;
  sub_status : string;
  sub_celery_task_id : option string;
  sub_error : option string
}.

(** The dict [batch_process_ocr_tasks] returns. *)
Record Batch := {
  total_tasks : Z;
  submitted_tasks : Z;
  failed_tasks : Z;
  batch_results : list Submission
}.

Definition count_status (st : string) (rs : list Submission) : Z :=
  Z.of_nat (length (List.filter (fun r => str_eqb (sub_status r) st) rs)).

(** [batch_process_ocr_tasks]; [delay] is the hand-over of one job to
    the queue: the identifier of the job, or the exception of the
    broker. *)
Definition batch_process_ocr_tasks (delay : Z -> pyresult string)
    (task_ids : list Z) : Batch :=
  let results :=
    map (fun task_id =>
           match delay task_id with
           | Return job => {| sub_task_id := task_id;
                              sub_status := "submitted";
                              sub_celery_task_id := Some job;
                              sub_error := None |}
           | Raise e => {| sub_task_id := task_id;
                           sub_status := "failed";
                           sub_celery_task_id := None;
                           sub_error := Some (exn_str e) |}
           end) task_ids in
  {| total_tasks := Z.of_nat (length task_ids);
     submitted_tasks := count_status "submitted" results;
     failed_tasks := count_status "failed" results;
     batch_results := results |}.

End task_batch.

(** ** [services/ocr_service.py], continued: the engine list *)

Module engine_listing.
Import ocr_service.

(** One entry of [get_available_engines]. *)
Record EngineInfo := {
  info_name : string;
  info_type : string;
  cost_per_page : Q;
  available : bool
}.

Definition engine_info (engine_name : string) : EngineInfo :=
  {| info_name := engine_name;
     info_type := if bool_decide
                       (engine_name ∈ ["tesseract"; "paddleocr"; "easyocr"])
                  then "free" else "paid";
     cost_per_page := default 0%Q (config.OCR_ENGINE_COSTS !! engine_name);
     available := true |}.

(** [get_available_engines].  The registry is a dict filled by
    [_init_engines]; its keys come out in the order of registration,
    which is the order of [engine_names]. *)
Definition get_available_engines (engines : gset string) : list EngineInfo :=
  map engine_info
      (List.filter (fun n => bool_decide (n ∈ engines)) engine_names).

End engine_listing.

(** ** More concrete data: a password library, a token codec, accounts *)

Module fixtures.

(** A verifier that agrees with the transparent hash of
    [sample.externals], and an encoder that issues the one token the
    sample decoder reads back with a subject. *)
Definition crypto : Crypto := {|
  pwd_verify := fun plain hashed =>
    Return (str_eqb hashed ("bcrypt:" +:+ plain));
  jwt_encode := fun claims _ _ =>
    if bool_decide (claims !! "sub" = Some (VStr "alice"))
    then Return "alice-token"
    else Raise (Exception "no signing key for this subject")
|}.

Definition bob : User.t :=
  User.mk 8 "bob" "bob@example.com" "bcrypt:Hunter2!x" "premium" 1000
          true false.

(** Two accounts with their quota rows. *)
Definition accounts_db : DB :=
  with_quotas
    [ UserQuota.mk 1 7 "daily" 100 5
                   (pytime.mkdt (pytime.mkdate 2024 3 16) 0 0 0 0);
      UserQuota.mk 2 7 "monthly" 3000 40
                   (pytime.mkdt (pytime.mkdate 2024 4 2) 0 0 0 0);
      UserQuota.mk 3 8 "daily" 1000 0
                   (pytime.mkdt (pytime.mkdate 2024 3 16) 0 0 0 0) ]
    (with_users [sample.alice "free"; bob] empty_db).

(** The file of user 7 with one task and two result rows, out of page
    order, and the bytes on the disk. *)
Definition results_db : DB :=
  with_results
    [ OCRResult.mk 1 1 2 (Some "page two") (Some (9 # 10)) (Some 2) [] None;
      OCRResult.mk 2 1 1 (Some "page one") (Some (8 # 10)) (Some 2) []
                   None ]
    (sample.db_with_task "completed").

Definition disk : Disk :=
  mkDisk {[ "uploads/user_7" ]}
         {[ File.file_path sample.pdf_file := sample.pdf_header ]}.

End fixtures.

(** * Theorems *)

Ltac run := vm_compute; reflexivity.
Ltac member :=
  match goal with
  | |- ?P => apply (bool_decide_unpack P); vm_compute; exact I
  end.

(** ** Engine selection *)

Section engine_selection.
Import ocr_service.

Lemma register_elem cond name engines x :
  x ∈ register cond name engines -> x = name \/ x ∈ engines.
Proof.
  unfold register. destruct cond; [|auto].
  rewrite elem_of_union, elem_of_singleton. tauto.
Qed.

(** The registry only ever holds the seven names [_init_engines]
    writes. *)
Lemma init_engines_names cfg libs x :
  x ∈ _init_engines cfg libs -> x ∈ engine_names.
Proof.
  unfold _init_engines, engine_names. intros Hx.
  repeat (apply register_elem in Hx; destruct Hx as [-> | Hx];
          [set_solver|]).
  set_solver.
Qed.

(** A preference that names a live engine is returned as it is. *)
Lemma select_engine_preferred (engines : gset string) p :
  p <> "" -> p ∈ engines -> _select_engine engines (Some p) = Return p.
Proof.
  intros Hne Hin. unfold _select_engine, preferred_live, str_eqb.
  rewrite (bool_decide_eq_false_2 _ Hne), (bool_decide_eq_true_2 _ Hin).
  reflexivity.
Qed.

(** Without a live preference the walk never finds an engine: it
    compares the registry with the tier names [free], [premium] and
    [auto], none of which is the name of an engine. *)
Lemma select_engine_fallback_raises cfg libs preference :
  preferred_live (_init_engines cfg libs) preference = None ->
  _select_engine (_init_engines cfg libs) preference
  = Raise (ValueError "没有可用的OCR引擎").
Proof.
  intros Hp. unfold _select_engine. rewrite Hp.
  assert (Hno : forall tier, ~ tier ∈ engine_names ->
            bool_decide (tier ∈ _init_engines cfg libs) = false).
  { intros tier Ht. apply bool_decide_eq_false_2. intros Hin.
    exact (Ht (init_engines_names _ _ _ Hin)). }
  cbn.
  rewrite (Hno "free"), (Hno "premium"), (Hno "auto");
    [reflexivity | | | ];
    apply (bool_decide_eq_false_1 (_ ∈ engine_names)); vm_compute;
    reflexivity.
Qed.

(** C1, as the code behaves.  With the default settings and every
    library installed the registry holds [tesseract] and [paddleocr],
    both of which are on the [auto] priority list; yet a request
    without preference, and a request whose preference ([baidu]) is
    not live, both end in the "no OCR engine available" error instead
    of returning the first live engine of the list.  Only a live
    preference is served. *)
Theorem select_engine_skips_priority_list :
  let engines := _init_engines config.settings all_libs in
  engines = {[ "tesseract"; "paddleocr" ]}
  /\ config.OCR_ENGINE_PRIORITY !! 2%nat
     = Some ("auto", ["baidu_ocr"; "paddleocr"; "tesseract"])
  /\ _select_engine engines None = Raise (ValueError "没有可用的OCR引擎")
  /\ _select_engine engines (Some "baidu")
     = Raise (ValueError "没有可用的OCR引擎")
  /\ _select_engine engines (Some "tesseract") = Return "tesseract".
Proof.
  cbv zeta. split; [|split; [reflexivity|]].
  - apply set_eq. intros x. unfold _init_engines, register. cbn. set_solver.
  - repeat split; run.
Qed.

End engine_selection.

(** ** Rows and keys *)

Section rows.
Context {A : Type} (key : A -> Z).

Lemma update_row_keys row rows :
  map key (update_row key row rows) = map key rows.
Proof.
  unfold update_row. induction rows as [|r rows IH]; [reflexivity|].
  cbn. rewrite IH. destruct (Z.eqb_spec (key r) (key row)); congruence.
Qed.

Lemma update_row_length row rows :
  length (update_row key row rows) = length rows.
Proof. unfold update_row. apply length_map. Qed.

(** After the write, a lookup by the key finds the written row. *)
Lemma first_update_row row rows :
  In (key row) (map key rows) ->
  first (fun r => key r =? key row) (update_row key row rows) = Some row.
Proof.
  unfold first, update_row. induction rows as [|r rows IH]; [intros []|].
  cbn. destruct (Z.eqb_spec (key r) (key row)) as [E|E].
  - intros _. rewrite Z.eqb_refl. reflexivity.
  - intros [H|H]; [congruence|].
    destruct (Z.eqb_spec (key r) (key row)); [congruence|]. auto.
Qed.

Lemma first_some_key (k : Z) rows r :
  first (fun r => key r =? k) rows = Some r ->
  key r = k /\ In r rows.
Proof.
  unfold first. intros H. apply find_some in H as [Hin Hk].
  split; [lia | exact Hin].
Qed.

Lemma fresh_id_above (ids : list Z) : Forall (fun i => i < fresh_id ids) ids.
Proof.
  unfold fresh_id. induction ids as [|i ids IH]; constructor; cbn.
  - lia.
  - eapply Forall_impl; [exact IH|]. cbn. intros; lia.
Qed.

(** The key of a new row is not in use. *)
Lemma fresh_id_new (ids : list Z) : ~ In (fresh_id ids) ids.
Proof.
  intros Hin. pose proof (fresh_id_above ids) as Hall.
  rewrite List.Forall_forall in Hall. apply Hall in Hin. lia.
Qed.

(** With unique keys, the row a lookup finds is the only one that
    carries the key. *)
Lemma first_unique (k : Z) rows r r' :
  List.NoDup (map key rows) ->
  first (fun r => key r =? k) rows = Some r ->
  In r' rows -> key r' = k -> r' = r.
Proof.
  unfold first. induction rows as [|x rows IH]; [discriminate|].
  cbn. intros Hnd Hf Hin Hk. apply NoDup_cons_iff in Hnd as [Hx Hnd].
  destruct (Z.eqb_spec (key x) k) as [E|E].
  - injection Hf as <-. destruct Hin as [->|Hin]; [reflexivity|].
    exfalso. apply Hx. rewrite E, <- Hk. apply in_map, Hin.
  - destruct Hin as [->|Hin]; [congruence|]. auto.
Qed.

End rows.


(** ** The administrator bootstrap *)

Section admin_bootstrap.
Context `{Externals}.
Import init_admin.

Lemma default_password_too_weak :
  security.validate_password_strength "123456" = false.
Proof. run. Qed.

(** Whenever the store has no user named [admin], the run creates
    none: [register_user] turns the fixed password down, because it
    is shorter than eight characters, before anything is written. *)
Lemma init_admin_user_without_admin cfg now db :
  first (fun u => str_eqb (User.username u) "admin") (users db) = None ->
  init_admin_user cfg now db
  = (db, Raise (ValueError
      "密码强度不够，至少8位且包含大小写字母、数字、特殊字符中的3种"))
  /\ main cfg now db = (db, 1).
Proof.
  intros Hnone. unfold main, init_admin_user. rewrite Hnone.
  unfold auth_service.register_user.
  replace (auth_service.validate_username "admin") with true by run.
  replace (auth_service.validate_email "admin@ocr-system.com") with true
    by run.
  rewrite default_password_too_weak. cbn. auto.
Qed.

(** A user named [admin] who is not an administrator is promoted in
    place: the row keeps its key and every other attribute. *)
Lemma init_admin_user_promotes cfg now db u :
  first (fun u => str_eqb (User.username u) "admin") (users db) = Some u ->
  User.is_admin u = false ->
  init_admin_user cfg now db
  = (with_users (update_row User.id (User.set_is_admin true u) (users db)) db,
     Return (User.set_is_admin true u)).
Proof.
  intros Hsome Hna. unfold init_admin_user. rewrite Hsome, Hna. reflexivity.
Qed.

(** An existing administrator named [admin] is left as it is. *)
Lemma init_admin_user_keeps_admin cfg now db u :
  first (fun u => str_eqb (User.username u) "admin") (users db) = Some u ->
  User.is_admin u = true ->
  init_admin_user cfg now db = (db, Return u).
Proof.
  intros Hsome Ha. unfold init_admin_user. rewrite Hsome, Ha. reflexivity.
Qed.

(** C3, as the code behaves.  Run against the empty store, the
    bootstrap does not create the user [admin]: the call of
    [register_user] with the password [123456] raises the
    password-strength [ValueError], the store stays empty, and the
    process exits with status 1. *)
Theorem admin_bootstrap_creates_no_admin cfg now :
  security.validate_password_strength "123456" = false
  /\ init_admin_user cfg now empty_db
     = (empty_db, Raise (ValueError
         "密码强度不够，至少8位且包含大小写字母、数字、特殊字符中的3种"))
  /\ main cfg now empty_db = (empty_db, 1)
  /\ users (main cfg now empty_db).1 = [].
Proof.
  destruct (init_admin_user_without_admin cfg now empty_db eq_refl)
    as [Hinit Hmain].
  rewrite Hmain. split; [run|]. split; [exact Hinit|]. split; reflexivity.
Qed.

End admin_bootstrap.

(** ** Plan upgrades *)

Section plan_upgrade.
Import api_users.

Lemma plan_levels_table :
  plan_levels !! "free" = Some 0 /\ plan_levels !! "basic" = Some 1
  /\ plan_levels !! "premium" = Some 2
  /\ plan_levels !! "enterprise" = Some 3.
Proof. repeat split; run. Qed.

(** The handler never writes the store. *)
Lemma upgrade_user_plan_store db current_user new_plan :
  (upgrade_user_plan db current_user new_plan).1 = db.
Proof.
  unfold upgrade_user_plan.
  destruct (negb _); [reflexivity|].
  destruct (user_attr current_user "plan"); [|reflexivity].
  repeat match goal with |- context [if ?c then _ else _] => destruct c end;
    reflexivity.
Qed.

(** [models.User] has no attribute [plan]. *)
Lemma user_has_no_plan u :
  user_attr u "plan" = Raise (orm.no_attribute "User" "plan").
Proof. reflexivity. Qed.

(** For every plan name of the hierarchy the handler ends in the
    [AttributeError] of [current_user.plan], whatever the plan of the
    caller. *)
Lemma upgrade_user_plan_valid db current_user new_plan :
  new_plan ∈ valid_plans ->
  upgrade_user_plan db current_user new_plan
  = (db, Raise (AttributeError "'User' object has no attribute 'plan'")).
Proof.
  intros Hvalid. unfold upgrade_user_plan.
  rewrite (bool_decide_eq_true_2 _ Hvalid), user_has_no_plan. reflexivity.
Qed.

(** C4, as the code behaves.  A premium user who asks for [free], a
    downgrade, and one who asks for [premium], the plan the user has,
    are not turned down with the 400 by which this router signals a
    conflict: the handler reads [current_user.plan], an attribute
    [models.User] does not declare (the column is [plan_type]), and
    the [AttributeError] leaves the handler before either comparison.
    The same holds for every user and every plan name of the
    hierarchy.  The store is never written. *)
Theorem upgrade_reads_undeclared_plan :
  let db := with_users [sample.alice "premium"] empty_db in
  upgrade_user_plan db (sample.alice "premium") "free"
  = (db, Raise (AttributeError "'User' object has no attribute 'plan'"))
  /\ upgrade_user_plan db (sample.alice "premium") "premium"
     = (db, Raise (AttributeError "'User' object has no attribute 'plan'"))
  /\ (forall db current_user new_plan,
        new_plan ∈ valid_plans ->
        upgrade_user_plan db current_user new_plan
        = (db, Raise (AttributeError "'User' object has no attribute 'plan'")))
  /\ (forall db current_user new_plan,
        (upgrade_user_plan db current_user new_plan).1 = db).
Proof.
  cbv zeta. split; [|split; [|split]].
  - apply upgrade_user_plan_valid. member.
  - apply upgrade_user_plan_valid. member.
  - apply upgrade_user_plan_valid.
  - apply upgrade_user_plan_store.
Qed.

End plan_upgrade.


(** ** File validation *)

Section file_validation.
Import pystr file_service.

Lemma blen_app (a b : bytes) : blen (a ++ b) = blen a + blen b.
Proof. unfold blen. rewrite length_app. lia. Qed.

Lemma startswith_app (magic rest : bytes) :
  startswith (magic ++ rest) magic = true.
Proof.
  induction magic as [|m magic IH]; [reflexivity|]. cbn.
  rewrite IH, andb_true_r. destruct m; reflexivity.
Qed.

(** Content that begins with the PDF header passes the content check
    under [.pdf] and fails it under [.png]. *)
Lemma validate_file_content_pdf (rest : bytes) :
  _validate_file_content (sample.pdf_header ++ rest) ".pdf" = true
  /\ _validate_file_content (sample.pdf_header ++ rest) ".png" = false.
Proof.
  unfold _validate_file_content.
  assert (Hlen : (blen (sample.pdf_header ++ rest) <? 4) = false).
  { apply Z.ltb_ge. rewrite blen_app. unfold blen.
    cbn [length sample.pdf_header]. lia. }
  rewrite Hlen. split.
  - replace (magic_numbers !! ".pdf") with (Some [sample.pdf_header]) by run.
    cbn [default from_option id existsb]. rewrite startswith_app. reflexivity.
  - replace (magic_numbers !! ".png")
      with (Some [[Byte.x89; Byte.x50; Byte.x4e; Byte.x47]]) by run.
    reflexivity.
Qed.

Lemma validate_file_content_short (content : bytes) ext :
  blen content < 4 -> _validate_file_content content ext = false.
Proof.
  intros Hshort. unfold _validate_file_content.
  apply Z.ltb_lt in Hshort. rewrite Hshort. reflexivity.
Qed.

(** C5, with the size limit the code enforces first.  For content of at
    most [max_file_size] bytes (50 MiB by default) that begins with
    [%PDF]: validation under an allowed [.pdf] name succeeds, and under
    an allowed [.png] name it fails with the code
    [INVALID_FILE_CONTENT].  Content shorter than four bytes is invalid
    under every name.  Content of four bytes or more, within the size
    limit, under an allowed extension that has no entry in the table of
    magic numbers, passes the content check and the validation. *)
Theorem validate_file_by_magic_number cfg :
  (forall filename rest,
     let content := sample.pdf_header ++ rest in
     blen content <= config.max_file_size cfg ->
     (lower (pypath.suffix filename) = ".pdf" ->
      ".pdf" ∈ config.allowed_extensions cfg ->
      validate_file cfg filename content = accepted)
     /\ (lower (pypath.suffix filename) = ".png" ->
         ".png" ∈ config.allowed_extensions cfg ->
         validate_file cfg filename content
         = rejected "文件内容与扩展名不匹配" "INVALID_FILE_CONTENT"))
  /\ (forall filename content,
        blen content < 4 ->
        valid (validate_file cfg filename content) = false)
  /\ (forall filename content,
        let ext := lower (pypath.suffix filename) in
        ext ∈ config.allowed_extensions cfg ->
        magic_numbers !! ext = None ->
        4 <= blen content <= config.max_file_size cfg ->
        _validate_file_content content ext = true
        /\ validate_file cfg filename content = accepted).
Proof.
  split; [|split].
  - intros filename rest content Hsize.
    destruct (validate_file_content_pdf rest) as [Hpdf Hpng].
    apply Z.ltb_ge in Hsize.
    split; intros Hext Hallowed; unfold validate_file; rewrite Hext;
      rewrite (bool_decide_eq_true_2 _ Hallowed); cbn [negb];
      fold content; rewrite Hsize; fold content in Hpdf, Hpng.
    + rewrite Hpdf. reflexivity.
    + rewrite Hpng. reflexivity.
  - intros filename content Hshort. unfold validate_file.
    rewrite (validate_file_content_short _ _ Hshort). cbn [negb].
    repeat match goal with |- context [if ?c then _ else _] => destruct c end;
      reflexivity.
  - intros filename content ext Hallowed Hnone [Hmin Hmax].
    assert (Hcontent : _validate_file_content content ext = true).
    { unfold _validate_file_content. rewrite Hnone.
      apply Z.ltb_ge in Hmin. rewrite Hmin. reflexivity. }
    split; [exact Hcontent|].
    unfold validate_file. fold ext.
    rewrite (bool_decide_eq_true_2 _ Hallowed). cbn [negb].
    apply Z.ltb_ge in Hmax. rewrite Hmax, Hcontent. reflexivity.
Qed.

(** The statement run on the five bytes [%PDF-], named [scan.pdf] and
    [scan.png], with the default settings. *)
Lemma validate_file_by_magic_number_witness :
  (blen (sample.pdf_header ++ [Byte.x2d])
     <= config.max_file_size config.settings
   /\ lower (pypath.suffix "scan.pdf") = ".pdf"
   /\ lower (pypath.suffix "scan.png") = ".png")
  /\ validate_file config.settings "scan.pdf"
                   (sample.pdf_header ++ [Byte.x2d]) = accepted
  /\ validate_file config.settings "scan.png"
                   (sample.pdf_header ++ [Byte.x2d])
     = rejected "文件内容与扩展名不匹配" "INVALID_FILE_CONTENT".
Proof.
  assert (Hsize : blen (sample.pdf_header ++ [Byte.x2d])
                  <= config.max_file_size config.settings)
    by (vm_compute; discriminate).
  assert (Hpdf : lower (pypath.suffix "scan.pdf") = ".pdf") by run.
  assert (Hpng : lower (pypath.suffix "scan.png") = ".png") by run.
  split; [auto|].
  destruct (validate_file_by_magic_number config.settings) as [Hmagic _].
  destruct (Hmagic "scan.pdf" [Byte.x2d] Hsize) as [Hok _].
  destruct (Hmagic "scan.png" [Byte.x2d] Hsize) as [_ Hbad].
  split; [apply Hok | apply Hbad]; auto; member.
Defined.

(** The size check comes before the content check. *)
Lemma validate_file_too_large cfg filename (content : bytes) :
  lower (pypath.suffix filename) ∈ config.allowed_extensions cfg ->
  config.max_file_size cfg < blen content ->
  validate_file cfg filename content
  = rejected ("文件大小超过限制: "
              +:+ format_mib (config.max_file_size cfg) +:+ "MB")
             "FILE_TOO_LARGE".
Proof.
  intros Hallowed Hbig. unfold validate_file.
  rewrite (bool_decide_eq_true_2 _ Hallowed). cbn [negb].
  apply Z.ltb_lt in Hbig. rewrite Hbig. reflexivity.
Qed.

Lemma oversized_pdf_size :
  config.max_file_size config.settings < blen sample.oversized_pdf.
Proof.
  unfold sample.oversized_pdf. rewrite blen_app.
  unfold blen at 2. rewrite repeat_length, Z2Nat.id by lia.
  change (blen sample.pdf_header) with 4.
  change (config.max_file_size config.settings) with (50 * 1024 * 1024).
  lia.
Qed.

(** C5 as stated fails on large files.  The bytes [%PDF] followed by
    50 MiB of zeros begin with the PDF header, yet validation under the
    name [scan.pdf] does not succeed: the size check comes before the
    content check and answers [FILE_TOO_LARGE]; under [scan.png] the
    code is [FILE_TOO_LARGE] as well, not [INVALID_FILE_CONTENT]. *)
Lemma oversized_pdf_is_rejected :
  (exists rest, sample.oversized_pdf = sample.pdf_header ++ rest)
  /\ validate_file config.settings "scan.pdf" sample.oversized_pdf
     = rejected "文件大小超过限制: 50.0MB" "FILE_TOO_LARGE"
  /\ validate_file config.settings "scan.png" sample.oversized_pdf
     = rejected "文件大小超过限制: 50.0MB" "FILE_TOO_LARGE".
Proof.
  split; [eexists; reflexivity|].
  split.
  - rewrite (validate_file_too_large config.settings "scan.pdf");
      [run | member | exact oversized_pdf_size].
  - rewrite (validate_file_too_large config.settings "scan.png");
      [run | member | exact oversized_pdf_size].
Qed.

End file_validation.


(** ** Upload deduplication *)

Section upload_dedup.
Context `{Externals}.
Import file_service.

Lemma first_none_filter {A} (p : A -> bool) rows :
  List.filter p rows = [] -> first p rows = None.
Proof.
  unfold first. induction rows as [|r rows IH]; [reflexivity|].
  cbn. destruct (p r); [discriminate | exact IH].
Qed.

Lemma first_app_new {A} (p : A -> bool) rows r :
  first p rows = None -> p r = true -> first p (rows ++ [r]) = Some r.
Proof.
  unfold first. induction rows as [|x rows IH]; cbn; intros Hn Hr.
  - rewrite Hr. reflexivity.
  - destruct (p x); [discriminate | auto].
Qed.

(** A first upload: the bytes are written below the directory of the
    user and one row is appended, under a key that was not in use. *)
Lemma save_uploaded_file_new cfg fresh db disk user_id name content :
  valid (validate_file cfg name content) = true ->
  uploads_of db user_id (security.calculate_file_hash content) = [] ->
  exists f disk',
    save_uploaded_file cfg fresh true db disk user_id name content
    = (with_files (files db ++ [f]) db, disk', Return f)
    /\ File.id f = fresh_id (map File.id (files db))
    /\ File.user_id f = user_id
    /\ File.file_hash f = security.calculate_file_hash content
    /\ File.status f = "uploaded"
    /\ dirs disk' = {[ user_dir_path cfg user_id ]} ∪ dirs disk
    /\ blobs disk' !! File.file_path f = Some content.
Proof.
  intros Hvalid Hnone. apply first_none_filter in Hnone.
  unfold save_uploaded_file, _get_user_upload_dir.
  rewrite Hvalid. cbn [negb]. rewrite Hnone. cbn [negb].
  eexists _, _. split; [reflexivity|]. cbn.
  repeat split. apply lookup_insert_eq.
Qed.

(** An upload whose content the user already has: the existing row is
    returned; no row and no file is written. *)
Lemma save_uploaded_file_existing cfg fresh write_ok db disk user_id name
    content f :
  valid (validate_file cfg name content) = true ->
  first (same_upload user_id (security.calculate_file_hash content))
        (files db) = Some f ->
  user_dir_path cfg user_id ∈ dirs disk ->
  save_uploaded_file cfg fresh write_ok db disk user_id name content
  = (db, disk, Return f).
Proof.
  intros Hvalid Hsome Hdir.
  unfold save_uploaded_file, _get_user_upload_dir.
  rewrite Hvalid. cbn [negb]. rewrite Hsome.
  replace ({[ user_dir_path cfg user_id ]} ∪ dirs disk) with (dirs disk)
    by (symmetry; apply subseteq_union_1_L, singleton_subseteq_l, Hdir).
  destruct disk; reflexivity.
Qed.

Lemma same_upload_own user_id h f :
  File.user_id f = user_id -> File.file_hash f = h ->
  same_upload user_id h f = true.
Proof.
  intros <- <-. unfold same_upload, str_eqb.
  rewrite Z.eqb_refl, bool_decide_eq_true_2; reflexivity.
Qed.

Lemma same_upload_other user_id h f :
  File.user_id f <> user_id -> same_upload user_id h f = false.
Proof.
  intros Hne. unfold same_upload.
  destruct (Z.eqb_spec (File.user_id f) user_id); [contradiction|reflexivity].
Qed.

(** C6.  Take a store in which neither of two different users has a
    row for the hash of some content, and let every upload pass
    validation.  The first save by the first user appends one row
    [f1].  Saving the same content again as the same user returns
    [f1], matched on the user and the hash, and leaves the store and
    the disk exactly as they were, whether or not the disk could be
    written: the user has exactly one row for the content.  Saving the
    content as the second user appends a second row [f3] with another
    key, so that the two users have one row each. *)
Theorem save_uploaded_file_dedup cfg fresh1 fresh2 fresh3 write_ok2 db disk
    user1 user2 name1 name2 name3 content :
  let h := security.calculate_file_hash content in
  valid (validate_file cfg name1 content) = true ->
  valid (validate_file cfg name2 content) = true ->
  valid (validate_file cfg name3 content) = true ->
  uploads_of db user1 h = [] ->
  uploads_of db user2 h = [] ->
  user1 <> user2 ->
  exists f1 f3 db1 disk1 db3 disk3,
    save_uploaded_file cfg fresh1 true db disk user1 name1 content
    = (db1, disk1, Return f1)
    /\ save_uploaded_file cfg fresh2 write_ok2 db1 disk1 user1 name2 content
       = (db1, disk1, Return f1)
    /\ uploads_of db1 user1 h = [f1]
    /\ save_uploaded_file cfg fresh3 true db1 disk1 user2 name3 content
       = (db3, disk3, Return f3)
    /\ files db3 = files db ++ [f1; f3]
    /\ File.id f1 <> File.id f3
    /\ File.user_id f1 = user1 /\ File.user_id f3 = user2
    /\ File.file_hash f1 = h /\ File.file_hash f3 = h
    /\ uploads_of db3 user1 h = [f1]
    /\ uploads_of db3 user2 h = [f3].
Proof.
  intros h Hv1 Hv2 Hv3 Hn1 Hn2 Hne.
  destruct (save_uploaded_file_new cfg fresh1 db disk user1 name1 content
              Hv1 Hn1) as (f1 & disk1 & Hs1 & Hid1 & Hu1 & Hh1 & _ & Hd1 & _).
  fold h in Hh1.
  assert (Hown1 : same_upload user1 h f1 = true)
    by (apply same_upload_own; assumption).
  assert (Hoth1 : same_upload user2 h f1 = false)
    by (apply same_upload_other; congruence).
  assert (Hn3 : uploads_of (with_files (files db ++ [f1]) db) user2
                           (security.calculate_file_hash content) = []).
  { unfold uploads_of in *. cbn [files with_files].
    rewrite List.filter_app. fold h. rewrite Hn2. cbn. rewrite Hoth1.
    reflexivity. }
  destruct (save_uploaded_file_new cfg fresh3 _ disk1 user2 name3 content
              Hv3 Hn3) as (f3 & disk3 & Hs3 & Hid3 & Hu3 & Hh3 & _).
  fold h in Hh3. cbn [files with_files] in Hs3, Hid3.
  assert (Hown3 : same_upload user2 h f3 = true)
    by (apply same_upload_own; assumption).
  assert (Hoth3 : same_upload user1 h f3 = false)
    by (apply same_upload_other; congruence).
  eexists f1, f3, _, disk1, _, disk3.
  split; [exact Hs1|]. split; [|split; [|split; [exact Hs3|]]].
  - apply save_uploaded_file_existing; [exact Hv2 | | ].
    + cbn [files with_files]. apply first_app_new; [|exact Hown1].
      apply first_none_filter, Hn1.
    + rewrite Hd1. apply elem_of_union_l, elem_of_singleton. reflexivity.
  - unfold uploads_of in *. cbn [files with_files].
    rewrite List.filter_app, Hn1. cbn. rewrite Hown1. reflexivity.
  - cbn [files with_files]. rewrite <- app_assoc.
    split; [reflexivity|]. split.
    + intros Heq. apply (fresh_id_new (map File.id (files db ++ [f1]))).
      rewrite <- Hid3, <- Heq, map_app. apply in_or_app. right. left.
      reflexivity.
    + repeat (split; [assumption|]). unfold uploads_of in *.
      cbn [files with_files]. rewrite !List.filter_app, Hn1, Hn2. cbn.
      rewrite Hown1, Hoth1, Hown3, Hoth3. split; reflexivity.
Qed.

End upload_dedup.

(** The statement run on the five bytes [%PDF-], uploaded as [scan.pdf]
    into the empty store by the users 7 and 8. *)
Lemma save_uploaded_file_dedup_witness :
  let content := sample.pdf_header ++ [Byte.x2d] in
  let save := @file_service.save_uploaded_file sample.externals
                config.settings in
  (file_service.valid
     (file_service.validate_file config.settings "scan.pdf" content) = true
   /\ file_service.uploads_of empty_db 7
        (@security.calculate_file_hash sample.externals content) = []
   /\ file_service.uploads_of empty_db 8
        (@security.calculate_file_hash sample.externals content) = []
   /\ 7 <> 8)
  /\ exists f1 f3 db1 disk1 db3 disk3,
       save (sample.fresh "01") true empty_db sample.empty_disk 7
            "scan.pdf" content = (db1, disk1, Return f1)
       /\ save (sample.fresh "02") false db1 disk1 7 "scan.pdf" content
          = (db1, disk1, Return f1)
       /\ save (sample.fresh "03") true db1 disk1 8 "scan.pdf" content
          = (db3, disk3, Return f3)
       /\ files db3 = [f1; f3]
       /\ File.id f1 <> File.id f3.
Proof.
  cbv zeta.
  assert (Hv : file_service.valid
                 (file_service.validate_file config.settings "scan.pdf"
                    (sample.pdf_header ++ [Byte.x2d])) = true) by run.
  assert (Hne : 7 <> 8) by discriminate.
  split;
    [split; [exact Hv | split; [reflexivity | split; [reflexivity | exact Hne]]]
    |].
  destruct (@save_uploaded_file_dedup sample.externals config.settings
              (sample.fresh "01") (sample.fresh "02") (sample.fresh "03")
              false empty_db sample.empty_disk 7 8
              "scan.pdf" "scan.pdf" "scan.pdf"
              (sample.pdf_header ++ [Byte.x2d]) Hv Hv Hv eq_refl eq_refl Hne)
    as (f1 & f3 & db1 & disk1 & db3 & disk3 & H1 & H2 & _ & H3 & Hf & Hid & _).
  exists f1, f3, db1, disk1, db3, disk3. auto.
Defined.



(** ** Quota rollover *)

Section quota_rollover.
Import stats_tasks.

(** None of the four attributes the job assigns is a column, so the
    assignments land in the instance dictionary. *)
Lemma setattr_keeps_columns o name v :
  name ∈ ["daily_pages_used"; "last_reset_date"; "monthly_pages_used";
          "monthly_reset_date"] ->
  cols (setattr o name v) = cols o.
Proof.
  intros Hname. repeat (apply elem_of_cons in Hname as [-> | Hname]);
    [reflexivity .. |]. apply elem_of_nil in Hname as [].
Qed.

Lemma roll_over_columns today quota n quota' n' :
  roll_over today quota n = Return (quota', n') -> cols quota' = cols quota.
Proof.
  unfold roll_over. cbn.
  destruct (getattr quota "last_reset_date") as [d|]; [|discriminate]. cbn.
  destruct (bool_decide (d <> VDate today)); cbn.
  - match goal with
    | |- context [getattr ?q "monthly_reset_date"] =>
        destruct (getattr q "monthly_reset_date") as [m|]; [|discriminate]
    end. cbn.
    destruct (bool_decide _); intros [= <- _]; reflexivity.
  - destruct (getattr quota "monthly_reset_date") as [m|]; [|discriminate].
    cbn. destruct (bool_decide _); intros [= <- _]; reflexivity.
Qed.

(** Whatever attributes the objects carry, a run of the loop that gets
    through leaves every mapped column as it was, [quota_used] and
    [reset_time] included. *)
Lemma roll_over_all_columns today quotas :
  forall n quotas' n',
    roll_over_all today quotas n = Return (quotas', n') ->
    map cols quotas' = map cols quotas.
Proof.
  induction quotas as [|quota rest IH]; intros n quotas' n' Hrun.
  - injection Hrun as <- _. reflexivity.
  - cbn in Hrun.
    destruct (roll_over today quota n) as [[quota1 n1]|] eqn:Hone;
      [|discriminate]. cbn in Hrun.
    destruct (roll_over_all today rest n1) as [[rest1 n2]|] eqn:Hrest;
      [|discriminate]. cbn in Hrun. injection Hrun as <- _.
    cbn. f_equal; [eapply roll_over_columns, Hone | eapply IH, Hrest].
Qed.

(** The job never changes the store. *)
Lemma update_user_quotas_store now db : (update_user_quotas now db).1 = db.
Proof.
  unfold update_user_quotas.
  destruct (roll_over_all _ _ 0) as [[quotas' n']|] eqn:Hrun; [|reflexivity].
  apply roll_over_all_columns in Hrun. cbn. rewrite Hrun, map_map. cbn.
  rewrite map_id. destruct db; reflexivity.
Qed.

(** On rows as the store returns them the first attribute read raises,
    and the job answers with the error. *)
Lemma update_user_quotas_raises now db q rest :
  quotas db = q :: rest ->
  (update_user_quotas now db).2
  = {[ "status" := VStr "error";
       "message" :=
         VStr "'UserQuota' object has no attribute 'last_reset_date'" ]}.
Proof.
  intros Hq. unfold update_user_quotas. rewrite Hq. reflexivity.
Qed.

(** C7, as the code behaves.  No run of the rollover job changes the
    store.  On the two quota rows of a user, one daily and one monthly,
    whose windows have both ended, the job reads the attribute
    [last_reset_date], which a [UserQuota] row does not have, and ends
    in its error handler: [quota_used] stays at 5 and at 40 and both
    reset times stay where they were. *)
Theorem quota_rollover_resets_nothing :
  (forall now db, (update_user_quotas now db).1 = db)
  /\ (let r := update_user_quotas sample.now sample.quota_db in
      map (fun q => (UserQuota.quota_type q, UserQuota.quota_used q,
                     pytime.ltb (UserQuota.reset_time q) sample.now))
          (quotas r.1)
      = [("daily", 5, true); ("monthly", 40, true)]
      /\ r.2 = {[ "status" := VStr "error";
                  "message" :=
                    VStr "'UserQuota' object has no attribute 'last_reset_date'"
               ]}).
Proof.
  split; [exact update_user_quotas_store|]. cbv zeta. split; run.
Qed.

End quota_rollover.




(** ** The plan gate *)

Section plan_gate.
Import security.

Lemma plan_hierarchy_lookup name :
  plan_hierarchy !! name
  = if decide (name = "free") then Some 0
    else if decide (name = "premium") then Some 1
    else if decide (name = "enterprise") then Some 2
    else None.
Proof.
  unfold plan_hierarchy. rewrite !lookup_insert, lookup_singleton.
  repeat (destruct (decide _); try congruence).
Qed.

Lemma plan_level_nonneg name : 0 <= plan_level name.
Proof.
  unfold plan_level. rewrite plan_hierarchy_lookup.
  repeat (destruct (decide _); cbn; try lia).
Qed.

(** C9.  The gate knows three plans, [free] at level 0, [premium] at
    level 1 and [enterprise] at level 2; every other name, [basic]
    included, counts as level 0.  A user on the [basic] plan therefore
    passes exactly the gates of level 0: of the gates named after a
    plan of the table it passes the [free] one and fails the [premium]
    and the [enterprise] one.  A gate whose required plan is not in the
    table admits every user. *)
Theorem plan_gate_levels :
  (forall name level,
     plan_hierarchy !! name = Some level <->
     (name = "free" /\ level = 0) \/ (name = "premium" /\ level = 1)
     \/ (name = "enterprise" /\ level = 2))
  /\ plan_level "basic" = 0
  /\ (forall name, plan_hierarchy !! name = None -> plan_level name = 0)
  /\ (forall user required,
        User.plan_type user = "basic" ->
        (check_user_permissions user required = true <->
         plan_level required = 0))
  /\ (forall user,
        User.plan_type user = "basic" ->
        check_user_permissions user "free" = true
        /\ check_user_permissions user "premium" = false
        /\ check_user_permissions user "enterprise" = false)
  /\ (forall user required,
        plan_hierarchy !! required = None ->
        check_user_permissions user required = true).
Proof.
  split; [|split; [|split; [|split; [|split]]]].
  - intros name level. rewrite plan_hierarchy_lookup.
    repeat destruct (decide _); subst; split;
      try (intros [= <-]; auto; fail);
      try (intros [[? ?]|[[? ?]|[? ?]]]; congruence).
  - run.
  - intros name Hnone. unfold plan_level. rewrite Hnone. reflexivity.
  - intros user required Hbasic. unfold check_user_permissions.
    rewrite Hbasic. change (plan_level "basic") with 0.
    pose proof (plan_level_nonneg required). rewrite Z.leb_le. lia.
  - intros user Hbasic. unfold check_user_permissions. rewrite Hbasic.
    repeat split; run.
  - intros user required Hnone. unfold check_user_permissions.
    unfold plan_level at 1. rewrite Hnone. apply Z.leb_le, plan_level_nonneg.
Qed.

(** The statement run on a user whose plan is [basic]. *)
Lemma plan_gate_levels_witness :
  User.plan_type (sample.alice "basic") = "basic"
  /\ check_user_permissions (sample.alice "basic") "free" = true
  /\ check_user_permissions (sample.alice "basic") "premium" = false
  /\ check_user_permissions (sample.alice "basic") "enterprise" = false
  /\ check_user_permissions (sample.alice "free") "gold" = true.
Proof.
  destruct plan_gate_levels as (_ & _ & _ & _ & Hbasic & Hunknown).
  destruct (Hbasic (sample.alice "basic") eq_refl) as (H1 & H2 & H3).
  repeat (split; [assumption || reflexivity|]).
  apply Hunknown. run.
Defined.

End plan_gate.

(** ** Token verification *)

Section token_verification.
Context `{Externals}.
Import security.

(** A token whose claims carry a subject is answered with its claims. *)
Lemma verify_token_subject cfg token payload sub :
  jwt_decode token (config.secret_key cfg) (config.algorithm cfg)
  = Return payload ->
  payload !! "sub" = Some sub -> sub <> VNone ->
  verify_token cfg token = Return (Some payload).
Proof.
  intros Hdec Hsub Hne. unfold verify_token. rewrite Hdec. cbn.
  rewrite Hsub. cbn. destruct sub; [contradiction|reflexivity ..].
Qed.

(** C10.  [verify_token] returns for every token and never raises.
    Whatever exception the decoding library raises (an expired or badly
    signed token among them), the answer is [None]; and a token that
    decodes, so is well signed and not expired, but whose claims have
    no [sub] entry, is answered with [None] as well. *)
Theorem verify_token_total cfg token :
  returns (verify_token cfg token)
  /\ (forall e,
        jwt_decode token (config.secret_key cfg) (config.algorithm cfg)
        = Raise e ->
        verify_token cfg token = Return None)
  /\ (forall payload,
        jwt_decode token (config.secret_key cfg) (config.algorithm cfg)
        = Return payload ->
        payload !! "sub" = None ->
        verify_token cfg token = Return None).
Proof.
  unfold returns, verify_token.
  destruct (jwt_decode token _ _) as [payload|e]; cbn.
  - split; [|split].
    + destruct (is_None _); eauto.
    + discriminate.
    + intros ? [= <-] Hnone. rewrite Hnone. reflexivity.
  - split; [|split].
    + destruct e; eauto.
    + intros ? _. destruct e; reflexivity.
    + discriminate.
Qed.

End token_verification.

(** The statement run on an expired token and on a token without
    subject. *)
Lemma verify_token_total_witness :
  (@jwt_decode sample.externals "old-token"
     (config.secret_key config.settings) (config.algorithm config.settings)
   = Raise (JWTError "Signature has expired.")
   /\ exists payload,
        @jwt_decode sample.externals "anonymous-token"
          (config.secret_key config.settings)
          (config.algorithm config.settings) = Return payload
        /\ payload !! "sub" = None)
  /\ @security.verify_token sample.externals config.settings "old-token"
     = Return None
  /\ @security.verify_token sample.externals config.settings
       "anonymous-token" = Return None.
Proof.
  assert (Hold : @jwt_decode sample.externals "old-token"
                   (config.secret_key config.settings)
                   (config.algorithm config.settings)
                 = Raise (JWTError "Signature has expired.")) by reflexivity.
  assert (Hanon : @jwt_decode sample.externals "anonymous-token"
                    (config.secret_key config.settings)
                    (config.algorithm config.settings)
                  = Return {[ "exp" := VInt 4102444800 ]}) by reflexivity.
  split; [split; [exact Hold | eexists; split; [exact Hanon | run]]|].
  split.
  - destruct (@verify_token_total sample.externals config.settings
                "old-token") as (_ & Hraise & _).
    exact (Hraise _ Hold).
  - destruct (@verify_token_total sample.externals config.settings
                "anonymous-token") as (_ & _ & Hnosub).
    apply (Hnosub _ Hanon). run.
Defined.


(** * Further properties of the modelled code *)

(** ** Engine selection, once more *)

Section selection_again.
Import ocr_service.

(** X1.  [_select_engine] returns an engine exactly when the preference
    is a non-empty name of the registry, and then it returns the
    preference: no other engine is ever chosen.  When it raises, the
    exception is the "no OCR engine available" [ValueError]. *)
Theorem select_engine_returns_live_preference cfg libs preference :
  (forall e,
     _select_engine (_init_engines cfg libs) preference = Return e <->
     preference = Some e /\ e <> "" /\ e ∈ _init_engines cfg libs)
  /\ (forall err,
        _select_engine (_init_engines cfg libs) preference = Raise err ->
        err = ValueError "没有可用的OCR引擎").
Proof.
  split.
  - intros e. split.
    + intros Hsel.
      destruct (preferred_live (_init_engines cfg libs) preference)
        as [p|] eqn:Hp.
      * unfold _select_engine in Hsel. rewrite Hp in Hsel.
        injection Hsel as ->. unfold preferred_live in Hp.
        destruct preference as [q|]; [|discriminate].
        destruct (str_eqb q "") eqn:Hq; [discriminate|]. cbn in Hp.
        destruct (bool_decide (q ∈ _init_engines cfg libs)) eqn:Hin;
          [|discriminate].
        injection Hp as ->. apply bool_decide_eq_false_1 in Hq.
        apply bool_decide_eq_true_1 in Hin. auto.
      * rewrite (select_engine_fallback_raises _ _ _ Hp) in Hsel.
        discriminate.
    + intros (-> & Hne & Hin). apply select_engine_preferred; assumption.
  - intros err Hsel.
    destruct (preferred_live (_init_engines cfg libs) preference)
      as [p|] eqn:Hp.
    + unfold _select_engine in Hsel. rewrite Hp in Hsel. discriminate.
    + rewrite (select_engine_fallback_raises _ _ _ Hp) in Hsel.
      injection Hsel as <-. reflexivity.
Qed.

End selection_again.

(** ** Passwords and file names ([utils/security.py]) *)

Section passwords_and_names.
Import pystr security.

Lemma lower_or_digit_class c :
  islower c || isdigit c = true ->
  isupper c = false /\ contains special_characters c = false.
Proof.
  destruct c as [[] [] [] [] [] [] [] []]; vm_compute; intros Hc;
    try discriminate Hc; split; reflexivity.
Qed.

Lemma existsb_excluded {A} (p q : A -> bool) l :
  (forall x, q x = true -> p x = false) ->
  forallb q l = true -> existsb p l = false.
Proof.
  intros Hpq. induction l as [|x l IH]; [reflexivity|]. cbn.
  intros Hall. apply andb_true_iff in Hall as [Hx Hl].
  rewrite (Hpq x Hx), (IH Hl). reflexivity.
Qed.

(** X5.  A password made of lower-case letters and digits only is
    rejected by [validate_password_strength], however long it is. *)
Theorem lowercase_and_digits_password_rejected password :
  all (fun c => islower c || isdigit c) password = true ->
  validate_password_strength password = false.
Proof.
  intros Hall. unfold validate_password_strength.
  destruct (len password <? 8); [reflexivity|].
  assert (Hup : any isupper password = false).
  { eapply existsb_excluded; [|exact Hall].
    intros c Hc. apply lower_or_digit_class, Hc. }
  assert (Hsp : any (contains special_characters) password = false).
  { eapply existsb_excluded; [|exact Hall].
    intros c Hc. apply lower_or_digit_class, Hc. }
  rewrite Hup, Hsp.
  destruct (any islower password), (any isdigit password); reflexivity.
Qed.

Lemma chars_str l : chars (str l) = l.
Proof. apply list_ascii_of_string_of_list_ascii. Qed.

Lemma chars_app a b : chars (a +:+ b) = chars a ++ chars b.
Proof.
  unfold chars. induction a as [|c a IH]; [reflexivity|].
  change (String c a +:+ b) with (String c (a +:+ b)).
  cbn. f_equal. exact IH.
Qed.

Lemma splitext_chars p name ext :
  pypath.splitext p = (name, ext) -> chars name ++ chars ext = chars p.
Proof.
  unfold pypath.splitext.
  destruct (_ && _); intros Heq; injection Heq as <- <-.
  - unfold slice_to, slice_from. rewrite !chars_str. apply take_drop.
  - apply app_nil_r.
Qed.

(** X6.  Whatever the name given, the result of [sanitize_filename]
    holds none of the characters the pattern replaces (angle
    brackets, colon, double quote, slash, backslash, bar, question
    mark, star) and no control character. *)
Theorem sanitize_filename_safe filename :
  Forall (fun c => dangerous c = false /\ 32 <= ord c)
         (chars (sanitize_filename filename)).
Proof.
  unfold sanitize_filename.
  set (replaced := str (map _ (chars filename))).
  set (printable := str (List.filter _ (chars replaced))).
  destruct (pypath.splitext printable) as [name ext] eqn:Hsplit.
  apply splitext_chars in Hsplit.
  assert (Hsafe : Forall (fun c => dangerous c = false /\ 32 <= ord c)
                         (chars printable)).
  { subst printable replaced. rewrite !chars_str.
    apply List.Forall_forall. intros c Hc.
    apply filter_In in Hc as [Hc Hord]. apply in_map_iff in Hc as (x & <- & _).
    split; [|apply Z.leb_le, Hord].
    destruct (dangerous x) eqn:Hx; [reflexivity | exact Hx]. }
  rewrite <- Hsplit in Hsafe. apply Forall_app in Hsafe as [Hname Hext].
  rewrite chars_app. apply Forall_app. split; [|exact Hext].
  destruct (200 <? len name); [|exact Hname].
  unfold slice_to. rewrite chars_str. apply Forall_take, Hname.
Qed.

End passwords_and_names.

Lemma lowercase_and_digits_password_rejected_witness :
  pystr.all (fun c => pystr.islower c || pystr.isdigit c) "password123" = true
  /\ security.validate_password_strength "password123" = false.
Proof.
  split; [reflexivity|].
  apply (lowercase_and_digits_password_rejected "password123"). reflexivity.
Defined.

(** ** Lookups in a table *)

Section lookups.
Context {A : Type}.

Lemma first_none_all (p : A -> bool) rows x :
  first p rows = None -> In x rows -> p x = false.
Proof. unfold first. intros Hnone Hin. eapply find_none; eassumption. Qed.

Lemma first_some_in (p : A -> bool) rows x :
  first p rows = Some x -> In x rows /\ p x = true.
Proof. unfold first. apply find_some. Qed.

(** A query that held a row before the row is written back still
    finds it, in its new state, when the new state matches the query. *)
Lemma first_update_row_matching (key : A -> Z) (p : A -> bool) rows u u' :
  first p rows = Some u -> p u' = true -> key u' = key u ->
  first p (update_row key u' rows) = Some u'.
Proof.
  unfold first, update_row. intros Hf Hp Hk.
  induction rows as [|x rows IH]; [discriminate|]. cbn in *.
  destruct (p x) eqn:Hx.
  - injection Hf as ->. rewrite Hk, Z.eqb_refl, Hp. reflexivity.
  - destruct (key x =? key u').
    + rewrite Hp. reflexivity.
    + rewrite Hx. auto.
Qed.

(** With unique values of [f], the query for the value of a row of the
    table finds that row. *)
Lemma first_by_name (f : A -> string) rows u :
  List.NoDup (map f rows) -> In u rows ->
  first (fun x => str_eqb (f x) (f u)) rows = Some u.
Proof.
  unfold first, str_eqb. induction rows as [|x rows IH]; [intros _ []|].
  cbn. intros Hnd Hin. apply NoDup_cons_iff in Hnd as [Hx Hnd].
  destruct (decide (f x = f u)) as [E|E].
  - rewrite bool_decide_eq_true_2 by exact E.
    destruct Hin as [->|Hin]; [reflexivity|].
    exfalso. apply Hx. rewrite E. apply in_map, Hin.
  - rewrite bool_decide_eq_false_2 by exact E.
    destruct Hin as [->|Hin]; [congruence | auto].
Qed.

Lemma NoDup_snoc (l : list A) x :
  List.NoDup l -> ~ In x l -> List.NoDup (l ++ [x]).
Proof.
  induction l as [|y l IH]; cbn; intros Hnd Hx.
  - constructor; [intros []|constructor].
  - apply NoDup_cons_iff in Hnd as [Hy Hnd]. constructor.
    + intros Hin. apply in_app_or in Hin as [Hin|[->|[]]]; [auto|].
      apply Hx. left. reflexivity.
    + apply IH; [exact Hnd|]. intros Hin. apply Hx. right. exact Hin.
Qed.

End lookups.

(** ** The bootstrap of the administrator, run again *)

Section admin_bootstrap_again.
Context `{Externals}.
Import init_admin.

(** X7.  [init_admin_user] is idempotent: run on the store a first run
    left, it leaves that store as it is and gives the same answer; so
    does [main], with the same exit status. *)
Theorem init_admin_user_idempotent cfg now db :
  init_admin_user cfg now (init_admin_user cfg now db).1
  = init_admin_user cfg now db
  /\ main cfg now (main cfg now db).1 = main cfg now db.
Proof.
  assert (Hinit : init_admin_user cfg now (init_admin_user cfg now db).1
                  = init_admin_user cfg now db).
  { destruct (first (fun u => str_eqb (User.username u) "admin") (users db))
      as [u|] eqn:Hfind.
    - destruct (User.is_admin u) eqn:Hadm.
      + rewrite (init_admin_user_keeps_admin cfg now db u Hfind Hadm). cbn.
        apply init_admin_user_keeps_admin; assumption.
      + rewrite (init_admin_user_promotes cfg now db u Hfind Hadm). cbn.
        apply init_admin_user_keeps_admin; [|reflexivity].
        cbn. apply (first_update_row_matching User.id _ _ u);
          [exact Hfind | | reflexivity].
        apply first_some_in in Hfind as [_ Hname]. exact Hname.
    - destruct (init_admin_user_without_admin cfg now db Hfind) as [-> _].
      cbn. apply init_admin_user_without_admin, Hfind. }
  split; [exact Hinit|]. unfold main.
  destruct (init_admin_user cfg now db) as [db' [u|e]] eqn:Hrun;
    cbn in Hinit |- *; rewrite Hinit; reflexivity.
Qed.

End admin_bootstrap_again.

(** ** Registration ([services/auth_service.py]) *)

Section registration.
Context `{Externals}.
Import auth_service.

(** What a registration that goes through has checked and written. *)
Lemma register_user_appends cfg now db username email password plan_type
    is_admin db' u :
  register_user cfg now db username email password plan_type is_admin
  = (db', Return u) ->
  validate_username username = true
  /\ validate_email email = true
  /\ security.validate_password_strength password = true
  /\ first (fun v => str_eqb (User.username v) username
                     || str_eqb (User.email v) email) (users db) = None
  /\ security.get_password_hash password = Return (User.hashed_password u)
  /\ u = User.mk (fresh_id (map User.id (users db))) username email
                 (User.hashed_password u) plan_type
                 (if str_eqb plan_type "free"
                  then config.free_user_daily_quota cfg
                  else config.premium_user_daily_quota cfg) true is_admin
  /\ db' = _create_user_quota cfg now (with_users (users db ++ [u]) db)
                              (User.id u) plan_type.
Proof.
  unfold register_user.
  destruct (validate_username username); [|discriminate].
  destruct (validate_email email); [|discriminate].
  destruct (security.validate_password_strength password); [|discriminate].
  cbn [negb].
  destruct (first _ (users db)) as [existing|] eqn:Hfind.
  { destruct (str_eqb _ _); discriminate. }
  destruct (security.get_password_hash password) as [h|e]; [|discriminate].
  intros Heq. injection Heq as <- <-. cbn. auto 10.
Qed.

(** X8.  A registration that goes through appends exactly one user,
    active, under a key that was not in use, with the name, address
    and plan asked for, and two quota rows for that user, both unused:
    a daily one with the limit of the plan and a monthly one with
    thirty times that limit.  No other table is written. *)
Theorem register_user_success cfg now db username email password plan_type
    is_admin db' u :
  register_user cfg now db username email password plan_type is_admin
  = (db', Return u) ->
  users db' = users db ++ [u]
  /\ ~ In (User.id u) (map User.id (users db))
  /\ User.username u = username /\ User.email u = email
  /\ User.plan_type u = plan_type
  /\ User.is_active u = true /\ User.is_admin u = is_admin
  /\ (exists daily monthly,
        quotas db' = quotas db ++ [daily; monthly]
        /\ UserQuota.user_id daily = User.id u
        /\ UserQuota.user_id monthly = User.id u
        /\ UserQuota.quota_type daily = "daily"
        /\ UserQuota.quota_type monthly = "monthly"
        /\ UserQuota.quota_used daily = 0
        /\ UserQuota.quota_used monthly = 0
        /\ UserQuota.quota_limit daily = User.api_quota u
        /\ UserQuota.quota_limit monthly = User.api_quota u * 30
        /\ UserQuota.id daily <> UserQuota.id monthly
        /\ ~ In (UserQuota.id daily) (map UserQuota.id (quotas db))
        /\ ~ In (UserQuota.id monthly) (map UserQuota.id (quotas db)))
  /\ files db' = files db /\ tasks db' = tasks db
  /\ results db' = results db /\ api_usage db' = api_usage db.
Proof.
  intros Hrun.
  apply register_user_appends in Hrun as (_ & _ & _ & _ & _ & Hu & ->).
  split; [reflexivity|]. split.
  { rewrite Hu. cbn. apply fresh_id_new. }
  rewrite Hu. cbn [User.username User.email User.plan_type User.is_active
                   User.is_admin User.api_quota User.id].
  do 5 (split; [reflexivity|]).
  split; [|repeat split].
  unfold _create_user_quota. cbn [quotas with_quotas with_users].
  eexists _, _. split; [reflexivity|]. cbn.
  do 6 (split; [reflexivity|]).
  split; [destruct (str_eqb plan_type "free"); reflexivity|].
  split; [destruct (str_eqb plan_type "free"); reflexivity|].
  split; [lia|]. split; [apply fresh_id_new|].
  intros Hin. pose proof (fresh_id_above (map UserQuota.id (quotas db))) as Ha.
  rewrite List.Forall_forall in Ha. apply Ha in Hin. lia.
Qed.

(** X9.  Registration keeps the keys, the user names and the e-mail
    addresses of the accounts unique, whether it goes through or
    not. *)
Theorem register_user_keeps_unique cfg now db username email password
    plan_type is_admin :
  List.NoDup (map User.id (users db)) ->
  List.NoDup (map User.username (users db)) ->
  List.NoDup (map User.email (users db)) ->
  let db' := (register_user cfg now db username email password plan_type
                            is_admin).1 in
  List.NoDup (map User.id (users db'))
  /\ List.NoDup (map User.username (users db'))
  /\ List.NoDup (map User.email (users db')).
Proof.
  intros Hid Hname Hmail.
  destruct (register_user cfg now db username email password plan_type
                          is_admin) as [db' [u|e]] eqn:Hrun; cbn.
  - apply register_user_appends in Hrun
      as (_ & _ & _ & Hnone & _ & Hu & ->).
    cbn [users _create_user_quota with_quotas with_users].
    assert (Hnew : forall v, In v (users db) ->
              User.username v <> username /\ User.email v <> email).
    { intros v Hv. apply (first_none_all _ _ v Hnone) in Hv.
      apply orb_false_iff in Hv as [Hn Hm]. unfold str_eqb in *.
      split; eapply bool_decide_eq_false_1; eassumption. }
    rewrite !map_app. cbn [map].
    split; [|split]; apply NoDup_snoc; try assumption.
    + rewrite Hu. cbn. apply fresh_id_new.
    + rewrite Hu. cbn. intros Hin. apply in_map_iff in Hin as (v & Hv & Hin).
      apply Hnew in Hin as [Hn _]. contradiction.
    + rewrite Hu. cbn. intros Hin. apply in_map_iff in Hin as (v & Hv & Hin).
      apply Hnew in Hin as [_ Hm]. contradiction.
  - assert (db' = db) as ->; [|auto].
    revert Hrun. unfold register_user.
    repeat match goal with
           | |- context [if ?b then _ else _] => destruct b
           | |- context [match ?x with Some _ => _ | None => _ end] =>
               destruct x
           | |- context [match ?x with Return _ => _ | Raise _ => _ end] =>
               destruct x
           end; intros Heq; congruence.
Qed.

(** X10.  Once a registration has gone through, a second one under the
    same user name, with a well-formed address and password, is turned
    down with a [ValueError] and writes nothing.  The message is one of
    two, user name already exists or address already registered; it is
    the first of them whenever no account older than the first
    registration holds the new address. *)
Theorem register_user_twice_rejected cfg now now' db username email password
    plan_type is_admin db' u email' password' plan_type' is_admin' :
  register_user cfg now db username email password plan_type is_admin
  = (db', Return u) ->
  validate_email email' = true ->
  security.validate_password_strength password' = true ->
  exists msg,
    register_user cfg now' db' username email' password' plan_type' is_admin'
    = (db', Raise (ValueError msg))
    /\ (msg = "用户名已存在" \/ msg = "邮箱已被注册")
    /\ ((forall v, In v (users db) -> User.email v <> email') ->
        msg = "用户名已存在").
Proof.
  intros Hrun Hmail Hpw.
  apply register_user_appends in Hrun
    as (Hname & _ & _ & Hnone & _ & Hu & ->).
  unfold register_user. rewrite Hname, Hmail, Hpw. cbn [negb].
  cbn [users _create_user_quota with_quotas with_users].
  destruct (first _ (users db ++ [u])) as [existing|] eqn:Hfind.
  - apply first_some_in in Hfind as [Hin Hmatch].
    apply in_app_or in Hin as [Hin|[<-|[]]].
    + pose proof (first_none_all _ _ existing Hnone Hin) as Hold.
      apply orb_false_iff in Hold as [Hn _].
      rewrite Hn in Hmatch |- *. cbn in Hmatch.
      eexists. split; [reflexivity|]. split; [right; reflexivity|].
      intros Hfree. exfalso. apply (Hfree existing Hin).
      unfold str_eqb in Hmatch. apply bool_decide_eq_true_1 in Hmatch.
      exact Hmatch.
    + rewrite Hu. cbn. unfold str_eqb.
      rewrite bool_decide_eq_true_2 by reflexivity.
      eexists. split; [reflexivity|]. split; [left; reflexivity|].
      reflexivity.
  - exfalso.
    assert (Hin : In u (users db ++ [u])) by (apply in_or_app; right; left;
                                              reflexivity).
    apply (first_none_all _ _ u Hfind) in Hin. rewrite Hu in Hin. cbn in Hin.
    unfold str_eqb in Hin.
    rewrite bool_decide_eq_true_2 in Hin by reflexivity. discriminate.
Qed.

End registration.

Ltac distinct :=
  cbn; repeat (constructor; [cbn; intuition congruence|]); constructor.

Lemma register_user_success_witness :
  exists db' u,
    @auth_service.register_user sample.externals config.settings sample.now
      fixtures.accounts_db "carol" "carol@example.com" "Str0ng!pass" "free"
      false = (db', Return u)
    /\ users db' = users fixtures.accounts_db ++ [u]
    /\ User.is_active u = true
    /\ length (quotas db') = 5%nat.
Proof.
  destruct (@auth_service.register_user sample.externals config.settings
              sample.now fixtures.accounts_db "carol" "carol@example.com"
              "Str0ng!pass" "free" false) as [db' [u|e]] eqn:Hrun;
    [|vm_compute in Hrun; discriminate Hrun].
  exists db', u. split; [reflexivity|].
  destruct (@register_user_success sample.externals _ _ _ _ _ _ _ _ _ _ Hrun)
    as (Hus & _ & _ & _ & _ & Hact & _ & (d & m & Hq & _) & _).
  split; [exact Hus|]. split; [exact Hact|]. rewrite Hq. reflexivity.
Defined.

Lemma register_user_keeps_unique_witness :
  (List.NoDup (map User.id (users fixtures.accounts_db))
   /\ List.NoDup (map User.username (users fixtures.accounts_db))
   /\ List.NoDup (map User.email (users fixtures.accounts_db)))
  /\ List.NoDup
       (map User.username
          (users (@auth_service.register_user sample.externals
                    config.settings sample.now fixtures.accounts_db "carol"
                    "carol@example.com" "Str0ng!pass" "free" false).1)).
Proof.
  assert (Hid : List.NoDup (map User.id (users fixtures.accounts_db)))
    by distinct.
  assert (Hname : List.NoDup (map User.username (users fixtures.accounts_db)))
    by distinct.
  assert (Hmail : List.NoDup (map User.email (users fixtures.accounts_db)))
    by distinct.
  split; [auto|].
  apply (@register_user_keeps_unique sample.externals config.settings
           sample.now fixtures.accounts_db "carol" "carol@example.com"
           "Str0ng!pass" "free" false Hid Hname Hmail).
Defined.

Lemma register_user_twice_rejected_witness :
  exists db' u,
    @auth_service.register_user sample.externals config.settings sample.now
      fixtures.accounts_db "carol" "carol@example.com" "Str0ng!pass" "free"
      false = (db', Return u)
    /\ auth_service.validate_email "carol2@example.com" = true
    /\ security.validate_password_strength "An0ther!pass" = true
    /\ exists msg,
         @auth_service.register_user sample.externals config.settings
           sample.now db' "carol" "carol2@example.com" "An0ther!pass"
           "premium" false = (db', Raise (ValueError msg))
         /\ msg = "用户名已存在".
Proof.
  destruct (@auth_service.register_user sample.externals config.settings
              sample.now fixtures.accounts_db "carol" "carol@example.com"
              "Str0ng!pass" "free" false) as [db' [u|e]] eqn:Hrun;
    [|vm_compute in Hrun; discriminate Hrun].
  exists db', u. split; [reflexivity|].
  assert (Hmail : auth_service.validate_email "carol2@example.com" = true)
    by (vm_compute; reflexivity).
  assert (Hpw : security.validate_password_strength "An0ther!pass" = true)
    by (vm_compute; reflexivity).
  split; [exact Hmail|]. split; [exact Hpw|].
  destruct (@register_user_twice_rejected sample.externals config.settings
              sample.now sample.now _ _ _ _ _ _ _ _ "carol2@example.com"
              "An0ther!pass" "premium" false Hrun Hmail Hpw)
    as (msg & Hsecond & _ & Hmsg).
  exists msg. split; [exact Hsecond|]. apply Hmsg.
  intros v [<-|[<-|[]]]; vm_compute; discriminate.
Defined.

(** ** Tokens, logins and account changes *)

Section more_rows.
Context {A : Type} (key : A -> Z).

(** With unique keys, the query for the key of a row of the table
    finds that row. *)
Lemma first_by_key rows u :
  List.NoDup (map key rows) -> In u rows ->
  first (fun x => key x =? key u) rows = Some u.
Proof.
  intros Hnd Hin.
  destruct (first (fun x => key x =? key u) rows) as [r|] eqn:Hfind.
  - f_equal. symmetry.
    exact (first_unique key (key u) rows r u Hnd Hfind Hin eq_refl).
  - apply (first_none_all _ _ u Hfind) in Hin. rewrite Z.eqb_refl in Hin.
    discriminate.
Qed.

Lemma Forall2_map_rows {B} (P : A -> B -> Prop) (g : A -> B) rows :
  (forall a, In a rows -> P a (g a)) -> Forall2 P rows (map g rows).
Proof.
  induction rows as [|x rows IH]; cbn; intros Hall; constructor.
  - apply Hall. left. reflexivity.
  - apply IH. intros a Ha. apply Hall. right. exact Ha.
Qed.

End more_rows.

Section tokens_and_logins.
Context `{Externals} `{Crypto}.
Import identity accounts.

(** What stands behind a user that [get_current_user] returns. *)
Lemma get_current_user_inv cfg db token u :
  get_current_user cfg db token = Return u ->
  exists payload,
    jwt_decode token (config.secret_key cfg) (config.algorithm cfg)
    = Return payload
    /\ payload !! "sub" = Some (VStr (User.username u))
    /\ first (fun x => str_eqb (User.username x) (User.username u))
             (users db) = Some u
    /\ User.is_active u = true.
Proof.
  unfold get_current_user, security.verify_token.
  destruct (jwt_decode token _ _) as [payload|e]; cbn.
  2: { destruct e; cbn; intros Hx; discriminate Hx. }
  destruct (payload !! "sub") as [sub|] eqn:Hsub; cbn; rewrite ?Hsub; cbn;
    [|intros Hx; discriminate Hx].
  destruct sub as [| | |name| |]; cbn; rewrite ?Hsub; cbn;
    try (intros Hx; discriminate Hx).
  destruct (first (fun u0 => str_eqb (User.username u0) name) (users db))
    as [user|] eqn:Hfind; cbn; [|intros Hx; discriminate Hx].
  destruct (User.is_active user) eqn:Hact; cbn;
    [|intros Hx; discriminate Hx].
  intros [= <-]. exists payload.
  pose proof Hfind as Hname. apply first_some_in in Hname as [_ Hname].
  unfold str_eqb in Hname. apply bool_decide_eq_true_1 in Hname. subst name.
  auto.
Qed.

(** X11.  [get_current_user] answers in one of three ways.  A user it
    returns is a row of the store, is active, and carries the name the
    decoded token gives as its subject.  Otherwise the request fails
    with the 401 of invalid credentials or with the 403 of a disabled
    account; no other exception leaves the function. *)
Theorem get_current_user_answers cfg db token :
  match get_current_user cfg db token with
  | Return u =>
      In u (users db) /\ User.is_active u = true
      /\ exists payload,
           jwt_decode token (config.secret_key cfg) (config.algorithm cfg)
           = Return payload
           /\ payload !! "sub" = Some (VStr (User.username u))
  | Raise e =>
      e = HTTPException 401 "无效的认证凭据"
      \/ e = HTTPException 403 "用户账户已被禁用"
  end.
Proof.
  destruct (get_current_user cfg db token) as [u|e] eqn:Hrun.
  - apply get_current_user_inv in Hrun
      as (payload & Hdec & Hsub & Hfind & Hact).
    apply first_some_in in Hfind as [Hin _]. eauto 6.
  - revert Hrun. unfold get_current_user, security.verify_token,
      credentials_exception.
    destruct (jwt_decode token _ _) as [payload|e']; cbn.
    2: { destruct e'; cbn; intros [= <-]; auto. }
    destruct (payload !! "sub") as [sub|] eqn:Hsub; cbn; rewrite ?Hsub; cbn;
      [|intros [= <-]; auto].
    destruct sub; cbn; rewrite ?Hsub; cbn; try (intros [= <-]; auto).
    destruct (first _ (users db)) as [user|]; cbn; [|intros [= <-]; auto].
    destruct (User.is_active user); cbn; [discriminate|].
    intros [= <-]. auto.
Qed.

(** What stands behind a login that [authenticate_user] returns. *)
Lemma authenticate_user_inv cfg utcnow db username password login :
  authenticate_user cfg utcnow db username password = Return login ->
  exists user,
    first (fun u => str_eqb (User.username u) username
                    || str_eqb (User.email u) username) (users db)
    = Some user
    /\ User.is_active user = true
    /\ pwd_verify password (User.hashed_password user) = Return true
    /\ jwt_encode
         (<[ "exp" := VDateTime
               (plus_minutes utcnow (config.access_token_expire_minutes cfg)) ]>
            {[ "sub" := VStr (User.username user);
               "user_id" := VInt (User.id user) ]})
         (config.secret_key cfg) (config.algorithm cfg)
       = Return (access_token login)
    /\ token_type login = "bearer"
    /\ expires_in login = config.access_token_expire_minutes cfg * 60
    /\ login_id login = User.id user
    /\ login_username login = User.username user
    /\ login_email login = User.email user
    /\ login_plan_type login = User.plan_type user.
Proof.
  unfold authenticate_user.
  destruct (first _ (users db)) as [user|] eqn:Hfind; [|discriminate].
  destruct (User.is_active user) eqn:Hact; cbn [negb]; [|discriminate].
  unfold verify_password.
  destruct (pwd_verify password _) as [[]|] eqn:Hpw; cbn [negb];
    try discriminate.
  unfold create_access_token.
  replace (if config.access_token_expire_minutes cfg =? 0
           then plus_minutes utcnow (config.access_token_expire_minutes cfg)
           else plus_minutes utcnow (config.access_token_expire_minutes cfg))
    with (plus_minutes utcnow (config.access_token_expire_minutes cfg))
    by (destruct (_ =? 0); reflexivity).
  destruct (jwt_encode _ _ _) as [token|e] eqn:Henc; cbn; [|discriminate].
  intros [= <-]. exists user. cbn. auto 12.
Qed.

(** X12.  [authenticate_user] returns a login only for an account of
    the store that the given name matches as user name or as e-mail
    address, that is active, and whose stored hash the password library
    accepts for the given password.  Every failure is one of three
    [ValueError]s.  An unknown name and a wrong password give the same
    one: a name that matches no account raises the error of a wrong
    name or password, and so does a password that the library does not
    accept for the active account the query finds; an account that is
    not active raises the error of a disabled account. *)
Theorem authenticate_user_answers cfg utcnow db username password :
  match authenticate_user cfg utcnow db username password with
  | Return login =>
      exists user,
        In user (users db)
        /\ (User.username user = username \/ User.email user = username)
        /\ User.is_active user = true
        /\ pwd_verify password (User.hashed_password user) = Return true
        /\ login_id login = User.id user
        /\ login_username login = User.username user
        /\ token_type login = "bearer"
        /\ expires_in login = config.access_token_expire_minutes cfg * 60
  | Raise e =>
      e = ValueError "用户名或密码错误"
      \/ e = ValueError "账户已被禁用"
      \/ e = ValueError "令牌创建失败"
  end
  /\ ((forall u, In u (users db) ->
         User.username u <> username /\ User.email u <> username) ->
      authenticate_user cfg utcnow db username password
      = Raise (ValueError "用户名或密码错误"))
  /\ (forall user,
        first (fun u => str_eqb (User.username u) username
                        || str_eqb (User.email u) username) (users db)
        = Some user ->
        (User.is_active user = false ->
         authenticate_user cfg utcnow db username password
         = Raise (ValueError "账户已被禁用"))
        /\ (User.is_active user = true ->
            verify_password password (User.hashed_password user) = false ->
            authenticate_user cfg utcnow db username password
            = Raise (ValueError "用户名或密码错误"))).
Proof.
  split; [|split].
  2:{ intros Hnone. unfold authenticate_user.
      destruct (first _ (users db)) as [user|] eqn:Hfind; [|reflexivity].
      exfalso. apply first_some_in in Hfind as [Hin Hmatch].
      destruct (Hnone user Hin) as [Hn He]. unfold str_eqb in Hmatch.
      apply orb_true_iff in Hmatch as [Hm|Hm];
        apply bool_decide_eq_true_1 in Hm; contradiction. }
  2:{ intros user Hfind. split.
      - intros Hact. unfold authenticate_user. rewrite Hfind, Hact.
        reflexivity.
      - intros Hact Hpw. unfold authenticate_user.
        rewrite Hfind, Hact, Hpw. reflexivity. }
  destruct (authenticate_user cfg utcnow db username password)
    as [login|e] eqn:Hrun.
  - apply authenticate_user_inv in Hrun
      as (user & Hfind & Hact & Hpw & _ & Htt & Hexp & Hid & Hname & _).
    apply first_some_in in Hfind as [Hin Hmatch]. exists user.
    split; [exact Hin|]. split; [|auto 8].
    unfold str_eqb in Hmatch. apply orb_true_iff in Hmatch as [Hm|Hm];
      apply bool_decide_eq_true_1 in Hm; auto.
  - revert Hrun. unfold authenticate_user.
    destruct (first _ (users db)) as [user|]; [|intros [= <-]; auto].
    destruct (User.is_active user); cbn [negb]; [|intros [= <-]; auto].
    destruct (verify_password password _); cbn [negb];
      [|intros [= <-]; auto].
    unfold create_access_token.
    destruct (jwt_encode _ _ _) as [token|e']; cbn; [discriminate|].
    intros [= <-]. auto.
Qed.

(** X13.  The token of a login leads back to the account that logged
    in.  When the decoder reads back the subject the encoder was given
    and user names are unique, [get_current_user] on the access token
    that [authenticate_user] issued returns the user of that login. *)
Theorem login_token_identifies_user cfg utcnow db username password login :
  (forall claims token,
     jwt_encode claims (config.secret_key cfg) (config.algorithm cfg)
     = Return token ->
     exists payload,
       jwt_decode token (config.secret_key cfg) (config.algorithm cfg)
       = Return payload
       /\ payload !! "sub" = claims !! "sub") ->
  List.NoDup (map User.username (users db)) ->
  authenticate_user cfg utcnow db username password = Return login ->
  exists u,
    get_current_user cfg db (access_token login) = Return u
    /\ User.id u = login_id login
    /\ User.username u = login_username login.
Proof.
  intros Hcodec Hnd Hrun.
  apply authenticate_user_inv in Hrun
    as (user & Hfind & Hact & _ & Henc & _ & _ & Hid & Hname & _).
  apply Hcodec in Henc as (payload & Hdec & Hsub).
  rewrite lookup_insert_ne, lookup_insert_eq in Hsub by discriminate.
  apply first_some_in in Hfind as [Hin _].
  exists user. split; [|auto].
  unfold get_current_user.
  rewrite (verify_token_subject _ _ _ _ Hdec Hsub)
    by discriminate.
  cbn. rewrite Hsub. cbn.
  rewrite (first_by_name User.username _ user Hnd Hin), Hact. reflexivity.
Qed.

(** X14.  A deactivated account is locked out at once.  With unique
    keys, after [deactivate_user] on the user a token stands for, the
    same token is refused with the 403 of a disabled account. *)
Theorem deactivated_user_token_refused cfg db token u :
  List.NoDup (map User.id (users db)) ->
  get_current_user cfg db token = Return u ->
  exists db',
    deactivate_user db (User.id u) = (db', Return true)
    /\ get_current_user cfg db' token
       = Raise (HTTPException 403 "用户账户已被禁用").
Proof.
  intros Hnd Hrun.
  apply get_current_user_inv in Hrun
    as (payload & Hdec & Hsub & Hfind & Hact).
  pose proof Hfind as Hin. apply first_some_in in Hin as [Hin Hname].
  unfold deactivate_user.
  rewrite (first_by_key User.id _ u Hnd Hin).
  eexists. split; [reflexivity|].
  unfold get_current_user.
  rewrite (verify_token_subject _ _ _ _ Hdec Hsub)
    by discriminate.
  cbn. rewrite Hsub. cbn.
  pose proof (first_update_row_matching User.id _ _ u
                (User.set_is_active false u) Hfind Hname eq_refl) as Hf.
  unfold first in Hf. rewrite Hf. reflexivity.
Qed.

(** X15.  A change of password that goes through has checked the old
    password against the stored hash and the strength of the new one,
    and, with unique keys, writes the hash of the new password into
    the row of that user and nothing else: every other account and
    every other table is as before. *)
Theorem change_password_changes_one_hash db user_id old_password
    new_password db' :
  List.NoDup (map User.id (users db)) ->
  change_password db user_id old_password new_password = (db', Return true) ->
  security.validate_password_strength new_password = true
  /\ (exists h,
        security.get_password_hash new_password = Return h
        /\ Forall2 (fun a b =>
             if User.id a =? user_id
             then verify_password old_password (User.hashed_password a) = true
                  /\ b = set_hashed_password h a
             else b = a) (users db) (users db'))
  /\ quotas db' = quotas db /\ files db' = files db /\ tasks db' = tasks db
  /\ results db' = results db /\ api_usage db' = api_usage db.
Proof.
  intros Hnd. unfold change_password.
  destruct (first _ (users db)) as [user|] eqn:Hfind; [|discriminate].
  destruct (verify_password old_password _) eqn:Hold; cbn [negb];
    [|discriminate].
  destruct (security.validate_password_strength new_password); cbn [negb];
    [|discriminate].
  destruct (security.get_password_hash new_password) as [h|e];
    [|discriminate].
  intros [= <-]. split; [reflexivity|]. split; [|repeat split].
  exists h. split; [reflexivity|]. cbn [users with_users].
  pose proof (first_some_key User.id user_id _ _ Hfind) as [Hid Huin].
  unfold update_row. apply Forall2_map_rows. intros a Ha. cbn.
  rewrite Hid. destruct (Z.eqb_spec (User.id a) user_id) as [E|E];
    [|reflexivity].
  assert (a = user) as ->
    by exact (first_unique User.id user_id _ user a Hnd Hfind Ha E).
  auto.
Qed.

(** X16.  [update_user_plan] gives the user the new plan and moves the
    limits of the quota rows of that user to those of the plan: the
    daily limit of the free plan for [free] and that of the premium
    plan for any other name, and thirty times as much on the monthly
    row.  The use counted so far and the reset times stay, and so do
    the rows of every other user and every other table. *)
Theorem update_user_plan_sets_limits cfg db user_id new_plan db' u :
  update_user_plan cfg db user_id new_plan = (db', Return u) ->
  let daily := if str_eqb new_plan "free"
               then config.free_user_daily_quota cfg
               else config.premium_user_daily_quota cfg in
  User.id u = user_id /\ User.plan_type u = new_plan
  /\ Forall2 (fun q q' =>
       UserQuota.id q' = UserQuota.id q
       /\ UserQuota.user_id q' = UserQuota.user_id q
       /\ UserQuota.quota_type q' = UserQuota.quota_type q
       /\ UserQuota.quota_used q' = UserQuota.quota_used q
       /\ UserQuota.reset_time q' = UserQuota.reset_time q
       /\ (UserQuota.user_id q <> user_id -> q' = q)
       /\ (UserQuota.user_id q = user_id ->
           UserQuota.quota_type q = "daily" ->
           UserQuota.quota_limit q' = daily)
       /\ (UserQuota.user_id q = user_id ->
           UserQuota.quota_type q = "monthly" ->
           UserQuota.quota_limit q' = daily * 30))
     (quotas db) (quotas db')
  /\ files db' = files db /\ tasks db' = tasks db
  /\ results db' = results db /\ api_usage db' = api_usage db.
Proof.
  unfold update_user_plan.
  destruct (first _ (users db)) as [user|] eqn:Hfind; [|discriminate].
  intros [= <- <-]. cbn zeta.
  pose proof (first_some_key User.id user_id _ _ Hfind) as [Hid _].
  split; [destruct (str_eqb new_plan "free"), (str_eqb new_plan "premium");
          exact Hid|].
  split; [destruct (str_eqb new_plan "free"), (str_eqb new_plan "premium");
          reflexivity|].
  split; [|repeat split].
  unfold _update_user_quota. cbn [quotas with_quotas with_users].
  apply Forall2_map_rows. intros q _. cbn beta.
  destruct (Z.eqb_spec (UserQuota.user_id q) user_id) as [E|E].
  - unfold plan_limit, str_eqb.
    destruct (decide (UserQuota.quota_type q = "daily")) as [Ed|Ed].
    + rewrite (bool_decide_eq_true_2 _ Ed). cbn.
      repeat split; try reflexivity; try congruence.
    + rewrite (bool_decide_eq_false_2 _ Ed).
      destruct (decide (UserQuota.quota_type q = "monthly")) as [Em|Em].
      * rewrite (bool_decide_eq_true_2 _ Em). cbn.
        repeat split; try reflexivity; try congruence.
        intros _ _. destruct (bool_decide (new_plan = "free")); reflexivity.
      * rewrite (bool_decide_eq_false_2 _ Em).
        repeat split; try reflexivity; try congruence.
  - repeat split; try reflexivity; try congruence.
Qed.

End tokens_and_logins.

Lemma login_token_identifies_user_witness :
  List.NoDup (map User.username (users fixtures.accounts_db))
  /\ exists login u,
       @accounts.authenticate_user fixtures.crypto config.settings sample.now
         fixtures.accounts_db "alice" "Secret123" = Return login
       /\ @identity.get_current_user sample.externals config.settings
            fixtures.accounts_db (accounts.access_token login) = Return u
       /\ User.username u = "alice".
Proof.
  assert (Hcodec : forall claims token,
            @jwt_encode fixtures.crypto claims
              (config.secret_key config.settings)
              (config.algorithm config.settings) = Return token ->
            exists payload,
              @jwt_decode sample.externals token
                (config.secret_key config.settings)
                (config.algorithm config.settings) = Return payload
              /\ payload !! "sub" = claims !! "sub").
  { intros claims token. cbn.
    destruct (bool_decide (claims !! "sub" = Some (VStr "alice"))) eqn:Hsub;
      [|discriminate].
    intros [= <-]. apply bool_decide_eq_true_1 in Hsub. rewrite Hsub.
    eexists. split; [vm_compute; reflexivity|]. vm_compute. reflexivity. }
  assert (Hnd : List.NoDup (map User.username (users fixtures.accounts_db)))
    by distinct.
  split; [exact Hnd|].
  destruct (@accounts.authenticate_user fixtures.crypto config.settings
              sample.now fixtures.accounts_db "alice" "Secret123")
    as [login|e] eqn:Hrun; [|vm_compute in Hrun; discriminate Hrun].
  destruct (@login_token_identifies_user sample.externals fixtures.crypto
              _ _ _ _ _ _ Hcodec Hnd Hrun) as (u & Hget & _ & Hname).
  exists login, u. split; [reflexivity|]. split; [exact Hget|].
  rewrite Hname. vm_compute in Hrun. injection Hrun as <-. reflexivity.
Defined.

Lemma deactivated_user_token_refused_witness :
  (List.NoDup (map User.id (users fixtures.accounts_db))
   /\ @identity.get_current_user sample.externals config.settings
        fixtures.accounts_db "alice-token" = Return (sample.alice "free"))
  /\ exists db',
       accounts.deactivate_user fixtures.accounts_db 7 = (db', Return true)
       /\ @identity.get_current_user sample.externals config.settings db'
            "alice-token" = Raise (HTTPException 403 "用户账户已被禁用").
Proof.
  assert (Hnd : List.NoDup (map User.id (users fixtures.accounts_db)))
    by distinct.
  assert (Hget : @identity.get_current_user sample.externals config.settings
                   fixtures.accounts_db "alice-token"
                 = Return (sample.alice "free")) by (vm_compute; reflexivity).
  split; [auto|].
  exact (@deactivated_user_token_refused sample.externals config.settings
           fixtures.accounts_db "alice-token" (sample.alice "free") Hnd Hget).
Defined.

Lemma change_password_changes_one_hash_witness :
  List.NoDup (map User.id (users fixtures.accounts_db))
  /\ exists db',
       @accounts.change_password sample.externals fixtures.crypto
         fixtures.accounts_db 7 "Secret123" "N3w!Secret" = (db', Return true)
       /\ security.validate_password_strength "N3w!Secret" = true
       /\ quotas db' = quotas fixtures.accounts_db.
Proof.
  assert (Hnd : List.NoDup (map User.id (users fixtures.accounts_db)))
    by distinct.
  split; [exact Hnd|].
  destruct (@accounts.change_password sample.externals fixtures.crypto
              fixtures.accounts_db 7 "Secret123" "N3w!Secret")
    as [db' [[]|e]] eqn:Hrun; try (vm_compute in Hrun; discriminate Hrun).
  exists db'. split; [reflexivity|].
  destruct (@change_password_changes_one_hash sample.externals
              fixtures.crypto _ _ _ _ _ Hnd Hrun) as (Hstrong & _ & Hq & _).
  auto.
Defined.

Lemma update_user_plan_sets_limits_witness :
  exists db' u,
    accounts.update_user_plan config.settings fixtures.accounts_db 7 "premium"
    = (db', Return u)
    /\ User.plan_type u = "premium"
    /\ length (quotas db') = 3%nat.
Proof.
  destruct (accounts.update_user_plan config.settings fixtures.accounts_db 7
                                      "premium") as [db' [u|e]] eqn:Hrun;
    [|vm_compute in Hrun; discriminate Hrun].
  exists db', u. split; [reflexivity|].
  destruct (update_user_plan_sets_limits _ _ _ _ _ _ Hrun)
    as (_ & Hplan & Hq & _).
  split; [exact Hplan|]. apply Forall2_length in Hq. rewrite <- Hq.
  reflexivity.
Defined.

(** ** Uploads, deletions and statistics ([services/file_service.py]) *)

Section uploads_and_deletions.
Context `{Externals}.
Import file_service file_store.

Lemma first_none_filter_nil {A} (p : A -> bool) rows :
  first p rows = None -> List.filter p rows = [].
Proof.
  unfold first. induction rows as [|x rows IH]; [reflexivity|]. cbn.
  destruct (p x); [discriminate | exact IH].
Qed.

(** X17.  [save_uploaded_file] never gives a user a second row for a
    content the user already has: if no user has more than one row per
    content hash before the call, none has after it, whatever the
    outcome of the call. *)
Theorem save_uploaded_file_one_row_per_content cfg fresh write_ok db disk
    user_id name content :
  (forall u h, (length (uploads_of db u h) <= 1)%nat) ->
  forall u h,
    (length (uploads_of
               (save_uploaded_file cfg fresh write_ok db disk user_id name
                                   content).1.1 u h) <= 1)%nat.
Proof.
  intros Hone u h. unfold save_uploaded_file, _get_user_upload_dir.
  destruct (valid (validate_file cfg name content)); cbn [negb];
    [|apply Hone].
  destruct (first _ (files db)) as [existing|] eqn:Hfind; [apply Hone|].
  destruct write_ok; cbn [negb]; [|apply Hone].
  cbn [fst snd]. unfold uploads_of. cbn [files with_files].
  rewrite List.filter_app, length_app. cbn [List.filter].
  destruct (same_upload u h _) eqn:Hsame.
  - unfold same_upload, str_eqb in Hsame. cbn in Hsame.
    apply andb_true_iff in Hsame as [Hu Hh].
    apply Z.eqb_eq in Hu. apply bool_decide_eq_true_1 in Hh. subst u h.
    rewrite (first_none_filter_nil _ _ Hfind). cbn. lia.
  - cbn. rewrite Nat.add_0_r. apply Hone.
Qed.

(** The three tables after the row of a file is deleted. *)
Lemma delete_file_row_rows file_id db :
  (forall f, In f (files (delete_file_row file_id db))
             <-> In f (files db) /\ File.id f <> file_id)
  /\ (forall k, In k (tasks (delete_file_row file_id db))
                <-> In k (tasks db) /\ OCRTask.file_id k <> file_id)
  /\ (forall r, In r (results (delete_file_row file_id db))
                <-> In r (results db)
                    /\ forall k, In k (tasks db) ->
                         OCRTask.file_id k = file_id ->
                         OCRTask.id k <> OCRResult.task_id r).
Proof.
  unfold delete_file_row, delete_rows.
  cbn [files tasks results with_files with_tasks with_results].
  split; [|split].
  - intros f. rewrite filter_In, negb_true_iff, Z.eqb_neq. reflexivity.
  - intros k. rewrite filter_In, negb_true_iff, Z.eqb_neq. reflexivity.
  - intros r. rewrite filter_In, negb_true_iff.
    split; intros [Hin Hno]; (split; [exact Hin|]).
    + intros k Hk Hfile Hid.
      assert (Hex : existsb (fun k => OCRTask.id k =? OCRResult.task_id r)
                      (List.filter (fun k => OCRTask.file_id k =? file_id)
                                   (tasks db)) = true).
      { apply existsb_exists. exists k. split; [|apply Z.eqb_eq, Hid].
        apply filter_In. split; [exact Hk | apply Z.eqb_eq, Hfile]. }
      congruence.
    + destruct (existsb _ _) eqn:Hex; [|reflexivity].
      apply existsb_exists in Hex as (k & Hk & Hid).
      apply filter_In in Hk as [Hk Hfile].
      exfalso. apply (Hno k Hk); [apply Z.eqb_eq, Hfile | apply Z.eqb_eq, Hid].
Qed.

(** X18.  Only the owner can delete a file.  With unique keys, a call of
    [delete_file] for the file of another user answers "file does not
    exist" and changes neither the store nor the disk. *)
Theorem delete_file_needs_owner unlink_ok db disk f user_id :
  List.NoDup (map File.id (files db)) ->
  In f (files db) ->
  File.user_id f <> user_id ->
  delete_file unlink_ok db disk (File.id f) user_id
  = (db, disk, Raise (ValueError "文件不存在")).
Proof.
  intros Hnd Hin Hother. unfold delete_file.
  destruct (first _ (files db)) as [r|] eqn:Hfind; [|reflexivity].
  exfalso. apply first_some_in in Hfind as [Hr Hmatch].
  apply andb_true_iff in Hmatch as [Hid Huser].
  apply Z.eqb_eq in Hid. apply Z.eqb_eq in Huser.
  assert (r = f) as ->; [|contradiction].
  exact (first_unique File.id (File.id f) _ f r Hnd
           (first_by_key File.id _ f Hnd Hin) Hr Hid).
Qed.

(** X19.  A deletion that goes through removes the row of the file, every
    task of the file, every result of those tasks, and the bytes at the
    path of the row; all other files, tasks and results stay, and the
    accounts are not touched. *)
Theorem delete_file_leaves_no_trace unlink_ok db disk file_id user_id db'
    disk' :
  delete_file unlink_ok db disk file_id user_id = (db', disk', Return true) ->
  (forall f, In f (files db') <-> In f (files db) /\ File.id f <> file_id)
  /\ (forall k, In k (tasks db')
                <-> In k (tasks db) /\ OCRTask.file_id k <> file_id)
  /\ (forall r, In r (results db')
                <-> In r (results db)
                    /\ forall k, In k (tasks db) ->
                         OCRTask.file_id k = file_id ->
                         OCRTask.id k <> OCRResult.task_id r)
  /\ (exists f, In f (files db) /\ File.id f = file_id
                /\ File.user_id f = user_id
                /\ blobs disk' = delete (File.file_path f) (blobs disk)
                /\ dirs disk' = dirs disk)
  /\ users db' = users db /\ quotas db' = quotas db
  /\ api_usage db' = api_usage db.
Proof.
  unfold delete_file.
  destruct (first _ (files db)) as [file_record|] eqn:Hfind; [|discriminate].
  destruct unlink_ok; cbn [negb]; [|discriminate].
  intros [= <- <-].
  apply first_some_in in Hfind as [Hin Hmatch].
  apply andb_true_iff in Hmatch as [Hid Huser].
  apply Z.eqb_eq in Hid. apply Z.eqb_eq in Huser. rewrite Hid.
  destruct (delete_file_row_rows file_id db) as (Hf & Hk & Hr).
  split; [exact Hf|]. split; [exact Hk|]. split; [exact Hr|].
  split; [exists file_record; auto|]. repeat split.
Qed.

(** X20.  [delete_file] leaves no dangling reference.  If every result
    belongs to a task of the store and every task to a file of the
    store, the same holds after the call, whatever its outcome. *)
Theorem delete_file_keeps_references unlink_ok db disk file_id user_id :
  (forall r, In r (results db) ->
     exists k, In k (tasks db) /\ OCRTask.id k = OCRResult.task_id r) ->
  (forall k, In k (tasks db) ->
     exists f, In f (files db) /\ File.id f = OCRTask.file_id k) ->
  let db' := (delete_file unlink_ok db disk file_id user_id).1.1 in
  (forall r, In r (results db') ->
     exists k, In k (tasks db') /\ OCRTask.id k = OCRResult.task_id r)
  /\ (forall k, In k (tasks db') ->
        exists f, In f (files db') /\ File.id f = OCRTask.file_id k).
Proof.
  intros Hres Htask. unfold delete_file.
  destruct (first _ (files db)) as [file_record|]; [|cbn; auto].
  destruct unlink_ok; cbn [negb]; [|cbn; auto].
  cbn [fst snd].
  destruct (delete_file_row_rows (File.id file_record) db) as (Hf & Hk & Hr).
  split.
  - intros r Hin. apply Hr in Hin as [Hin Hno].
    destruct (Hres r Hin) as (k & Hkin & Hid). exists k.
    split; [|exact Hid]. apply Hk. split; [exact Hkin|].
    intros Hfile. exact (Hno k Hkin Hfile Hid).
  - intros k Hin. apply Hk in Hin as [Hin Hfile].
    destruct (Htask k Hin) as (f & Hfin & Hid). exists f.
    split; [|exact Hid]. apply Hf. split; [exact Hfin|]. congruence.
Qed.

End uploads_and_deletions.

Section statistics.
Import file_store.

Lemma fold_count_status fs : forall (m : gmap string Z) s,
  fold_left count_status fs m !! s
  = let c := Z.of_nat (length (List.filter
                                 (fun f => str_eqb (File.status f) s) fs)) in
    if c =? 0 then m !! s else Some (default 0 (m !! s) + c).
Proof.
  induction fs as [|f fs IH]; intros m s; [reflexivity|].
  cbn [fold_left List.filter]. rewrite IH. cbn zeta. unfold count_status.
  unfold str_eqb. destruct (decide (File.status f = s)) as [E|E].
  - rewrite (bool_decide_eq_true_2 _ E). subst s.
    rewrite lookup_insert_eq. cbn [length default from_option id].
    generalize (length (List.filter
      (fun f0 => bool_decide (File.status f0 = File.status f)) fs)).
    intros n. rewrite (proj2 (Z.eqb_neq (Z.of_nat (S n)) 0)) by lia.
    destruct (Z.eqb_spec (Z.of_nat n) 0); f_equal; lia.
  - rewrite (bool_decide_eq_false_2 _ E).
    rewrite lookup_insert_ne by exact E. reflexivity.
Qed.

Lemma fold_count_type fs : forall (m : gmap string (Z * Z)) t,
  fold_left count_type fs m !! t
  = let l := List.filter (fun f => str_eqb (File.file_type f) t) fs in
    if Z.of_nat (length l) =? 0 then m !! t
    else Some ((default (0, 0) (m !! t)).1 + Z.of_nat (length l),
               (default (0, 0) (m !! t)).2
               + fold_right Z.add 0 (map File.file_size l)).
Proof.
  induction fs as [|f fs IH]; intros m t; [reflexivity|].
  cbn [fold_left List.filter]. rewrite IH. cbn zeta. unfold count_type.
  destruct (default (0, 0) (m !! File.file_type f)) as [count size] eqn:Hd.
  unfold str_eqb. destruct (decide (File.file_type f = t)) as [E|E].
  - rewrite (bool_decide_eq_true_2 _ E). subst t.
    rewrite lookup_insert_eq, Hd. cbn [length default from_option id fst snd map fold_right].
    generalize (List.filter
      (fun f0 => bool_decide (File.file_type f0 = File.file_type f)) fs).
    intros l. rewrite (proj2 (Z.eqb_neq (Z.of_nat (S (length l))) 0)) by lia.
    destruct l as [|x l].
    + cbn. f_equal. f_equal; lia.
    + rewrite (proj2 (Z.eqb_neq (Z.of_nat (length (x :: l))) 0))
        by (cbn [length]; lia).
      f_equal. f_equal; lia.
  - rewrite (bool_decide_eq_false_2 _ E).
    rewrite lookup_insert_ne by exact E. reflexivity.
Qed.

(** X21.  The figures of [get_storage_stats] add up.  Over the rows the
    query returns (all files, or those of the user when a non-zero
    user id is given), [total_files] is their number and [total_size]
    the sum of their sizes; a status has an entry exactly when some row
    carries it, and the entry is the number of those rows; a file type
    has an entry exactly when some row carries it, and the entry holds
    the number of those rows and the sum of their sizes. *)
Theorem get_storage_stats_counts db user_id s t :
  let fs := counted db user_id in
  let stats := get_storage_stats db user_id in
  let with_status := List.filter (fun f => str_eqb (File.status f) s) fs in
  let with_type := List.filter (fun f => str_eqb (File.file_type f) t) fs in
  (forall f, In f fs <->
     In f (files db)
     /\ match user_id with
        | Some u => u = 0 \/ File.user_id f = u
        | None => True
        end)
  /\ total_files stats = Z.of_nat (length fs)
  /\ total_size stats = fold_right Z.add 0 (map File.file_size fs)
  /\ status_stats stats !! s
     = match with_status with
       | [] => None
       | _ => Some (Z.of_nat (length with_status))
       end
  /\ type_stats stats !! t
     = match with_type with
       | [] => None
       | _ => Some (Z.of_nat (length with_type),
                    fold_right Z.add 0 (map File.file_size with_type))
       end.
Proof.
  cbn zeta. split; [|split; [reflexivity|split; [reflexivity|split]]].
  - intros f. unfold counted, given. destruct user_id as [u|]; [|tauto].
    destruct (Z.eqb_spec u 0) as [E|E]; [tauto|].
    rewrite filter_In, Z.eqb_eq. intuition lia.
  - unfold get_storage_stats. cbn [status_stats].
    rewrite fold_count_status. cbn zeta. rewrite lookup_empty.
    destruct (List.filter _ (counted db user_id)) as [|x l]; [reflexivity|].
    cbn [length default from_option id].
    rewrite (proj2 (Z.eqb_neq (Z.of_nat (S (length l))) 0)) by lia.
    f_equal.
  - unfold get_storage_stats. cbn [type_stats].
    rewrite fold_count_type. cbn zeta. rewrite lookup_empty.
    destruct (List.filter _ (counted db user_id)) as [|x l]; [reflexivity|].
    cbn [length default from_option id fst snd].
    rewrite (proj2 (Z.eqb_neq (Z.of_nat (S (length l))) 0)) by lia.
    f_equal.
Qed.

End statistics.

Lemma save_uploaded_file_one_row_per_content_witness :
  (forall u h, (length (file_service.uploads_of empty_db u h) <= 1)%nat)
  /\ (length (file_service.uploads_of
                (@file_service.save_uploaded_file sample.externals
                   config.settings (sample.fresh "00") true empty_db
                   sample.empty_disk 7 "scan.pdf"
                   (sample.pdf_header ++ [Byte.x2d])).1.1
                7 (string_of_list_byte (sample.pdf_header ++ [Byte.x2d])))
      <= 1)%nat.
Proof.
  assert (Hone : forall u h,
            (length (file_service.uploads_of empty_db u h) <= 1)%nat)
    by (intros u h; cbn; lia).
  split; [exact Hone|].
  apply (@save_uploaded_file_one_row_per_content sample.externals
           config.settings (sample.fresh "00") true empty_db
           sample.empty_disk 7 "scan.pdf" (sample.pdf_header ++ [Byte.x2d])
           Hone).
Defined.

Lemma delete_file_needs_owner_witness :
  (List.NoDup (map File.id (files fixtures.results_db))
   /\ In sample.pdf_file (files fixtures.results_db)
   /\ File.user_id sample.pdf_file <> 8)
  /\ file_store.delete_file true fixtures.results_db fixtures.disk 1 8
     = (fixtures.results_db, fixtures.disk, Raise (ValueError "文件不存在")).
Proof.
  assert (Hnd : List.NoDup (map File.id (files fixtures.results_db)))
    by distinct.
  assert (Hin : In sample.pdf_file (files fixtures.results_db))
    by (left; reflexivity).
  assert (Hother : File.user_id sample.pdf_file <> 8) by (cbn; lia).
  split; [auto|].
  exact (delete_file_needs_owner true fixtures.results_db fixtures.disk
           sample.pdf_file 8 Hnd Hin Hother).
Defined.

Lemma delete_file_leaves_no_trace_witness :
  exists db' disk',
    file_store.delete_file true fixtures.results_db fixtures.disk 1 7
    = (db', disk', Return true)
    /\ (forall f, In f (files db')
                  <-> In f (files fixtures.results_db) /\ File.id f <> 1)
    /\ users db' = users fixtures.results_db.
Proof.
  destruct (file_store.delete_file true fixtures.results_db fixtures.disk 1 7)
    as [[db' disk'] [[]|e]] eqn:Hrun;
    try (vm_compute in Hrun; discriminate Hrun).
  exists db', disk'. split; [reflexivity|].
  destruct (delete_file_leaves_no_trace _ _ _ _ _ _ _ Hrun)
    as (Hf & _ & _ & _ & Hu & _).
  split; [exact Hf | exact Hu].
Defined.

Lemma delete_file_keeps_references_witness :
  ((forall r, In r (results fixtures.results_db) ->
      exists k, In k (tasks fixtures.results_db)
                /\ OCRTask.id k = OCRResult.task_id r)
   /\ (forall k, In k (tasks fixtures.results_db) ->
         exists f, In f (files fixtures.results_db)
                   /\ File.id f = OCRTask.file_id k))
  /\ (forall r,
        In r (results (file_store.delete_file true fixtures.results_db
                         fixtures.disk 1 7).1.1) ->
        exists k,
          In k (tasks (file_store.delete_file true fixtures.results_db
                         fixtures.disk 1 7).1.1)
          /\ OCRTask.id k = OCRResult.task_id r).
Proof.
  assert (Hres : forall r, In r (results fixtures.results_db) ->
            exists k, In k (tasks fixtures.results_db)
                      /\ OCRTask.id k = OCRResult.task_id r).
  { intros r [<-|[<-|[]]]; exists (sample.task "completed");
      (split; [left; reflexivity | reflexivity]). }
  assert (Htask : forall k, In k (tasks fixtures.results_db) ->
            exists f, In f (files fixtures.results_db)
                      /\ File.id f = OCRTask.file_id k).
  { intros k [<-|[]]. exists sample.pdf_file.
    split; [left; reflexivity | reflexivity]. }
  split; [auto|].
  apply (delete_file_keeps_references true fixtures.results_db fixtures.disk
           1 7 Hres Htask).
Defined.


(** ** Queries and listings *)

Section listings.
Import ocr_service engine_listing task_queries task_batch.

(** X25.  Every engine [get_available_engines] lists for a registry
    built by [_init_engines] is listed at a cost of zero per page, the
    four cloud engines included: the cost table is keyed by other
    names ([baidu_ocr], ...) than the registry ([baidu], ...). *)
Theorem listed_engines_cost_nothing cfg libs :
  Forall (fun info =>
            cost_per_page info = 0%Q
            /\ available info = true
            /\ info_name info ∈ _init_engines cfg libs
            /\ (info_type info = "paid" <->
                In (info_name info) ["baidu"; "tencent"; "ali"; "azure"]))
         (get_available_engines (_init_engines cfg libs)).
Proof.
  apply List.Forall_forall. intros info Hin.
  unfold get_available_engines in Hin.
  apply in_map_iff in Hin as (n & <- & Hn). apply filter_In in Hn as [Hn Hlive].
  apply bool_decide_eq_true_1 in Hlive.
  split; [|split; [reflexivity|split; [exact Hlive|]]];
    repeat (destruct Hn as [<-|Hn]; [vm_compute; intuition congruence|]);
    destruct Hn.
Qed.

Lemma insert_by_page_in r rows x :
  In x (insert_by_page r rows) <-> x = r \/ In x rows.
Proof.
  induction rows as [|y rows IH]; cbn; [intuition congruence|].
  destruct (OCRResult.page_number r <? OCRResult.page_number y); cbn;
    [intuition congruence|]. rewrite IH. intuition congruence.
Qed.

Lemma order_by_page_in rows x : In x (order_by_page rows) <-> In x rows.
Proof.
  unfold order_by_page. induction rows as [|y rows IH]; cbn; [tauto|].
  rewrite insert_by_page_in, IH. intuition congruence.
Qed.

Lemma insert_by_page_sorted r rows :
  by_page rows -> by_page (insert_by_page r rows).
Proof.
  induction rows as [|y rows IH]; cbn;
    [intros _; split; [intros ? []|exact I]|].
  intros [Hy Hrest].
  destruct (Z.ltb_spec (OCRResult.page_number r) (OCRResult.page_number y)).
  - cbn. split; [|auto]. intros x [<-|Hx]; [lia|].
    specialize (Hy x Hx). lia.
  - cbn. split; [|auto]. intros x Hx. apply insert_by_page_in in Hx.
    destruct Hx as [->|Hx]; [lia | auto].
Qed.

Lemma insert_by_page_perm r rows : insert_by_page r rows ≡ₚ r :: rows.
Proof.
  induction rows as [|y rows IH]; cbn; [reflexivity|].
  destruct (_ <? _); [reflexivity|]. rewrite IH. apply Permutation_swap.
Qed.

Lemma order_by_page_perm rows : order_by_page rows ≡ₚ rows.
Proof.
  unfold order_by_page. induction rows as [|y rows IH]; cbn; [reflexivity|].
  rewrite insert_by_page_perm, IH. reflexivity.
Qed.

(** X27.  The figures of [batch_process_ocr_tasks] add up.  There is one
    entry per task id, in the order given; an entry is [submitted] with
    the identifier of the job when the hand-over to the queue went
    through and [failed] with the message of the exception when it did
    not; and the submitted and the failed entries together are all the
    tasks. *)
Theorem batch_process_counts delay task_ids :
  let batch := batch_process_ocr_tasks delay task_ids in
  map sub_task_id (batch_results batch) = task_ids
  /\ total_tasks batch = Z.of_nat (length (batch_results batch))
  /\ submitted_tasks batch + failed_tasks batch = total_tasks batch
  /\ Forall (fun r =>
       match delay (sub_task_id r) with
       | Return job =>
           sub_status r = "submitted" /\ sub_celery_task_id r = Some job
           /\ sub_error r = None
       | Raise e =>
           sub_status r = "failed" /\ sub_celery_task_id r = None
           /\ sub_error r = Some (exn_str e)
       end) (batch_results batch).
Proof.
  cbn zeta. unfold batch_process_ocr_tasks.
  cbn [batch_results total_tasks submitted_tasks failed_tasks].
  unfold count_status.
  induction task_ids as [|task_id rest (IHids & IHlen & IHsum & IHall)].
  - repeat split. constructor.
  - cbn [map length List.filter].
    split; [|split; [|split]].
    + destruct (delay task_id); cbn; rewrite IHids; reflexivity.
    + rewrite length_map in *. reflexivity.
    + rewrite length_map in *.
      destruct (delay task_id); cbn [sub_status];
        repeat match goal with
               | |- context [str_eqb ?a ?b] =>
                   let v := eval vm_compute in (str_eqb a b) in
                   change (str_eqb a b) with v
               end; cbn [length]; lia.
    + constructor; [|exact IHall].
      destruct (delay task_id) eqn:Hd; cbn; rewrite Hd; auto.
Qed.

End listings.


(** ** User names with a trailing newline *)

Section username_pattern.
Import pystr auth_service.

Lemma word_char_not_newline c :
  word_char c = true -> Ascii.eqb c newline = false.
Proof.
  destruct c as [[] [] [] [] [] [] [] []]; vm_compute; intros Hc;
    try discriminate Hc; reflexivity.
Qed.

Lemma match_body_words s : all word_char s = true -> match_body s = s.
Proof.
  intros Hall. unfold match_body.
  destruct (rev (chars s)) as [|c r] eqn:Hrev; [reflexivity|].
  assert (Hc : In c (chars s)).
  { apply in_rev. rewrite Hrev. left. reflexivity. }
  unfold all in Hall. rewrite forallb_forall in Hall.
  rewrite (word_char_not_newline c (Hall c Hc)). reflexivity.
Qed.

(** X29.  [validate_username] lets one trailing newline through.  The
    pattern ends in [$], which also matches just before a final
    newline: a name of letters, digits and underscores followed by a
    newline is accepted exactly when the name without the newline
    is. *)
Theorem validate_username_trailing_newline username :
  all word_char username = true ->
  validate_username (username +:+ String newline "")
  = validate_username username.
Proof.
  intros Hall. unfold validate_username.
  rewrite (match_body_words username Hall).
  replace (match_body (username +:+ String newline "")) with username;
    [reflexivity|].
  unfold match_body. rewrite chars_app. cbn [chars list_ascii_of_string].
  rewrite rev_unit.
  replace (Ascii.eqb newline newline) with true by reflexivity.
  rewrite rev_involutive. unfold str, chars.
  symmetry. apply string_of_list_ascii_of_string.
Qed.

End username_pattern.


Lemma validate_username_trailing_newline_witness :
  pystr.all auth_service.word_char "alice" = true
  /\ auth_service.validate_username ("alice" +:+ String auth_service.newline "")
     = true.
Proof.
  split; [reflexivity|].
  rewrite (validate_username_trailing_newline "alice" eq_refl).
  vm_compute. reflexivity.
Defined.

(** ** The two processing paths ([services/ocr_service.py],
    [tasks/ocr_tasks.py]) *)

Section processing_paths.
Import ocr_service ocr_tasks task_status.

Lemma commit_task_ids task db :
  map OCRTask.id (tasks (commit_task task db)) = map OCRTask.id (tasks db).
Proof. apply update_row_keys. Qed.

Lemma commit_task_first task db :
  In (OCRTask.id task) (map OCRTask.id (tasks db)) ->
  first (fun k => OCRTask.id k =? OCRTask.id task)
        (tasks (commit_task task db)) = Some task.
Proof. apply (first_update_row OCRTask.id task). Qed.

Lemma first_in_keys {A} (key : A -> Z) k rows :
  In k (map key rows) -> exists r, first (fun x => key x =? k) rows = Some r.
Proof.
  intros Hin. apply in_map_iff in Hin as (x & Hk & Hx).
  destruct (first (fun x => key x =? k) rows) as [r|] eqn:Hfind; [eauto|].
  apply (first_none_all _ _ x Hfind) in Hx. apply Z.eqb_neq in Hx.
  contradiction.
Qed.

(** Neither [OCRResult(...)] call of the page loops goes through:
    [text_content] is the first keyword that is not an attribute of
    [models.OCRResult]. *)
Lemma new_result_page task_id page_number boxes :
  new_result page_keywords task_id page_number boxes
  = Raise (TypeError "'text_content' is an invalid keyword argument for OCRResult").
Proof. reflexivity. Qed.

Lemma new_result_failed_page task_id page_number boxes :
  new_result failed_page_keywords task_id page_number boxes
  = Raise (TypeError "'text_content' is an invalid keyword argument for OCRResult").
Proof. reflexivity. Qed.

(** So the attempt at a page ends in an exception, whether the adapter
    returns or raises. *)
Lemma page_attempt_raises engine image task_id page_number :
  exists e,
    (result ← _execute_ocr engine image;
     ocr_result ← new_result page_keywords task_id page_number
                             (blocks result);
     Return (result, ocr_result)) = Raise e.
Proof.
  destruct (_execute_ocr engine image) as [result|e]; cbn.
  - rewrite new_result_page. cbn. eauto.
  - eauto.
Qed.

(** The in-process loop skips every page. *)
Lemma async_pages_skips engine images :
  forall i db task_id task all_results,
    async_pages engine i images db task_id task all_results
    = (db, task, all_results).
Proof.
  induction images as [|image rest IH]; intros i db task_id task all_results;
    [reflexivity|].
  cbn [async_pages].
  destruct (page_attempt_raises engine image task_id (i + 1)) as [e He].
  rewrite He. apply IH.
Qed.

(** The loop of the worker is left on its first page. *)
Lemma worker_pages_first_page engine i image rest db task all_results n :
  worker_pages engine i (image :: rest) db task all_results n
  = (db, Raise (TypeError
                  "'text_content' is an invalid keyword argument for OCRResult")).
Proof.
  cbn [worker_pages].
  destruct (page_attempt_raises engine image (OCRTask.id (OCRTask.row task))
                                (i + 1)) as [e He].
  rewrite He, new_result_failed_page. reflexivity.
Qed.

Lemma touches_only_refl i ts : touches_only i ts ts.
Proof. induction ts; constructor; auto. Qed.

Lemma touches_only_trans i ts1 ts2 ts3 :
  touches_only i ts1 ts2 -> touches_only i ts2 ts3 -> touches_only i ts1 ts3.
Proof.
  intros H12. revert ts3.
  induction H12 as [|a b ts1 ts2 [Hid Hab] _ IH]; intros ts3 H23;
    inversion H23 as [|b' c ? ts3' [Hid' Hbc] Hrest]; subst; constructor.
  - split; [congruence|]. intros Hne. pose proof (Hab Hne) as Heq.
    subst b. apply Hbc, Hne.
  - apply IH, Hrest.
Qed.

Lemma commit_task_touches task db :
  touches_only (OCRTask.id task) (tasks db) (tasks (commit_task task db)).
Proof.
  unfold commit_task, update_row. cbn. induction (tasks db) as [|a ts IH];
    constructor; [|exact IH].
  destruct (Z.eqb_spec (OCRTask.id a) (OCRTask.id task)); split; congruence.
Qed.

Lemma touches_only_ids i ts ts' :
  touches_only i ts ts' -> map OCRTask.id ts = map OCRTask.id ts'.
Proof.
  induction 1 as [|a b ts ts' [Hid _] _ IH]; [reflexivity|].
  cbn. rewrite Hid, IH. reflexivity.
Qed.

(** A commit of a task writes the task table only. *)
Lemma commit_task_other_tables task db :
  with_tasks (tasks db) (commit_task task db) = db.
Proof. destruct db. reflexivity. Qed.

Lemma with_tasks_same db : with_tasks (tasks db) db = db.
Proof. destruct db. reflexivity. Qed.

Lemma with_tasks_chain a b c :
  with_tasks (tasks a) b = a -> with_tasks (tasks b) c = b ->
  with_tasks (tasks a) c = a.
Proof.
  destruct a, b, c. unfold with_tasks. cbn. intros H1 H2.
  injection H1 as -> -> -> -> ->. injection H2 as -> -> -> -> ->.
  reflexivity.
Qed.

(** What the core of the worker comes to, for a task object that has
    no [user_id] assigned (none that a query returns has): nothing but
    rows of the task table is written, only the row of the task, and
    the body never returns. *)
Lemma process_file_ocr_raises engines media now db task file_record pref :
  OCRTask.extra task !! "user_id" = None ->
  exists db' e,
    _process_file_ocr engines media now db task file_record pref
    = (db', Raise e)
    /\ touches_only (OCRTask.id (OCRTask.row task)) (tasks db) (tasks db')
    /\ with_tasks (tasks db) db' = db
    /\ (forall images engine,
          load_images media file_record = Return images ->
          _select_engine engines pref = Return engine ->
          images <> [] ->
          e = TypeError
                "'text_content' is an invalid keyword argument for OCRResult"
          /\ db' = commit_task (OCRTask.row task)
                     (commit_task (OCRTask.row task) db))
    /\ (forall engine,
          load_images media file_record = Return [] ->
          _select_engine engines pref = Return engine ->
          e = AttributeError "'OCRTask' object has no attribute 'user_id'").
Proof.
  intros Hnone. unfold _process_file_ocr.
  destruct (load_images media file_record) as [images|e].
  2: { exists db, e. split; [reflexivity|]. split; [apply touches_only_refl|].
       split; [apply with_tasks_same|]. split; intros; discriminate. }
  cbn [OCRTask.row OCRTask.set_instance_attr].
  pose proof (commit_task_touches (OCRTask.row task) db) as Ht1.
  set (db1 := commit_task (OCRTask.row task) db) in *.
  destruct (_select_engine engines pref) as [engine|e].
  2: { exists db1, e. split; [reflexivity|]. split; [exact Ht1|].
       split; [apply commit_task_other_tables|]. split; intros; discriminate. }
  pose proof (commit_task_touches (OCRTask.row task) db1) as Ht2.
  set (db2 := commit_task (OCRTask.row task) db1) in *.
  assert (Ht12 : touches_only (OCRTask.id (OCRTask.row task)) (tasks db)
                              (tasks db2))
    by (eapply touches_only_trans; eassumption).
  assert (Ho2 : with_tasks (tasks db) db2 = db)
    by (subst db2 db1; destruct db; reflexivity).
  destruct images as [|image rest].
  - cbn [worker_pages OCRTask.row OCRTask.set_row OCRTask.set_instance_attr
         OCRTask.extra].
    unfold OCRTask.instance_attr.
    cbn [OCRTask.extra OCRTask.set_instance_attr OCRTask.set_row].
    rewrite !lookup_insert_ne, Hnone by discriminate.
    eexists _, _. split; [reflexivity|]. split; [|split; [|split]].
    + eapply touches_only_trans; [exact Ht12|].
      exact (commit_task_touches
               (OCRTask.set_status "completed" (OCRTask.row task)) db2).
    + subst db2 db1. destruct db. reflexivity.
    + intros images engine' [= <-] _ Hne. contradiction.
    + reflexivity.
  - rewrite worker_pages_first_page.
    eexists _, _. split; [reflexivity|]. split; [exact Ht12|].
    split; [exact Ho2|]. split; [|intros; discriminate].
    intros images engine' _ [= <-] _. auto.
Qed.

(** The handler of the worker leaves the task failed, with the
    message of the exception; it asks for a retry, with a delay that
    doubles from one minute, as long as the job has been retried less
    than three times. *)
Lemma on_failure_answers request db task_id now e db' answer :
  In task_id (map OCRTask.id (tasks db)) ->
  on_failure request db task_id now e = (db', answer) ->
  (exists t, first (fun k => OCRTask.id k =? task_id) (tasks db') = Some t
             /\ OCRTask.status t = "failed"
             /\ OCRTask.error_message t = Some (exn_str e))
  /\ touches_only task_id (tasks db) (tasks db')
  /\ with_tasks (tasks db) db' = db
  /\ match answer with
     | Return reply =>
         reply !! "status" = Some (VStr "failed")
         /\ max_retries <= retries request
     | Raise e' =>
         e' = Retry (60 * 2 ^ retries request)
         /\ retries request < max_retries
     end.
Proof.
  intros Hin. unfold on_failure.
  destruct (first_in_keys OCRTask.id task_id _ Hin) as (task & Hfind).
  rewrite Hfind. pose proof (first_some_key _ _ _ _ Hfind) as [Hid _].
  set (failed := OCRTask.set_error_message (exn_str e) _).
  assert (Hfid : OCRTask.id failed = task_id) by exact Hid.
  assert (Hfailed : first (fun k => OCRTask.id k =? task_id)
                          (tasks (commit_task failed db)) = Some failed).
  { rewrite <- Hfid. apply commit_task_first. rewrite Hfid. exact Hin. }
  assert (Htouch : touches_only task_id (tasks db)
                                (tasks (commit_task failed db))).
  { rewrite <- Hfid. apply commit_task_touches. }
  destruct (Z.ltb_spec (retries request) max_retries); intros [= <- <-].
  - split; [exists failed; auto|]. split; [exact Htouch|].
    split; [apply commit_task_other_tables|]. auto.
  - split; [exists failed; auto|]. split; [exact Htouch|].
    split; [apply commit_task_other_tables|]. split; [|assumption].
    apply lookup_insert_eq.
Qed.

(** A run of the worker on a pending task: it always ends in the
    handler. *)
Lemma process_ocr_task_pending engines media request now db task_id pref k :
  first (fun k => OCRTask.id k =? task_id) (tasks db) = Some k ->
  OCRTask.status k = "pending" ->
  exists e db' answer,
    process_ocr_task engines media request now db task_id pref
    = (db', answer)
    /\ (exists t, first (fun k => OCRTask.id k =? task_id) (tasks db')
                  = Some t
                  /\ OCRTask.status t = "failed"
                  /\ OCRTask.error_message t = Some (exn_str e))
    /\ touches_only task_id (tasks db) (tasks db')
    /\ with_tasks (tasks db) db' = db
    /\ match answer with
       | Return reply =>
           reply !! "status" = Some (VStr "failed")
           /\ max_retries <= retries request
       | Raise e' =>
           e' = Retry (60 * 2 ^ retries request)
           /\ retries request < max_retries
       end
    /\ (forall file_record images engine,
          first (fun f => File.id f =? OCRTask.file_id k) (files db)
          = Some file_record ->
          load_images media file_record = Return images ->
          images <> [] ->
          _select_engine engines pref = Return engine ->
          e = TypeError
                "'text_content' is an invalid keyword argument for OCRResult").
Proof.
  intros Hfind Hpending. unfold process_ocr_task. rewrite Hfind, Hpending.
  replace (str_eqb "pending" "pending") with true by reflexivity.
  cbn [negb OCRTask.row OCRTask.set_row OCRTask.set_instance_attr
       OCRTask.loaded].
  pose proof (first_some_key _ _ _ _ Hfind) as [Hid Hin].
  apply (in_map OCRTask.id) in Hin. rewrite Hid in Hin.
  set (started := OCRTask.set_status "processing" k).
  assert (Hsid : OCRTask.id started = task_id) by exact Hid.
  pose proof (commit_task_touches started db) as Ht1. rewrite Hsid in Ht1.
  set (db1 := commit_task started db) in *.
  assert (Hin1 : In task_id (map OCRTask.id (tasks db1)))
    by (subst db1; rewrite commit_task_ids; exact Hin).
  assert (Ho1 : with_tasks (tasks db) db1 = db)
    by apply commit_task_other_tables.
  change (files db1) with (files db).
  change (OCRTask.file_id started) with (OCRTask.file_id k).
  destruct (first (fun f => File.id f =? OCRTask.file_id k) (files db))
    as [file_record|].
  - match goal with
    | |- context [_process_file_ocr _ _ _ _ ?t _ _] => set (task := t)
    end.
    assert (Hnone : OCRTask.extra task !! "user_id" = None).
    { subst task. unfold OCRTask.set_instance_attr, OCRTask.set_row,
        OCRTask.loaded. cbn [OCRTask.extra OCRTask.row].
      rewrite !lookup_insert_ne by discriminate. apply lookup_empty. }
    destruct (process_file_ocr_raises engines media now db1 task file_record
                pref Hnone)
      as (db2 & e & Hcore & Ht2 & Ho2 & Hpages & _).
    rewrite Hcore.
    assert (Hrow : OCRTask.id (OCRTask.row task) = task_id) by exact Hid.
    rewrite Hrow in Ht2.
    assert (Hin2 : In task_id (map OCRTask.id (tasks db2))).
    { rewrite <- (touches_only_ids _ _ _ Ht2). exact Hin1. }
    destruct (on_failure request db2 task_id now e) as [db3 answer] eqn:Hfail.
    destruct (on_failure_answers _ _ _ _ _ _ _ Hin2 Hfail)
      as (Hfailed & Ht3 & Ho3 & Hanswer).
    exists e, db3, answer. split; [reflexivity|]. split; [exact Hfailed|].
    split; [eauto using touches_only_trans|].
    split; [|split; [exact Hanswer|]].
    + eauto using with_tasks_chain.
    + intros f images engine [= <-] Hload Hne Hsel.
      apply (Hpages images engine Hload Hsel Hne).
  - destruct (on_failure request db1 task_id now (ValueError "关联文件不存在"))
      as [db3 answer] eqn:Hfail.
    destruct (on_failure_answers _ _ _ _ _ _ _ Hin1 Hfail)
      as (Hfailed & Ht3 & Ho3 & Hanswer).
    exists (ValueError "关联文件不存在"), db3, answer.
    split; [reflexivity|]. split; [exact Hfailed|].
    split; [eauto using touches_only_trans|].
    split; [|split; [exact Hanswer|discriminate]].
    eauto using with_tasks_chain.
Qed.

Lemma other_tables a b :
  with_tasks (tasks a) b = a ->
  results b = results a /\ api_usage b = api_usage a /\ files b = files a.
Proof. intros H. rewrite <- H. destruct b. cbn. auto. Qed.

(** The [try] block of the in-process path never reaches its end: it
    is left by the exception of the page loader, by the one of the
    selection, or after the commit of the status [completed], where it
    reads [task.user_id]. *)
Lemma async_body_raises engines media now db task_id k file_record pref :
  first (fun k => OCRTask.id k =? task_id) (tasks db) = Some k ->
  exists db1 k1,
    async_body engines media now db task_id (OCRTask.loaded k) file_record
               pref
    = (db1,
       Raise match load_images media file_record with
             | Raise e => e
             | Return _ =>
                 match _select_engine engines pref with
                 | Raise e => e
                 | Return _ => orm.no_attribute "OCRTask" "user_id"
                 end
             end)
    /\ first (fun k => OCRTask.id k =? task_id) (tasks db1) = Some k1
    /\ OCRTask.set_status "failed" k1 = OCRTask.set_status "failed" k
    /\ touches_only task_id (tasks db) (tasks db1)
    /\ with_tasks (tasks db) db1 = db.
Proof.
  intros Hfind. pose proof (first_some_key _ _ _ _ Hfind) as [Hid Hin].
  apply (in_map OCRTask.id) in Hin. rewrite Hid in Hin.
  unfold async_body.
  destruct (load_images media file_record) as [images|e].
  2:{ exists db, k. split; [reflexivity|]. split; [exact Hfind|].
      split; [reflexivity|]. split; [apply touches_only_refl|].
      apply with_tasks_same. }
  cbn zeta.
  change (OCRTask.row (OCRTask.set_instance_attr "total_pages" _
                         (OCRTask.loaded k))) with k.
  pose proof (commit_task_touches k db) as Ht1. rewrite Hid in Ht1.
  pose proof (commit_task_other_tables k db) as Ho1.
  assert (Hf1 : first (fun k => OCRTask.id k =? task_id)
                      (tasks (commit_task k db)) = Some k).
  { rewrite <- Hid. apply commit_task_first. rewrite Hid. exact Hin. }
  set (db1 := commit_task k db) in *.
  assert (Hin1 : In task_id (map OCRTask.id (tasks db1)))
    by (subst db1; rewrite commit_task_ids; exact Hin).
  destruct (_select_engine engines pref) as [engine|e].
  2:{ exists db1, k. auto. }
  rewrite async_pages_skips.
  set (task := OCRTask.set_instance_attr "completed_at" _ _).
  assert (Hrow : OCRTask.row task = OCRTask.set_status "completed" k)
    by reflexivity.
  assert (Hnone : OCRTask.instance_attr task "user_id"
                  = Raise (orm.no_attribute "OCRTask" "user_id")).
  { subst task. unfold OCRTask.instance_attr, OCRTask.set_instance_attr,
      OCRTask.set_row, OCRTask.loaded. cbn [OCRTask.extra OCRTask.row].
    rewrite !lookup_insert_ne by discriminate. rewrite lookup_empty.
    reflexivity. }
  rewrite Hnone, Hrow.
  change (OCRTask.row (OCRTask.set_instance_attr "engine_used" _ _)) with k.
  set (done := OCRTask.set_status "completed" k).
  assert (Hdid : OCRTask.id done = task_id) by exact Hid.
  pose proof (commit_task_touches k db1) as Ht2. rewrite Hid in Ht2.
  pose proof (commit_task_other_tables k db1) as Ho2.
  set (db2 := commit_task k db1) in *.
  assert (Hin2 : In task_id (map OCRTask.id (tasks db2)))
    by (subst db2; rewrite commit_task_ids; exact Hin1).
  pose proof (commit_task_touches done db2) as Ht3. rewrite Hdid in Ht3.
  pose proof (commit_task_other_tables done db2) as Ho3.
  exists (commit_task done db2), done. split; [reflexivity|].
  split; [rewrite <- Hdid; apply commit_task_first; rewrite Hdid; exact Hin2|].
  split; [reflexivity|].
  split; [eauto using touches_only_trans|].
  eauto using with_tasks_chain.
Qed.

(** X22.  The worker settles a pending task, and a retry does nothing.
    A run of [process_ocr_task] on a pending task leaves the task
    failed, never completed: it answers with the status failed once
    the job has been retried three times, and asks the queue for a
    retry before that, with a delay of sixty seconds doubled for every
    retry so far.  But the task is then marked failed, so every later
    run of the job on the task, the retry included, finds it not
    pending: it answers with the status error and leaves the store as
    it is. *)
Theorem process_ocr_task_settles_once engines media request now db task_id
    pref task :
  first (fun k => OCRTask.id k =? task_id) (tasks db) = Some task ->
  OCRTask.status task = "pending" ->
  let db' := (process_ocr_task engines media request now db task_id pref).1 in
  let answer :=
    (process_ocr_task engines media request now db task_id pref).2 in
  (exists t,
     first (fun k => OCRTask.id k =? task_id) (tasks db') = Some t
     /\ match answer with
        | Return reply =>
            OCRTask.status t = "failed"
            /\ reply !! "status" = Some (VStr "failed")
            /\ max_retries <= retries request
        | Raise e =>
            OCRTask.status t = "failed"
            /\ e = Retry (60 * 2 ^ retries request)
            /\ retries request < max_retries
        end)
  /\ forall engines' media' request' now' pref',
       process_ocr_task engines' media' request' now' db' task_id pref'
       = (db', Return {[ "status" := VStr "error";
                         "message" := VStr "任务状态不正确" ]}).
Proof.
  intros Hfind Hpending. cbn zeta.
  destruct (process_ocr_task_pending engines media request now db task_id
              pref task Hfind Hpending)
    as (e & db' & answer & Hrun & (t & Ht & Hst & _) & _ & _ & Hanswer & _).
  rewrite Hrun. cbn [fst snd]. split.
  - exists t. split; [exact Ht|].
    destruct answer as [reply|e']; tauto.
  - intros engines' media' request' now' pref'. unfold process_ocr_task.
    rewrite Ht, Hst. reflexivity.
Qed.

(** X2.  The queue worker records no page.  Whatever the task, the
    file and the engines, a run of [process_ocr_task] leaves the result
    rows, the usage rows and the file rows as they were, and its reply
    never carries the status completed.  When the task is pending and
    its file has at least one page, the run leaves the task failed,
    and the message is the one of the [OCRResult(...)] call: the
    keyword [text_content] names no attribute of the model. *)
Theorem worker_records_no_page engines media request now db task_id pref :
  let db' := (process_ocr_task engines media request now db task_id pref).1 in
  let answer :=
    (process_ocr_task engines media request now db task_id pref).2 in
  results db' = results db
  /\ api_usage db' = api_usage db
  /\ files db' = files db
  /\ (forall reply, answer = Return reply ->
                    reply !! "status" <> Some (VStr "completed"))
  /\ (forall k file_record images engine,
        first (fun k => OCRTask.id k =? task_id) (tasks db) = Some k ->
        OCRTask.status k = "pending" ->
        first (fun f => File.id f =? OCRTask.file_id k) (files db)
        = Some file_record ->
        load_images media file_record = Return images ->
        images <> [] ->
        _select_engine engines pref = Return engine ->
        exists t,
          first (fun k => OCRTask.id k =? task_id) (tasks db') = Some t
          /\ OCRTask.status t = "failed"
          /\ OCRTask.error_message t
             = Some "'text_content' is an invalid keyword argument for OCRResult").
Proof.
  cbn zeta.
  destruct (first (fun k => OCRTask.id k =? task_id) (tasks db))
    as [k|] eqn:Hfind.
  - destruct (str_eqb (OCRTask.status k) "pending") eqn:Hpending.
    + apply bool_decide_eq_true_1 in Hpending.
      destruct (process_ocr_task_pending engines media request now db task_id
                  pref k Hfind Hpending)
        as (e & db' & answer & Hrun & (t & Ht & Hst & Hmsg) & _ & Hother
            & Hanswer & Hpages).
      rewrite Hrun. cbn [fst snd].
      destruct (other_tables _ _ Hother) as (Hr & Hu & Hf).
      repeat split; try assumption.
      * intros reply ->. destruct Hanswer as [Hfailed _]. rewrite Hfailed.
        discriminate.
      * intros k' file_record images engine [= <-] _ Hfile Hload Hne Hsel.
        exists t. split; [exact Ht|]. split; [exact Hst|].
        rewrite Hmsg, (Hpages _ _ _ Hfile Hload Hne Hsel). reflexivity.
    + unfold process_ocr_task. rewrite Hfind, Hpending. cbn [negb fst snd].
      repeat split.
      * intros reply [= <-]. rewrite lookup_insert_eq. discriminate.
      * intros k' ? ? ? [= <-] Hst. exfalso.
        rewrite Hst in Hpending. discriminate.
  - unfold process_ocr_task. rewrite Hfind. cbn [fst snd]. repeat split.
    + intros reply [= <-]. rewrite lookup_insert_eq. discriminate.
    + discriminate.
Qed.

(** X3.  The in-process run records no page either.  Whatever the
    task, the file and the engines, [_process_file_async] leaves the
    result rows, the usage rows and the file rows as they were.  A task
    it finds it leaves failed, with the message of the page loader when
    that raises, of the selection when that raises, and otherwise with
    the message of the read of [task.user_id], an attribute the task
    model does not declare. *)
Theorem in_process_run_records_no_page engines media now db task_id
    file_record pref :
  let db' := _process_file_async engines media now db task_id file_record
                                 pref in
  results db' = results db
  /\ api_usage db' = api_usage db
  /\ files db' = files db
  /\ touches_only task_id (tasks db) (tasks db')
  /\ forall k,
       first (fun k => OCRTask.id k =? task_id) (tasks db) = Some k ->
       first (fun k => OCRTask.id k =? task_id) (tasks db')
       = Some (OCRTask.set_error_message
                 match load_images media file_record with
                 | Raise e => exn_str e
                 | Return _ =>
                     match _select_engine engines pref with
                     | Raise e => exn_str e
                     | Return _ =>
                         "'OCRTask' object has no attribute 'user_id'"
                     end
                 end
                 (OCRTask.set_status "failed" k)).
Proof.
  cbn zeta. unfold _process_file_async.
  destruct (first (fun k => OCRTask.id k =? task_id) (tasks db))
    as [k|] eqn:Hfind.
  2:{ repeat split; [apply touches_only_refl | discriminate]. }
  destruct (async_body_raises engines media now db task_id k file_record pref
              Hfind)
    as (db1 & k1 & Hrun & Hf1 & Hk1 & Ht1 & Ho1).
  rewrite Hrun. unfold mark_failed. rewrite Hf1, Hk1.
  set (e := match load_images media file_record with
            | Return _ => _ | Raise e => e end).
  set (failed := OCRTask.set_error_message (exn_str e) _).
  pose proof (first_some_key _ _ _ _ Hfind) as [Hid _].
  assert (Hfid : OCRTask.id failed = task_id) by exact Hid.
  pose proof (first_some_key _ _ _ _ Hf1) as [_ Hin1].
  apply (in_map OCRTask.id) in Hin1.
  assert (Hk1id : OCRTask.id k1 = task_id)
    by (apply (first_some_key _ _ _ _ Hf1)).
  rewrite Hk1id in Hin1.
  pose proof (commit_task_touches failed db1) as Ht2. rewrite Hfid in Ht2.
  pose proof (commit_task_other_tables failed db1) as Ho2.
  destruct (other_tables _ _ (with_tasks_chain _ _ _ Ho1 Ho2))
    as (Hr & Hu & Hf).
  split; [exact Hr|]. split; [exact Hu|]. split; [exact Hf|].
  split; [eauto using touches_only_trans|].
  intros k' [= <-].
  replace (first _ (tasks (commit_task failed db1))) with (Some failed).
  - subst failed e.
    destruct (load_images media file_record); [|reflexivity].
    destruct (_select_engine engines pref); reflexivity.
  - symmetry. rewrite <- Hfid. apply commit_task_first. rewrite Hfid.
    exact Hin1.
Qed.

Lemma touches_only_frozen i ts ts' :
  (forall a, In a ts -> OCRTask.id a = i ->
             is_terminal (OCRTask.status a) = false) ->
  touches_only i ts ts' -> frozen ts ts'.
Proof.
  intros Hopen Htouch. unfold frozen.
  induction Htouch as [|a b ts ts' [Hid Hab] _ IH]; constructor.
  - intros Hterm. apply Hab. intros Hi.
    rewrite (Hopen a (or_introl eq_refl) Hi) in Hterm. discriminate.
  - apply IH. intros x Hx. apply Hopen. right. exact Hx.
Qed.

Lemma frozen_refl ts : frozen ts ts.
Proof. induction ts; constructor; auto. Qed.

Lemma unique_by_id ts (a b : OCRTask.t) :
  List.NoDup (map OCRTask.id ts) -> In a ts -> In b ts ->
  OCRTask.id a = OCRTask.id b -> a = b.
Proof.
  induction ts as [|x ts IH]; [intros _ []|].
  cbn. intros Hnd Ha Hb Hid. apply NoDup_cons_iff in Hnd as [Hx Hnd].
  destruct Ha as [->|Ha], Hb as [->|Hb]; auto.
  - exfalso. apply Hx. rewrite Hid. apply in_map, Hb.
  - exfalso. apply Hx. rewrite <- Hid. apply in_map, Ha.
Qed.

(** An object a query has just returned carries no job identifier:
    [celery_task_id] is not a column of the task model. *)
Lemma loaded_task_has_no_job k :
  OCRTask.instance_attr (OCRTask.loaded k) "celery_task_id"
  = Raise (AttributeError "'OCRTask' object has no attribute 'celery_task_id'").
Proof. reflexivity. Qed.

(** The cancellation job writes nothing and revokes nothing: a task in
    a terminal state is turned down with the error reply, and for a
    task that is still open the job raises at [task.celery_task_id]
    before it assigns the status. *)
Lemma cancel_ocr_task_writes_nothing now db task_id :
  cancel_ocr_task now db task_id
  = (db, [],
     match first (fun k => OCRTask.id k =? task_id) (tasks db) with
     | None => Return {[ "error" := VStr "任务不存在" ]}
     | Some k =>
         if is_terminal (OCRTask.status k)
         then Return {[ "error" := VStr "任务已完成或已取消" ]}
         else Raise (AttributeError
                       "'OCRTask' object has no attribute 'celery_task_id'")
     end).
Proof.
  unfold cancel_ocr_task, is_terminal.
  destruct (first _ (tasks db)) as [k|]; [|reflexivity].
  destruct (bool_decide _); [reflexivity|].
  rewrite loaded_task_has_no_job. reflexivity.
Qed.

(** The filter of the two task handlers of the router names
    [OCRTask.task_id]. *)
Lemma owned_job_raises task_id current_user :
  api_ocr.owned_job task_id current_user
  = Raise (AttributeError "type object 'OCRTask' has no attribute 'task_id'").
Proof. reflexivity. Qed.

Lemma cleanup_stuck_tasks_answers now hours db :
  cleanup_tasks.cleanup_stuck_tasks now hours db
  = (db, [],
     {[ "status" := VStr "error";
        "message" :=
          VStr "type object 'OCRTask' has no attribute 'started_at'" ]}).
Proof. reflexivity. Qed.

Lemma delete_user_answers now db user_id :
  api_admin.delete_user now db user_id
  = (db,
     match first (fun u => User.id u =? user_id) (users db) with
     | None => Raise (HTTPException 404 "用户不存在")
     | Some user =>
         if User.is_admin user
         then Raise (HTTPException 400 "不能删除管理员用户")
         else Raise (HTTPException 500 "删除用户失败")
     end).
Proof.
  unfold api_admin.delete_user.
  destruct (first _ (users db)) as [user|]; [|reflexivity].
  destruct (User.is_admin user); reflexivity.
Qed.

(** X4.  Apart from the in-process run, no operation changes a task
    that is in a terminal state, as long as the keys of the tasks are
    unique; and apart from the two processing paths, none changes the
    store at all. *)
Theorem terminal_tasks_frozen now ev db :
  is_in_process ev = false ->
  List.NoDup (map OCRTask.id (tasks db)) ->
  frozen (tasks db) (tasks (run now ev db))
  /\ match ev with
     | Worker _ _ _ _ _ => True
     | _ => run now ev db = db
     end.
Proof.
  intros Hev Hnd.
  destruct ev as [engines media request task_id pref | ? ? ? ? ?
                 | task_id | hours | broker_ok job user | user_id | ? ? ?];
    [|discriminate| | | | |]; cbn [run].
  - (* the queue worker *)
    split; [|exact I].
    destruct (first (fun k => OCRTask.id k =? task_id) (tasks db))
      as [k|] eqn:Hfind.
    + destruct (str_eqb (OCRTask.status k) "pending") eqn:Hpending.
      * apply bool_decide_eq_true_1 in Hpending.
        destruct (process_ocr_task_pending engines media request now db
                    task_id pref k Hfind Hpending)
          as (e & db' & answer & Hrun & _ & Htouch & _).
        rewrite Hrun. cbn [fst].
        pose proof (first_some_key _ _ _ _ Hfind) as [Hid Hin].
        eapply touches_only_frozen; [|exact Htouch].
        intros a Ha Hida.
        rewrite (unique_by_id _ a k Hnd Ha Hin) by congruence.
        rewrite Hpending. reflexivity.
      * unfold process_ocr_task. rewrite Hfind, Hpending. apply frozen_refl.
    + unfold process_ocr_task. rewrite Hfind. apply frozen_refl.
  - (* the cancellation job *)
    rewrite cancel_ocr_task_writes_nothing. split; [apply frozen_refl|].
    reflexivity.
  - (* the reclaiming of stuck tasks *)
    rewrite cleanup_stuck_tasks_answers. split; [apply frozen_refl|].
    reflexivity.
  - (* the cancellation endpoint *)
    unfold api_ocr.cancel_task. rewrite owned_job_raises.
    split; [apply frozen_refl | reflexivity].
  - (* the deletion of a user *)
    rewrite delete_user_answers. split; [apply frozen_refl | reflexivity].
  - (* the status poll *)
    unfold api_ocr.get_task_status. rewrite owned_job_raises.
    split; [apply frozen_refl | reflexivity].
Qed.



(** C2, as the code behaves.  A PDF of two pages whose first page makes
    the engine raise, with [paddleocr] preferred and live: neither
    processing path leaves a result row, and both leave the task
    failed.  The queue worker reaches the handler of the first page,
    whose [OCRResult(...)] call names [text_content], which the model
    does not declare, so the [TypeError] leaves the loop, the task is
    marked failed with that message and the job asks for a retry.  The
    in-process run skips both pages, since the same call in its [try]
    raises for the page that was recognised too, commits the status
    completed, then reads [task.user_id], which the model does not
    declare either, and its handler marks the task failed. *)
Theorem page_failure_fails_the_task :
  let engines : gset string := {[ "paddleocr" ]} in
  let worker :=
    process_ocr_task engines sample.media
      {| request_id := "job-1"; retries := 0 |} sample.now
      (sample.db_with_task "pending") 1 (Some "paddleocr") in
  let in_process :=
    _process_file_async engines sample.media sample.now
      (sample.db_with_task "processing") 1 sample.pdf_file
      (Some "paddleocr") in
  let outcome (db : DB) :=
    map (fun k => (OCRTask.status k, OCRTask.error_message k)) (tasks db) in
  (exists page1 page2 result,
     load_images sample.media sample.pdf_file = Return [page1; page2]
     /\ _execute_ocr "paddleocr" page1 = Raise (Exception "engine crashed")
     /\ _execute_ocr "paddleocr" page2 = Return result)
  /\ worker.2 = Raise (Retry 60)
  /\ results worker.1 = []
  /\ outcome worker.1
     = [("failed",
         Some "'text_content' is an invalid keyword argument for OCRResult")]
  /\ results in_process = []
  /\ outcome in_process
     = [("failed", Some "'OCRTask' object has no attribute 'user_id'")].
Proof.
  cbv zeta. split.
  - eexists _, _, _. split; [reflexivity|]. split; reflexivity.
  - repeat split; run.
Qed.

(** C8, as the code behaves.  A cancellation against a task in a
    terminal state is turned down and the row is kept.  But the
    cancellation of an open task does not go through: for a pending
    and for a processing task [cancel_ocr_task] raises at
    [task.celery_task_id], an attribute the task model does not
    declare, before it assigns the status; the task keeps its status
    and no job is revoked.  The handler of [DELETE /ocr/tasks/{id}]
    raises at [OCRTask.task_id] in its query.  And a terminal state is
    left: the in-process run on a cancelled task marks it failed. *)
Theorem cancellation_of_open_task_raises :
  let cancel st := cancel_ocr_task sample.now (sample.db_with_task st) 1 in
  let no_job :=
    AttributeError "'OCRTask' object has no attribute 'celery_task_id'" in
  (forall st, is_terminal st = true ->
     cancel st = (sample.db_with_task st, [],
                  Return {[ "error" := VStr "任务已完成或已取消" ]}))
  /\ cancel "pending" = (sample.db_with_task "pending", [], Raise no_job)
  /\ cancel "processing" = (sample.db_with_task "processing", [], Raise no_job)
  /\ (forall broker_ok st,
        api_ocr.cancel_task sample.now broker_ok (sample.db_with_task st)
                            "job-1" (sample.alice "free")
        = (sample.db_with_task st,
           Raise (AttributeError
                    "type object 'OCRTask' has no attribute 'task_id'")))
  /\ map OCRTask.status
         (tasks (_process_file_async {[ "paddleocr" ]} sample.media sample.now
                   (sample.db_with_task "cancelled") 1 sample.pdf_file
                   (Some "paddleocr")))
     = ["failed"].
Proof.
  cbv zeta. split; [|split; [|split; [|split]]].
  - intros st Hterm. rewrite cancel_ocr_task_writes_nothing.
    change (first _ (tasks (sample.db_with_task st)))
      with (Some (sample.task st)).
    cbv iota beta. change (OCRTask.status (sample.task st)) with st.
    rewrite Hterm. reflexivity.
  - run.
  - run.
  - intros broker_ok st. unfold api_ocr.cancel_task.
    rewrite owned_job_raises. reflexivity.
  - run.
Qed.

End processing_paths.

(** ** Housekeeping, the admin router and the task queries
    ([tasks/cleanup_tasks.py], [api/admin.py],
    [services/ocr_service.py]) *)

Section housekeeping_and_queries.
Import ocr_service task_queries.

(** X23.  [cleanup_stuck_tasks] resets no task.  Its query names
    [OCRTask.started_at], which the task model does not declare
    (the column is [start_time]), so every run ends in the handler:
    the store is handed back as it was, no job is revoked, and the
    reply carries the status error with the message of the
    [AttributeError], and no count of reset tasks. *)
Theorem cleanup_stuck_tasks_resets_nothing now hours db :
  let r := cleanup_tasks.cleanup_stuck_tasks now hours db in
  r.1.1 = db
  /\ r.1.2 = []
  /\ r.2 !! "status" = Some (VStr "error")
  /\ r.2 !! "message"
     = Some (VStr "type object 'OCRTask' has no attribute 'started_at'")
  /\ r.2 !! "reset_tasks" = None.
Proof. cbv zeta. repeat split. Qed.

(** X24.  [delete_user] deactivates nobody.  The handler answers 404
    for an unknown user and 400 for an administrator.  For any other
    user it marks the account inactive in the session and then builds
    the query for the open tasks with [OCRTask.user_id], which the task
    model does not declare; the handler rolls the session back and
    answers 500.  So the handler never returns a reply, and the store
    is always left as it was. *)
Theorem delete_user_deactivates_nobody now db user_id :
  let r := api_admin.delete_user now db user_id in
  r.1 = db
  /\ r.2 = match first (fun u => User.id u =? user_id) (users db) with
           | None => Raise (HTTPException 404 "用户不存在")
           | Some user =>
               if User.is_admin user
               then Raise (HTTPException 400 "不能删除管理员用户")
               else Raise (HTTPException 500 "删除用户失败")
           end
  /\ forall reply, r.2 <> Return reply.
Proof.
  cbv zeta. unfold api_admin.delete_user.
  destruct (first _ (users db)) as [user|]; [|repeat split; discriminate].
  destruct (User.is_admin user); repeat split; discriminate.
Qed.

(** X26.  [get_task_results] without a user id hands out the result
    rows of the task, each of them once, in page order, and nothing
    else; and nothing at all when no task has the given id.  With a
    user id that is not zero the query is narrowed by
    [OCRTask.user_id], which the task model does not declare, and the
    call raises. *)
Theorem get_task_results_sorted db task_id user_id :
  match file_store.given user_id with
  | None =>
      exists rows,
        get_task_results db task_id user_id = Return rows
        /\ by_page rows
        /\ (forall r, In r rows ->
              OCRResult.task_id r = task_id /\ In r (results db))
        /\ (In task_id (map OCRTask.id (tasks db)) ->
            rows ≡ₚ List.filter (fun r => OCRResult.task_id r =? task_id)
                                (results db))
        /\ (~ In task_id (map OCRTask.id (tasks db)) -> rows = [])
  | Some _ =>
      get_task_results db task_id user_id
      = Raise (AttributeError
                 "type object 'OCRTask' has no attribute 'user_id'")
  end.
Proof.
  unfold get_task_results, get_task_status.
  destruct (file_store.given user_id) as [u|]; [reflexivity|].
  assert (Hsorted : forall l, by_page (order_by_page l)).
  { induction l as [|x l IH]; [exact I|]. apply insert_by_page_sorted, IH. }
  cbn.
  destruct (first (fun k => OCRTask.id k =? task_id) (tasks db))
    as [k|] eqn:Hfind.
  - eexists. split; [reflexivity|]. split; [apply Hsorted|].
    split; [|split].
    + intros r. rewrite order_by_page_in, filter_In, Z.eqb_eq. tauto.
    + intros _. apply order_by_page_perm.
    + intros Hno. exfalso. apply Hno.
      apply first_some_in in Hfind as [Hin Hid]. apply Z.eqb_eq in Hid.
      rewrite <- Hid. apply in_map, Hin.
  - exists []. split; [reflexivity|]. split; [exact I|].
    split; [intros r []|]. split; [|reflexivity].
    intros Hin. exfalso. apply in_map_iff in Hin as (k & Hid & Hin).
    apply (first_none_all _ _ k Hfind) in Hin. apply Z.eqb_neq in Hin.
    contradiction.
Qed.

(** X30.  [process_file] creates no task and starts no run.  For a
    file that is not in the store under the given owner it raises the
    file-not-found error.  For any other it calls
    [OCRTask(user_id=.., ...)]; [user_id] is not an attribute of the
    task model, so the constructor raises, the handler rolls back and
    raises again, and the line that hands [_process_file_async] to the
    event loop is never reached.  The store is left as it was. *)
Theorem process_file_creates_no_task db file_id user_id :
  process_file db file_id user_id
  = (db,
     Raise match first (fun f => (File.id f =? file_id)
                                 && (File.user_id f =? user_id))
                       (files db) with
           | None => ValueError "文件不存在"
           | Some _ =>
               TypeError "'user_id' is an invalid keyword argument for OCRTask"
           end).
Proof.
  unfold process_file. destruct (first _ (files db)); reflexivity.
Qed.

End housekeeping_and_queries.

Lemma terminal_tasks_frozen_witness :
  (task_status.is_in_process (task_status.CancelJob 1) = false
   /\ List.NoDup (map OCRTask.id (tasks (sample.db_with_task "completed"))))
  /\ task_status.frozen
       (tasks (sample.db_with_task "completed"))
       (tasks (task_status.run sample.now (task_status.CancelJob 1)
                               (sample.db_with_task "completed")))
  /\ task_status.run sample.now (task_status.CancelJob 1)
                     (sample.db_with_task "completed")
     = sample.db_with_task "completed".
Proof.
  assert (Hnd : List.NoDup
                  (map OCRTask.id (tasks (sample.db_with_task "completed"))))
    by (repeat constructor; intros []).
  split; [auto|].
  exact (terminal_tasks_frozen sample.now (task_status.CancelJob 1) _
                               eq_refl Hnd).
Defined.

Lemma process_ocr_task_settles_once_witness :
  (first (fun k => OCRTask.id k =? 1) (tasks (sample.db_with_task "pending"))
   = Some (sample.task "pending")
   /\ OCRTask.status (sample.task "pending") = "pending")
  /\ forall request',
       ocr_tasks.process_ocr_task {[ "paddleocr" ]} sample.media request'
         sample.now
         (ocr_tasks.process_ocr_task ∅ sample.media
            {| ocr_tasks.request_id := "job-1"; ocr_tasks.retries := 0 |}
            sample.now (sample.db_with_task "pending") 1 None).1
         1 (Some "paddleocr")
       = ((ocr_tasks.process_ocr_task ∅ sample.media
             {| ocr_tasks.request_id := "job-1"; ocr_tasks.retries := 0 |}
             sample.now (sample.db_with_task "pending") 1 None).1,
          Return {[ "status" := VStr "error";
                    "message" := VStr "任务状态不正确" ]}).
Proof.
  assert (Hfind : first (fun k => OCRTask.id k =? 1)
                        (tasks (sample.db_with_task "pending"))
                  = Some (sample.task "pending")) by reflexivity.
  assert (Hst : OCRTask.status (sample.task "pending") = "pending")
    by reflexivity.
  split; [auto|]. intros request'.
  destruct (process_ocr_task_settles_once ∅ sample.media
              {| ocr_tasks.request_id := "job-1"; ocr_tasks.retries := 0 |}
              sample.now (sample.db_with_task "pending") 1 None
              (sample.task "pending") Hfind Hst) as [_ Hagain].
  apply Hagain.
Defined.

